(** * pyrsostf.plots.plot_utilities: a shallow embedding

    The module under study is [pyrsostf/plots/plot_utilities.py]: two
    mismatch finders over label and prediction vectors, and a family of
    matplotlib renderers.  NumPy arrays are modelled as lists (vectors) or as
    a shape with row-major data (tensors); a Python exception is the [Err]
    branch of [res]; the matplotlib figure a renderer draws into is an
    explicit state in which every axes object records the calls made on it.
    Library behaviour is that of NumPy 1.25 and matplotlib 3.x.  Whether a
    path can be written is the file system's business: the renderer that
    saves its figure takes the outcome of opening a path as a parameter.
    The packaging script [setup.py] only reads files and runs git; it is
    not modelled. *)

From Stdlib Require Import ZArith String QArith Sorted.
From stdpp Require Import base tactics option list numbers pretty.

Local Open Scope string_scope.
Local Open Scope list_scope.
Local Open Scope nat_scope.

(** ** Python exceptions and fallible results *)

Inductive pyerr : Type :=
| ValueError (msg : string)
| IndexError (msg : string)
| TypeError (msg : string)
| AttributeError (msg : string)
| ZeroDivisionError (msg : string)
| RuntimeError (msg : string)
| FileNotFoundError (msg : string)
| OSError (msg : string).

Inductive res (A : Type) : Type :=
| Ok (a : A)
| Err (e : pyerr).
Arguments Ok {A} a.
Arguments Err {A} e.

#[global] Instance res_ret : MRet res := λ A a, Ok a.
#[global] Instance res_bind : MBind res := λ A B f m,
  match m with
  | Ok a => f a
  | Err e => Err e
  end.

Definition is_ok {A} (r : res A) : bool :=
  match r with Ok _ => true | Err _ => false end.

(** ** NumPy vectors: the operations the mismatch finders use *)

Module Np.

(** [a != b] on one-dimensional integer arrays.  Equal lengths compare
    element by element; a length-one operand is broadcast against the other;
    any other pair of lengths cannot be broadcast and raises. *)
Definition ne (a b : list Z) : res (list bool) :=
  if decide (length a = length b)
  then Ok (zip_with (λ x y, bool_decide (x ≠ y)) a b)
  else match a, b with
       | [x], _ => Ok ((λ y, bool_decide (x ≠ y)) <$> b)
       | _, [y] => Ok ((λ x, bool_decide (x ≠ y)) <$> a)
       | _, _ => Err (ValueError "operands could not be broadcast together")
       end.

(** [np.where(mask)[0]]: a forward scan collecting the positions that hold
    [True]. *)
Fixpoint where_from (i : nat) (mask : list bool) : list nat :=
  match mask with
  | [] => []
  | b :: mask' =>
      if b then i :: where_from (S i) mask' else where_from (S i) mask'
  end.

Definition where_ (mask : list bool) : list nat := where_from 0 mask.

(** [arr[idx]] for an array [idx] of non-negative integers (the only kind
    [where_] produces): every index is bounds-checked along the first axis. *)
Definition getitem {A} (arr : list A) (i : nat) : res A :=
  match arr !! i with
  | Some x => Ok x
  | None => Err (IndexError "index is out of bounds for axis 0")
  end.

Definition take {A} (arr : list A) (idx : list nat) : res (list A) :=
  mapM (getitem arr) idx.

End Np.

(** ** The mismatch finders (plot_utilities.py, lines 12-35) *)

Definition find_wrong_predictions_cifar (labels predictions : list Z)
  : res (list nat * list Z * list Z) :=
  mask ← Np.ne labels predictions;
  let wrong_indeces := Np.where_ mask in
  wrong_labels ← Np.take predictions wrong_indeces;
  correct_labels ← Np.take labels wrong_indeces;
  mret (wrong_indeces, wrong_labels, correct_labels).

Definition find_wrong_predictions {img : Type}
    (labels predictions : list Z) (images : list img)
  : res (list nat * list img * list Z * list Z) :=
  mask ← Np.ne labels predictions;
  let wrong_indeces := Np.where_ mask in
  wrong_images ← Np.take images wrong_indeces;
  wrong_labels ← Np.take predictions wrong_indeces;
  correct_labels ← Np.take labels wrong_indeces;
  mret (wrong_indeces, wrong_images, wrong_labels, correct_labels).

(** ** NumPy tensors: a shape and row-major data *)

Record ndarray (val : Type) : Type := NdArray {
  shape : list nat;
  data : list val;
}.
Arguments NdArray {val} shape data.
Arguments shape {val} _.
Arguments data {val} _.

(** The scalars stored in images, weights and scores.  The renderers only
    ever compare them (for the colour scale), so they stay abstract. *)
Class Scalar (val : Type) : Type := {
  smin : val → val → val;
  smax : val → val → val;
}.

#[global] Instance Z_scalar : Scalar Z := {| smin := Z.min; smax := Z.max |}.

Module Nd.
Section ops.
Context {val : Type} `{!Scalar val}.

(** Number of elements a shape holds. *)
Definition numel (sh : list nat) : nat := foldr Nat.mul 1 sh.

(** The representation invariant of an array. *)
Definition wf (a : ndarray val) : Prop := length (data a) = numel (shape a).

(** [a.shape[k]] *)
Definition shape_at (a : ndarray val) (k : nat) : res nat :=
  match shape a !! k with
  | Some d => Ok d
  | None => Err (IndexError "tuple index out of range")
  end.

(** [a.reshape(sh)] *)
Definition reshape (a : ndarray val) (sh : list nat) : res (ndarray val) :=
  if decide (numel sh = length (data a))
  then Ok (NdArray sh (data a))
  else Err (ValueError "cannot reshape array into the requested shape").

(** [np.min(a)] and [np.max(a)] over all elements. *)
Definition amin (a : ndarray val) : res val :=
  match data a with
  | [] => Err (ValueError "zero-size array to reduction operation minimum which has no identity")
  | x :: l => Ok (foldl smin x l)
  end.

Definition amax (a : ndarray val) : res val :=
  match data a with
  | [] => Err (ValueError "zero-size array to reduction operation maximum which has no identity")
  | x :: l => Ok (foldl smax x l)
  end.

(** From each of [outer] consecutive blocks of [block] elements, keep the
    [len] elements that start at offset [off]. *)
Fixpoint gather (outer block off len : nat) (l : list val) : list val :=
  match outer with
  | 0 => []
  | S outer' =>
      take len (drop off l) ++ gather outer' block off len (drop block l)
  end.

(** Integer index [i] along axis [k], every other axis kept whole: [a[i]]
    for [k = 0], [a[:, i]] for [k = 1], and so on.  The axis disappears from
    the shape. *)
Definition take_axis (k i : nat) (a : ndarray val) : res (ndarray val) :=
  match shape a !! k with
  | None => Err (IndexError "too many indices for array")
  | Some d =>
      if decide (i < d) then
        let inner := numel (drop (S k) (shape a)) in
        Ok (NdArray (delete k (shape a))
              (gather (numel (take k (shape a))) (d * inner) (i * inner) inner
                 (data a)))
      else Err (IndexError "index is out of bounds for axis")
  end.

(** A Python integer used as an index along axis [k]: negative values count
    from the end. *)
Definition norm_index (k : nat) (i : Z) (a : ndarray val) : res nat :=
  match shape a !! k with
  | None => Err (IndexError "too many indices for array")
  | Some d =>
      if decide (0 ≤ i < Z.of_nat d)%Z then Ok (Z.to_nat i)
      else if decide (- Z.of_nat d ≤ i < 0)%Z then Ok (Z.to_nat (Z.of_nat d + i))
      else Err (IndexError "index is out of bounds for axis")
  end.

(** Transposition of a list of [m]-element rows. *)
Definition ltranspose (m : nat) (rows : list (list val)) : list (list val) :=
  foldr (zip_with cons) (replicate m []) rows.

(** Cut a list into [n] consecutive blocks of [block] elements. *)
Fixpoint chunks (n block : nat) (l : list val) : list (list val) :=
  match n with
  | 0 => []
  | S n' => take block l :: chunks n' block (drop block l)
  end.

(** [a.T]: all axes reversed. *)
Fixpoint transpose_data (sh : list nat) (l : list val) : list val :=
  match sh with
  | [] => l
  | d :: sh' =>
      concat (ltranspose (numel sh')
                (transpose_data sh' <$> chunks d (numel sh') l))
  end.

Definition transpose (a : ndarray val) : ndarray val :=
  NdArray (reverse (shape a)) (transpose_data (shape a) (data a)).

End ops.
End Nd.

(** ** matplotlib: figures that record what is drawn into them *)

(** Keyword arguments of [imshow]; [None] is an argument left out. *)
Record imshow_kw (val : Type) : Type := ImshowKw {
  cmap : option string;
  aspect : option string;
  interpolation : option string;
  vmin : option val;
  vmax : option val;
}.
Arguments ImshowKw {val} cmap aspect interpolation vmin vmax.
Arguments cmap {val} _.
Arguments aspect {val} _.
Arguments interpolation {val} _.
Arguments vmin {val} _.
Arguments vmax {val} _.

(** The methods the module calls on an axes object, and the one thing
    pyplot does to an axes on the module's behalf: [ColorbarFor h] is the
    colour bar of the image on axes [h], drawn on an axes made for it. *)
Inductive ax_call (val : Type) : Type :=
| ColorbarFor (h : nat)
| Imshow (X : ndarray val) (kw : imshow_kw val)
| Bar (x : list Z) (height : list val) (color : list string)
| SetXLabel (s : string)
| SetYLabel (s : string)
| SetTitle (s : string)
| SetXTicks (ticks : list Z) (labels : option (list Z))
| SetYTicks (ticks : list Z) (labels : option (list Z)).
Arguments ColorbarFor {val} h.
Arguments Imshow {val} X kw.
Arguments Bar {val} x height color.
Arguments SetXLabel {val} s.
Arguments SetYLabel {val} s.
Arguments SetTitle {val} s.
Arguments SetXTicks {val} ticks labels.
Arguments SetYTicks {val} ticks labels.

(** A grid geometry ([GridSpec]) and one cell of it ([SubplotSpec]); cells
    are numbered row by row. *)
Record gridspec : Type := GridSpec {
  gs_nrows : nat;
  gs_ncols : nat;
  gs_top : option Q;
  gs_bottom : option Q;
  gs_right : option Q;
  gs_left : option Q;
  gs_hspace : option Q;
  gs_wspace : option Q;
}.

Record subplotspec : Type := SubplotSpec {
  ss_grid : gridspec;
  ss_cell : nat;
}.

(** An axes object: where it sits, and the calls made on it, oldest first. *)
Record axes (val : Type) : Type := Axes {
  ax_spec : subplotspec;
  ax_calls : list (ax_call val);
}.
Arguments Axes {val} ax_spec ax_calls.
Arguments ax_spec {val} _.
Arguments ax_calls {val} _.

(** Calls that address the figure as a whole. *)
Inductive fig_call : Type :=
| SubplotsAdjust (hspace wspace : Q)
| TightLayout
| Colorbar
| Show
| Savefig (fname : string).

(** The current figure: its axes in creation order, and the figure-level
    calls, oldest first. *)
Record figure (val : Type) : Type := Figure {
  fig_axes : list (axes val);
  fig_calls : list fig_call;
}.
Arguments Figure {val} fig_axes fig_calls.
Arguments fig_axes {val} _.
Arguments fig_calls {val} _.

(** What [plt.subplots] hands back with the default [squeeze=True]: one
    axes object for a 1x1 grid, a one-dimensional array when there is a
    single row or a single column, a two-dimensional array otherwise.  Axes
    objects are referred to by their position in [fig_axes]. *)
Inductive axes_obj : Type :=
| AxScalar (h : nat)
| Ax1D (hs : list nat)
| Ax2D (rows : list (list nat)).

(** Rendering code runs against the current figure and may raise. *)
Definition plt (val A : Type) : Type := figure val → res (A * figure val).

#[global] Instance plt_ret {val} : MRet (plt val) := λ A a fig, Ok (a, fig).
#[global] Instance plt_bind {val} : MBind (plt val) := λ A B f m fig,
  match m fig with
  | Ok (a, fig') => f a fig'
  | Err e => Err e
  end.

Module Plt.
Section pyplot.
Context {val : Type}.

Definition new_figure : figure val := Figure [] [].

(** Run a renderer on a fresh figure and keep the figure it leaves. *)
Definition run {A} (m : plt val A) : res (figure val) :=
  match m new_figure with
  | Ok (_, fig) => Ok fig
  | Err e => Err e
  end.

Definition lift {A} (r : res A) : plt val A := λ fig,
  match r with
  | Ok a => Ok (a, fig)
  | Err e => Err e
  end.

(** A Python [for] statement over a list. *)
Fixpoint for_ {A} (l : list A) (body : A → plt val unit) : plt val unit :=
  match l with
  | [] => mret ()
  | x :: l' => body x;; for_ l' body
  end.

Definition enumerate {A} (l : list A) : list (nat * A) := imap pair l.

Definition default_grid (nrows ncols : nat) : gridspec :=
  GridSpec nrows ncols None None None None None None.

(** Iterating over a grid yields its cells in row-major order. *)
Definition cells (gs : gridspec) : list subplotspec :=
  SubplotSpec gs <$> seq 0 (gs_nrows gs * gs_ncols gs).

Definition squeeze (nrows ncols : nat) : axes_obj :=
  if decide (nrows = 1 ∧ ncols = 1) then AxScalar 0
  else if decide (nrows = 1 ∨ ncols = 1) then Ax1D (seq 0 (nrows * ncols))
  else Ax2D ((λ r, seq (r * ncols) ncols) <$> seq 0 nrows).

(** [plt.subplots(nrows, ncols)]: a new figure with one empty axes per
    cell. *)
Definition subplots (nrows ncols : nat) : plt val axes_obj := λ _,
  if decide (nrows = 0)
  then Err (ValueError "Number of rows must be a positive integer")
  else if decide (ncols = 0)
  then Err (ValueError "Number of columns must be a positive integer")
  else Ok (squeeze nrows ncols,
           Figure ((λ s, Axes s []) <$> cells (default_grid nrows ncols)) []).

(** [axes.flat] *)
Definition flat (o : axes_obj) : res (list nat) :=
  match o with
  | AxScalar _ => Err (AttributeError "'Axes' object has no attribute 'flat'")
  | Ax1D hs => Ok hs
  | Ax2D rows => Ok (concat rows)
  end.

(** [axes[:, j]] *)
Definition column (o : axes_obj) (j : nat) : res (list nat) :=
  match o with
  | AxScalar _ => Err (TypeError "'Axes' object is not subscriptable")
  | Ax1D _ => Err (IndexError "too many indices for array")
  | Ax2D rows => mapM (λ row, Np.getitem row j) rows
  end.

(** Record a call on the axes with handle [h]. *)
Definition call (h : nat) (c : ax_call val) : plt val unit := λ fig,
  Ok ((), Figure
            (alter (λ a, Axes (ax_spec a) (ax_calls a ++ [c])) h (fig_axes fig))
            (fig_calls fig)).

Definition fig_do (c : fig_call) : plt val unit := λ fig,
  Ok ((), Figure (fig_axes fig) (fig_calls fig ++ [c])).

(** [plt.subplot(spec)]: add an axes at a cell and make it current. *)
Definition subplot (spec : subplotspec) : plt val nat := λ fig,
  Ok (length (fig_axes fig),
      Figure (fig_axes fig ++ [Axes spec []]) (fig_calls fig)).

(** The handle of the newest axes that satisfies [P]. *)
Fixpoint newest_from (P : axes val → bool) (h : nat) (l : list (axes val))
  : option nat :=
  match l with
  | [] => None
  | a :: l' =>
      match newest_from P (S h) l' with
      | Some h' => Some h'
      | None => if P a then Some h else None
      end
  end.

Definition newest (P : axes val → bool) (fig : figure val) : option nat :=
  newest_from P 0 (fig_axes fig).

Definition is_colorbar_axes (a : axes val) : bool :=
  match ax_calls a with
  | ColorbarFor _ :: _ => true
  | _ => false
  end.

Definition has_image (a : axes val) : bool :=
  existsb (λ c, match c with Imshow _ _ => true | _ => false end) (ax_calls a).

(** The current axes.  [plt.subplots] and [plt.subplot] make the axes they
    create current, and [plt.colorbar] puts the current axes back after
    adding its own, so the current axes is the newest one that is not a
    colour bar. *)
Definition current_axes (fig : figure val) : option nat :=
  newest (λ a, negb (is_colorbar_axes a)) fig.

(** [plt.gca()]: the current axes, created on a 1x1 grid when the figure
    has none. *)
Definition gca : plt val nat := λ fig,
  match current_axes fig with
  | Some h => Ok (h, fig)
  | None => subplot (SubplotSpec (default_grid 1 1) 0) fig
  end.

(** [plt.gci()]: the axes of the current image, which is the image of the
    current axes or, when that has none, of the newest axes that has one. *)
Definition gci (fig : figure val) : option nat :=
  match current_axes fig with
  | Some h =>
      match fig_axes fig !! h with
      | Some a => if has_image a then Some h else newest has_image fig
      | None => None
      end
  | None => None
  end.

(** Image data must be M x N, or M x N x 3 or M x N x 4; an M x N x 1 array
    is taken as M x N. *)
Definition image_shape_ok (sh : list nat) : bool :=
  match sh with
  | [_; _] => true
  | [_; _; c] => bool_decide (c = 1 ∨ c = 3 ∨ c = 4)
  | _ => false
  end.

Definition imshow (h : nat) (X : ndarray val) (kw : imshow_kw val)
  : plt val unit :=
  if image_shape_ok (shape X) then call h (Imshow X kw)
  else lift (Err (TypeError "Invalid shape for image data")).

(** [ax.bar(x, height, color=...)]: [x] and [height] are broadcast against
    each other; a one-element [height] is repeated for every [x]. *)
Definition broadcast_to (n : nat) (height : list val) : res (list val) :=
  if decide (length height = n) then Ok height
  else match height with
       | [v] => Ok (replicate n v)
       | _ => Err (ValueError "shape mismatch: objects cannot be broadcast to a single shape")
       end.

Definition bar (h : nat) (x : list Z) (height : list val) (color : list string)
  : plt val unit :=
  height' ← lift (broadcast_to (length x) height);
  call h (Bar x height' color).

Definition set_xlabel (h : nat) (s : string) : plt val unit :=
  call h (SetXLabel s).
Definition set_title (h : nat) (s : string) : plt val unit :=
  call h (SetTitle s).
Definition set_xticks (h : nat) (ticks : list Z) : plt val unit :=
  call h (SetXTicks ticks None).
Definition set_yticks (h : nat) (ticks : list Z) : plt val unit :=
  call h (SetYTicks ticks None).

(** The pyplot functions that act on the current axes. *)
Definition plt_imshow (X : ndarray val) (kw : imshow_kw val) : plt val unit :=
  h ← gca; imshow h X kw.
Definition plt_xticks (ticks labels : list Z) : plt val unit :=
  h ← gca; call h (SetXTicks ticks (Some labels)).
Definition plt_yticks (ticks labels : list Z) : plt val unit :=
  h ← gca; call h (SetYTicks ticks (Some labels)).
Definition plt_xlabel (s : string) : plt val unit :=
  h ← gca; call h (SetXLabel s).

Definition subplots_adjust (hspace wspace : Q) : plt val unit :=
  fig_do (SubplotsAdjust hspace wspace).
Definition tight_layout : plt val unit := fig_do TightLayout.
Definition show : plt val unit := fig_do Show.

(** [plt.colorbar()]: a colour bar for the current image.  Without an image
    there is nothing to make one for and the call raises.  Otherwise the
    figure gets one more axes, which holds the colour bar and sits in the
    cell of the image's axes, in space taken from that axes (how the cell is
    split is not modelled).  The current axes stays what it was. *)
Definition colorbar : plt val unit := λ fig,
  match gci fig with
  | Some h =>
      match fig_axes fig !! h with
      | Some a =>
          Ok ((), Figure (fig_axes fig ++ [Axes (ax_spec a) [ColorbarFor h]])
                         (fig_calls fig ++ [Colorbar]))
      | None =>
          Err (RuntimeError "No mappable was found to use for colorbar creation")
      end
  | None =>
      Err (RuntimeError "No mappable was found to use for colorbar creation")
  end.

(** [plt.savefig(fname)]: [open_file fname] is what opening the path for
    writing gives, [Ok] or the operating system's error (a missing
    directory, a lack of permission); the figure is written only when the
    path opens. *)
Definition savefig (open_file : string → res unit) (fname : string)
  : plt val unit :=
  lift (open_file fname);;
  fig_do (Savefig fname).

End pyplot.
End Plt.

(** ** Integer arithmetic behind the grid sizes *)

(** [np.arange(n)] and [range(n)] for a Python integer [n]. *)
Definition arange (n : Z) : list Z := seqZ 0 n.

(** [int(np.ceil(np.sqrt(n)))].  The double-precision square root is
    correctly rounded, so for every count below 2^52 the result is the least
    [r] with [n <= r * r]; that integer is what is modelled. *)
Definition ceil_sqrt (n : nat) : nat :=
  let r := Nat.sqrt n in
  if decide (r * r = n) then r else S r.

(** [int(np.ceil(n * 1.0 / d))] for Python integers [n] and [d]: the float
    division raises on a zero divisor, and below 2^53 its rounded-up result
    is the least [c] with [n <= c * d]. *)
Definition ceil_div (n d : nat) : res nat :=
  if decide (d = 0) then Err (ZeroDivisionError "float division by zero")
  else Ok ((n + d - 1) / d).

(** ** The renderers (plot_utilities.py, lines 37-218) *)

Section renderers.
Context {val : Type} `{!Scalar val}.

(** The statistics routine [sklearn.metrics.confusion_matrix] is an external
    collaborator: it is taken as given, with whatever it returns or raises. *)
Context (confusion_matrix : list Z → list Z → res (ndarray val)).

(** The file system is another: [open_file path] is the outcome of opening
    [path] for writing. *)
Context (open_file : string → res unit).

Import Plt.

Definition bar_colors : list string :=
  ["b"; "r"; "g"; "m"; "c"; "y"; "k"; "b"; "r"; "g"].

(** [a[i, :]] *)
Definition index_row (a : ndarray val) (i : nat) : res (ndarray val) :=
  if decide (length (shape a) < 2)
  then Err (IndexError "too many indices for array")
  else Nd.take_axis 0 i a.

(** [a[:, :, c, i]] *)
Definition index_filter (a : ndarray val) (c : Z) (i : nat)
  : res (ndarray val) :=
  c' ← Nd.norm_index 2 c a;
  a' ← Nd.take_axis 3 i a;
  Nd.take_axis 2 c' a'.

(** The parameter [reshape] defaults to [True]; [None] is the call that
    omits it. *)
Definition plot_images (images : ndarray val) (y_pred logits : list (list val))
    (cls_true cls_pred : list Z) (img_shape : list nat)
    (reshape : option bool) : plt val unit :=
  nrows ← lift (Nd.shape_at images 0);
  axes ← subplots nrows 3;
  subplots_adjust (1 # 2) (1 # 2);;
  col ← lift (column axes 0);
  for_ (enumerate col) (λ '(i, subfig),
    (if default true reshape then
       img ← lift (Nd.take_axis 0 i images);
       img ← lift (Nd.reshape img img_shape);
       imshow subfig img (ImshowKw (Some "binary") (Some "auto") None None None)
     else
       img ← lift (Nd.take_axis 0 i images);
       imshow subfig img (ImshowKw None None None None None));;
    t ← lift (Np.getitem cls_true i);
    p ← lift (Np.getitem cls_pred i);
    set_xlabel subfig ("True: " +:+ pretty t +:+ ", Pred: " +:+ pretty p);;
    set_xticks subfig [];;
    set_yticks subfig []);;
  col ← lift (column axes 1);
  for_ (enumerate col) (λ '(i, subfig),
    score ← lift (Np.getitem y_pred i);
    bar subfig (arange 10) score bar_colors;;
    set_xticks subfig (arange 10);;
    set_yticks subfig []);;
  col ← lift (column axes 2);
  for_ (enumerate col) (λ '(i, subfig),
    score ← lift (Np.getitem logits i);
    bar subfig (arange 10) score bar_colors;;
    set_xticks subfig (arange 10);;
    set_yticks subfig []);;
  show.

Definition print_confusion_matrix (labels predictions : list Z)
    (num_classes : Z) : plt val unit :=
  conf_mat ← lift (confusion_matrix labels predictions);
  plt_imshow conf_mat (ImshowKw (Some "Blues") None (Some "nearest") None None);;
  tight_layout;;
  colorbar;;
  let tick_marks := arange num_classes in
  plt_xticks tick_marks (arange num_classes);;
  plt_yticks tick_marks (arange num_classes);;
  plt_xlabel "Predicted";;
  plt_xlabel "True";;
  show.

Definition plot_weights (weights : ndarray val) (img_shape : list nat)
  : plt val unit :=
  w_min ← lift (Nd.amin weights);
  w_max ← lift (Nd.amax weights);
  axes ← subplots 3 4;
  subplots_adjust (3 # 10) (3 # 10);;
  panels ← lift (flat axes);
  for_ (enumerate panels) (λ '(i, axes),
    (if decide (i < 10) then
       col ← lift (Nd.take_axis 1 i weights);
       image ← lift (Nd.reshape col img_shape);
       set_xlabel axes ("Weights: " +:+ pretty i);;
       imshow axes image
         (ImshowKw (Some "seismic") None None (Some w_min) (Some w_max))
     else mret ());;
    set_xticks axes [];;
    set_yticks axes []);;
  show.

(** The parameter [input_channel] defaults to [0]; [None] is the call that
    omits it. *)
Definition plot_conv_weights (weights : ndarray val) (input_channel : option Z)
  : plt val unit :=
  let input_channel := default 0%Z input_channel in
  w_min ← lift (Nd.amin weights);
  w_max ← lift (Nd.amax weights);
  num_filters ← lift (Nd.shape_at weights 3);
  let num_grids := ceil_sqrt num_filters in
  axes ← subplots num_grids num_grids;
  panels ← lift (flat axes);
  for_ (enumerate panels) (λ '(i, ax),
    (if decide (i < num_filters) then
       img ← lift (index_filter weights input_channel i);
       imshow ax img
         (ImshowKw (Some "seismic") None (Some "nearest")
            (Some w_min) (Some w_max))
     else mret ());;
    set_xticks ax [];;
    set_yticks ax []);;
  show.

Definition save_image_collection (images : ndarray val) (filename : string)
  : plt val unit :=
  dimensions ← lift (Nd.shape_at images 0);
  let n_image_rows := ceil_sqrt dimensions in
  n_image_cols ← lift (ceil_div dimensions n_image_rows);
  let grid := GridSpec n_image_rows n_image_cols
                (Some 1%Q) (Some 0%Q) (Some 1%Q) (Some 0%Q)
                (Some 0%Q) (Some 0%Q) in
  for_ (zip (cells grid) (seq 0 dimensions)) (λ '(dim, count),
    ax ← subplot dim;
    row ← lift (index_row images count);
    img ← lift (Nd.reshape row [28; 28]);
    imshow ax img (ImshowKw None None None None None);;
    set_xticks ax [];;
    set_yticks ax []);;
  savefig open_file (filename +:+ "_vis.png").

Definition plot_autoencoder_weights (weights : ndarray val) : plt val unit :=
  let weights := Nd.transpose weights in
  dimensions ← lift (Nd.shape_at weights 1);
  let n_image_rows := ceil_sqrt dimensions in
  n_image_cols ← lift (ceil_div dimensions n_image_rows);
  let grid := GridSpec 10 10
                (Some 1%Q) (Some 0%Q) (Some 1%Q) (Some 0%Q)
                (Some 0%Q) (Some 0%Q) in
  for_ (zip (cells grid) (seq 0 dimensions)) (λ '(dim, count),
    ax ← subplot dim;
    row ← lift (index_row weights count);
    img ← lift (Nd.reshape row [28; 28]);
    imshow ax img (ImshowKw (Some "binary") None None None None);;
    set_xticks ax [];;
    set_yticks ax []);;
  show.

End renderers.

(** ** Reading a finished figure *)

Section observers.
Context {val : Type}.

Definition is_imshow (c : ax_call val) : bool :=
  match c with Imshow _ _ => true | _ => false end.
Definition is_bar (c : ax_call val) : bool :=
  match c with Bar _ _ _ => true | _ => false end.
Definition is_xlabel (c : ax_call val) : bool :=
  match c with SetXLabel _ => true | _ => false end.
Definition is_ylabel (c : ax_call val) : bool :=
  match c with SetYLabel _ => true | _ => false end.

(** A panel is blank when neither an image nor bars were drawn into it. *)
Definition blank (a : axes val) : bool :=
  forallb (λ c, negb (is_imshow c || is_bar c)) (ax_calls a).

(** A panel is labelled when an x-axis caption was set on it. *)
Definition labelled (a : axes val) : bool := existsb is_xlabel (ax_calls a).

(** The caption an axis shows is the one set last. *)
Definition xlabel_of (a : axes val) : option string :=
  last (omap (λ c, match c with SetXLabel s => Some s | _ => None end)
          (ax_calls a)).
Definition ylabel_of (a : axes val) : option string :=
  last (omap (λ c, match c with SetYLabel s => Some s | _ => None end)
          (ax_calls a)).

(** The files a figure was written to. *)
Definition files_written (fig : figure val) : list string :=
  omap (λ c, match c with Savefig f => Some f | _ => None end) (fig_calls fig).

End observers.

(** ** Bookkeeping used to describe what a loop leaves on the axes *)

Section bookkeeping.
Context {val : Type}.

(** Append calls to the record of one axes object. *)
Definition add_calls (h : nat) (cs : list (ax_call val)) (fig : figure val)
  : figure val :=
  Figure (alter (λ a, Axes (ax_spec a) (ax_calls a ++ cs)) h (fig_axes fig))
         (fig_calls fig).

(** Append a batch of calls, each addressed to a handle. *)
Definition add_all (hcs : list (nat * list (ax_call val))) (fig : figure val)
  : figure val :=
  foldl (λ f hc, add_calls hc.1 hc.2 f) fig hcs.

(** All the calls of a batch addressed to handle [h], in order. *)
Definition calls_for (h : nat) (hcs : list (nat * list (ax_call val)))
  : list (ax_call val) :=
  concat (omap (λ hc, if decide (hc.1 = h) then Some hc.2 else None) hcs).

(** Add brand-new axes objects with their calls already recorded. *)
Definition add_axes (new : list (axes val)) (fig : figure val) : figure val :=
  Figure (fig_axes fig ++ new) (fig_calls fig).

End bookkeeping.

(** ** What one pass of each drawing loop records *)

Section panels.
Context {val : Type}.

Definition no_ticks : list (ax_call val) :=
  [SetXTicks [] None; SetYTicks [] None].

Definition bad_image {A} : res A :=
  Err (TypeError "Invalid shape for image data").

(** [plot_conv_weights], panel [i]. *)
Definition conv_panel (weights : ndarray val) (input_channel : Z)
    (num_filters : nat) (w_min w_max : val) (i : nat)
  : res (list (ax_call val)) :=
  if decide (i < num_filters) then
    img ← index_filter weights input_channel i;
    if Plt.image_shape_ok (shape img)
    then Ok (Imshow img (ImshowKw (Some "seismic") None (Some "nearest")
                           (Some w_min) (Some w_max)) :: no_ticks)
    else bad_image
  else Ok no_ticks.

(** [plot_weights], panel [i]. *)
Definition weights_panel (weights : ndarray val) (img_shape : list nat)
    (w_min w_max : val) (i : nat) : res (list (ax_call val)) :=
  if decide (i < 10) then
    col ← Nd.take_axis 1 i weights;
    image ← Nd.reshape col img_shape;
    if Plt.image_shape_ok (shape image)
    then Ok (SetXLabel ("Weights: " +:+ pretty i)
             :: Imshow image (ImshowKw (Some "seismic") None None
                                (Some w_min) (Some w_max))
             :: no_ticks)
    else bad_image
  else Ok no_ticks.

(** [save_image_collection] and [plot_autoencoder_weights], image
    [count]. *)
Definition collection_panel (images : ndarray val) (cmap : option string)
    (count : nat) : res (list (ax_call val)) :=
  row ← index_row images count;
  img ← Nd.reshape row [28; 28];
  if Plt.image_shape_ok (shape img)
  then Ok (Imshow img (ImshowKw cmap None None None None) :: no_ticks)
  else bad_image.

(** [plot_images], first column, row [i]. *)
Definition image_panel (images : ndarray val) (cls_true cls_pred : list Z)
    (img_shape : list nat) (reshape : option bool) (i : nat)
  : res (list (ax_call val)) :=
  shown ←
    (if default true reshape then
       img ← Nd.take_axis 0 i images;
       img ← Nd.reshape img img_shape;
       if Plt.image_shape_ok (shape img)
       then Ok (Imshow img (ImshowKw (Some "binary") (Some "auto")
                              None None None))
       else bad_image
     else
       img ← Nd.take_axis 0 i images;
       if Plt.image_shape_ok (shape img)
       then Ok (Imshow img (ImshowKw None None None None None))
       else bad_image);
  t ← Np.getitem cls_true i;
  p ← Np.getitem cls_pred i;
  Ok (shown :: SetXLabel ("True: " +:+ pretty t +:+ ", Pred: " +:+ pretty p)
      :: no_ticks).

(** [plot_images], second and third column, row [i]. *)
Definition score_panel (scores : list (list val)) (i : nat)
  : res (list (ax_call val)) :=
  score ← Np.getitem scores i;
  height ← Plt.broadcast_to (length (arange 10)) score;
  Ok [Bar (arange 10) height bar_colors;
      SetXTicks (arange 10) None; SetYTicks [] None].

End panels.

(** ** The remaining renderers (plot_utilities.py, lines 144-176) *)

Section more_renderers.
Context {val : Type}.

Import Plt.

(** [a[0, :, :, i]] *)
Definition index_sample_filter (a : ndarray val) (i : nat)
  : res (ndarray val) :=
  if decide (length (shape a) < 4)
  then Err (IndexError "too many indices for array")
  else a' ← Nd.take_axis 0 0 a; Nd.take_axis 2 i a'.

Definition plot_conv_layer (layer_output : ndarray val) : plt val unit :=
  num_filters ← lift (Nd.shape_at layer_output 3);
  let num_grids := ceil_sqrt num_filters in
  axes ← subplots num_grids num_grids;
  panels ← lift (flat axes);
  for_ (enumerate panels) (λ '(i, ax),
    (if decide (i < num_filters) then
       img ← lift (index_sample_filter layer_output i);
       imshow ax img (ImshowKw (Some "binary") None (Some "nearest") None None)
     else mret ());;
    set_xticks ax [];;
    set_yticks ax []);;
  show.

(** [ax[j]] followed by a method call on the result: an array of axes
    arrays has no drawing methods. *)
Definition axes_item (o : axes_obj) (j : nat) : res nat :=
  match o with
  | AxScalar _ => Err (TypeError "'Axes' object is not subscriptable")
  | Ax1D hs => Np.getitem hs j
  | Ax2D _ =>
      Err (AttributeError "'numpy.ndarray' object has no attribute 'imshow'")
  end.

Definition compare_images
    (real_image corrupted_image reconstructed_image : ndarray val)
  : plt val unit :=
  ax ← subplots 1 3;
  a0 ← lift (axes_item ax 0);
  img ← lift (Nd.reshape real_image [28; 28]);
  imshow a0 img (ImshowKw (Some "binary") None None None None);;
  a0 ← lift (axes_item ax 0);
  set_title a0 "Real image";;
  a1 ← lift (axes_item ax 1);
  img ← lift (Nd.reshape corrupted_image [28; 28]);
  imshow a1 img (ImshowKw (Some "binary") None None None None);;
  a1 ← lift (axes_item ax 1);
  set_title a1 "Corrupted image";;
  a2 ← lift (axes_item ax 2);
  img ← lift (Nd.reshape reconstructed_image [28; 28]);
  imshow a2 img (ImshowKw (Some "binary") None None None None);;
  a2 ← lift (axes_item ax 2);
  set_title a2 "Reconstructed image";;
  show.

(** [plot_conv_layer], panel [i]. *)
Definition layer_panel (layer_output : ndarray val) (num_filters i : nat)
  : res (list (ax_call val)) :=
  if decide (i < num_filters) then
    img ← index_sample_filter layer_output i;
    if Plt.image_shape_ok (shape img)
    then Ok (Imshow img (ImshowKw (Some "binary") None (Some "nearest")
                           None None) :: no_ticks)
    else bad_image
  else Ok no_ticks.

(** The title an axes shows is the one set last. *)
Definition title_of (a : axes val) : option string :=
  last (omap (λ c, match c with SetTitle s => Some s | _ => None end)
          (ax_calls a)).

End more_renderers.

(* ================================================================== *)
(** * Properties *)

(** ** Facts about the vector operations *)

Section np_facts.
Context {A : Type}.
Implicit Types (arr : list A) (idx : list nat) (mask : list bool).

Lemma ne_same_length (a b : list Z) :
  length a = length b →
  Np.ne a b = Ok (zip_with (λ x y, bool_decide (x ≠ y)) a b).
Proof. intros Hlen. unfold Np.ne. by rewrite decide_True. Qed.

Lemma ne_refl (a : list Z) : Np.ne a a = Ok (replicate (length a) false).
Proof.
  rewrite ne_same_length by done. f_equal.
  induction a as [|x a IH]; simpl; [done|].
  rewrite IH. by rewrite bool_decide_false by (intros ?; done).
Qed.

Lemma lookup_ne_mask (a b : list Z) i :
  zip_with (λ x y, bool_decide (x ≠ y)) a b !! i = Some true ↔
  ∃ x y, a !! i = Some x ∧ b !! i = Some y ∧ x ≠ y.
Proof.
  rewrite lookup_zip_with_Some. split.
  - intros (x & y & Hd & Hx & Hy). exists x, y.
    symmetry in Hd. apply bool_decide_eq_true in Hd. done.
  - intros (x & y & Hx & Hy & Hne). exists x, y.
    by rewrite bool_decide_true.
Qed.

Lemma elem_of_where_from mask i j :
  j ∈ Np.where_from i mask ↔ ∃ k, j = i + k ∧ mask !! k = Some true.
Proof.
  revert i. induction mask as [|b mask IH]; intros i; simpl.
  - rewrite elem_of_nil. split; [done|]. by intros (k & _ & ?).
  - assert (j ∈ Np.where_from (S i) mask ↔
            ∃ k, j = i + S k ∧ mask !! k = Some true) as IH'.
    { rewrite IH. by setoid_rewrite Nat.add_succ_r. }
    destruct b.
    + rewrite elem_of_cons, IH'. split.
      * intros [->|(k & -> & Hk)]; [exists 0|exists (S k)]; split; (lia || done).
      * intros ([|k] & -> & Hk); [left; lia|right; eauto].
    + rewrite IH'. split.
      * intros (k & -> & Hk). by exists (S k).
      * intros ([|k] & -> & Hk); [done|eauto].
Qed.

Lemma elem_of_where mask j : j ∈ Np.where_ mask ↔ mask !! j = Some true.
Proof.
  unfold Np.where_. rewrite elem_of_where_from. split.
  - by intros (k & -> & Hk).
  - intros Hj. by exists j.
Qed.

Lemma where_from_sorted mask i : StronglySorted lt (Np.where_from i mask).
Proof.
  revert i. induction mask as [|b mask IH]; intros i; simpl.
  - constructor.
  - destruct b; [|done]. constructor; [done|].
    apply list.Forall_forall. intros j (k & -> & _)%elem_of_where_from. lia.
Qed.

Lemma where_replicate_false n i : Np.where_from i (replicate n false) = [].
Proof. revert i. induction n as [|n IH]; intros i; simpl; done. Qed.

Lemma take_cons arr i idx :
  Np.take arr (i :: idx) = x ← Np.getitem arr i; l ← Np.take arr idx; mret (x :: l).
Proof. done. Qed.

(** Fancy indexing succeeds as soon as every index is in range, and then
    reads the array position by position. *)
Lemma take_in_range arr idx :
  Forall (λ i, i < length arr) idx →
  ∃ l, Np.take arr idx = Ok l ∧ Forall2 (λ i x, arr !! i = Some x) idx l.
Proof.
  induction 1 as [|i idx Hi _ (l & Hl & Hall)].
  - exists []. by split.
  - destruct (lookup_lt_is_Some_2 arr i Hi) as [x Hx].
    exists (x :: l). rewrite take_cons. unfold Np.getitem.
    rewrite Hx, Hl. split; [done|]. by constructor.
Qed.
End np_facts.

(** ** The mismatch finders *)

Lemma where_ne_in_range (a b : list Z) :
  Forall (λ i, i < length a ∧ i < length b)
    (Np.where_ (zip_with (λ x y, bool_decide (x ≠ y)) a b)).
Proof.
  apply list.Forall_forall. intros i Hi%elem_of_where.
  apply lookup_ne_mask in Hi as (x & y & Hx & Hy & _).
  split; by eapply lookup_lt_Some.
Qed.

(** The two finders share the index computation and the two label slices. *)
Lemma find_wrong_predictions_cifar_spec (labels predictions : list Z) :
  length labels = length predictions →
  ∃ idx wl cl,
    find_wrong_predictions_cifar labels predictions = Ok (idx, wl, cl) ∧
    idx = Np.where_ (zip_with (λ x y, bool_decide (x ≠ y)) labels predictions) ∧
    Forall2 (λ i w, predictions !! i = Some w) idx wl ∧
    Forall2 (λ i c, labels !! i = Some c) idx cl.
Proof.
  intros Hlen. unfold find_wrong_predictions_cifar.
  rewrite ne_same_length by done. simpl.
  pose proof (where_ne_in_range labels predictions) as Hrange.
  destruct (take_in_range predictions
    (Np.where_ (zip_with (λ x y, bool_decide (x ≠ y)) labels predictions)))
    as (wl & Hwl & Hwl').
  { eapply list.Forall_impl; [exact Hrange|]. simpl. lia. }
  destruct (take_in_range labels
    (Np.where_ (zip_with (λ x y, bool_decide (x ≠ y)) labels predictions)))
    as (cl & Hcl & Hcl').
  { eapply list.Forall_impl; [exact Hrange|]. simpl. lia. }
  eexists _, wl, cl. rewrite Hwl, Hcl. simpl. done.
Qed.

Lemma find_wrong_predictions_spec {img} (labels predictions : list Z)
    (images : list img) :
  length labels = length predictions →
  length images = length labels →
  ∃ idx wi wl cl,
    find_wrong_predictions labels predictions images = Ok (idx, wi, wl, cl) ∧
    find_wrong_predictions_cifar labels predictions = Ok (idx, wl, cl) ∧
    Forall2 (λ i x, images !! i = Some x) idx wi.
Proof.
  intros Hlen Himg.
  destruct (find_wrong_predictions_cifar_spec labels predictions Hlen)
    as (idx & wl & cl & Hrun & -> & _).
  revert Hrun. unfold find_wrong_predictions_cifar, find_wrong_predictions.
  rewrite ne_same_length by done. simpl.
  pose proof (where_ne_in_range labels predictions) as Hrange.
  destruct (take_in_range images
    (Np.where_ (zip_with (λ x y, bool_decide (x ≠ y)) labels predictions)))
    as (wi & Hwi & Hwi').
  { eapply list.Forall_impl; [exact Hrange|]. simpl. lia. }
  rewrite Hwi. simpl.
  destruct (Np.take predictions _) as [wl'|]; simpl; [|done].
  destruct (Np.take labels _) as [cl'|]; simpl; [|done].
  intros [= <- <-]. by eexists _, wi, _, _.
Qed.

(** C1.  For label and prediction vectors of equal length both finders
    return exactly the positions where label and prediction differ, in
    ascending order, together with the predictions and the labels read at
    those positions; on labels [0,1,2,1] and predictions [0,2,2,1] this is
    indices [1], wrong labels [2], correct labels [1]. *)
Theorem mismatch_finders_indices_and_slices :
  (∀ labels predictions : list Z,
     length labels = length predictions →
     ∃ idx wl cl,
       find_wrong_predictions_cifar labels predictions = Ok (idx, wl, cl) ∧
       (∀ img (images : list img),
          length images = length labels →
          ∃ wi, find_wrong_predictions labels predictions images
                = Ok (idx, wi, wl, cl)) ∧
       (∀ i, i ∈ idx ↔
             ∃ l p, labels !! i = Some l ∧ predictions !! i = Some p ∧ l ≠ p) ∧
       StronglySorted lt idx ∧
       Forall2 (λ i w, predictions !! i = Some w) idx wl ∧
       Forall2 (λ i c, labels !! i = Some c) idx cl) ∧
  find_wrong_predictions_cifar [0; 1; 2; 1]%Z [0; 2; 2; 1]%Z
    = Ok ([1], [2%Z], [1%Z]) ∧
  (∀ img (a b c d : img),
     find_wrong_predictions [0; 1; 2; 1]%Z [0; 2; 2; 1]%Z [a; b; c; d]
     = Ok ([1], [b], [2%Z], [1%Z])).
Proof.
  split; [|by split].
  intros labels predictions Hlen.
  destruct (find_wrong_predictions_cifar_spec labels predictions Hlen)
    as (idx & wl & cl & Hrun & Hidx & Hwl & Hcl).
  exists idx, wl, cl. split_and!; try done.
  - intros img images Himg.
    destruct (find_wrong_predictions_spec labels predictions images Hlen Himg)
      as (idx' & wi & wl' & cl' & Hrun' & Hcifar & _).
    rewrite Hrun in Hcifar. injection Hcifar as <- <- <-. by exists wi.
  - intros i. subst idx. rewrite elem_of_where. apply lookup_ne_mask.
  - subst idx. apply where_from_sorted.
Qed.

Lemma mismatch_finders_indices_and_slices_witness :
  length [0; 1; 2; 1]%Z = length [0; 2; 2; 1]%Z ∧
  ∃ idx wl cl,
    find_wrong_predictions_cifar [0; 1; 2; 1]%Z [0; 2; 2; 1]%Z
      = Ok (idx, wl, cl) ∧
    (∀ img (images : list img),
       length images = length [0; 1; 2; 1]%Z →
       ∃ wi, find_wrong_predictions [0; 1; 2; 1]%Z [0; 2; 2; 1]%Z images
             = Ok (idx, wi, wl, cl)) ∧
    (∀ i, i ∈ idx ↔
          ∃ l p, [0; 1; 2; 1]%Z !! i = Some l ∧
                 [0; 2; 2; 1]%Z !! i = Some p ∧ l ≠ p) ∧
    StronglySorted lt idx ∧
    Forall2 (λ i w, [0; 2; 2; 1]%Z !! i = Some w) idx wl ∧
    Forall2 (λ i c, [0; 1; 2; 1]%Z !! i = Some c) idx cl.
Proof.
  split; [reflexivity|].
  apply (proj1 mismatch_finders_indices_and_slices
           [0; 1; 2; 1]%Z [0; 2; 2; 1]%Z).
  reflexivity.
Defined.

(** C5.  When labels and predictions agree at every position, every
    collection either finder returns is empty and no error is raised; the
    image batch, when supplied, may be any sequence. *)
Theorem mismatch_finders_identical_inputs (labels predictions : list Z) :
  (∀ i, labels !! i = predictions !! i) →
  find_wrong_predictions_cifar labels predictions = Ok ([], [], []) ∧
  (∀ img (images : list img),
     find_wrong_predictions labels predictions images = Ok ([], [], [], [])).
Proof.
  intros Heq%list_eq. subst predictions.
  unfold find_wrong_predictions_cifar, find_wrong_predictions.
  rewrite ne_refl. simpl. unfold Np.where_.
  rewrite where_replicate_false. done.
Qed.

Lemma mismatch_finders_identical_inputs_witness :
  (∀ i, [3; 1; 4]%Z !! i = [3; 1; 4]%Z !! i) ∧
  find_wrong_predictions_cifar [3; 1; 4]%Z [3; 1; 4]%Z = Ok ([], [], []) ∧
  (∀ img (images : list img),
     find_wrong_predictions [3; 1; 4]%Z [3; 1; 4]%Z images
     = Ok ([], [], [], [])).
Proof.
  split; [reflexivity|].
  apply (mismatch_finders_identical_inputs [3; 1; 4]%Z [3; 1; 4]%Z).
  reflexivity.
Defined.

(** C6.  For aligned labels, predictions and images of one length,
    [find_wrong_predictions] returns as many images as indices, and the image
    at each position is the input image stored at the index returned at that
    position. *)
Theorem wrong_images_follow_indices {img} (labels predictions : list Z)
    (images : list img) :
  length labels = length predictions →
  length images = length labels →
  ∃ idx wi wl cl,
    find_wrong_predictions labels predictions images = Ok (idx, wi, wl, cl) ∧
    length wi = length idx ∧
    (∀ k i, idx !! k = Some i →
            ∃ x, images !! i = Some x ∧ wi !! k = Some x).
Proof.
  intros Hlen Himg.
  destruct (find_wrong_predictions_spec labels predictions images Hlen Himg)
    as (idx & wi & wl & cl & Hrun & _ & Hwi).
  exists idx, wi, wl, cl. split_and!; [done|symmetry; by eapply list.Forall2_length|].
  intros k i Hk.
  destruct (Forall2_lookup_l _ _ _ _ _ Hwi Hk) as (x & Hx & Hix).
  by exists x.
Qed.

Lemma wrong_images_follow_indices_witness :
  length [0; 1; 2; 1]%Z = length [0; 2; 2; 1]%Z ∧
  length ["a"; "b"; "c"; "d"] = length [0; 1; 2; 1]%Z ∧
  ∃ idx wi wl cl,
    find_wrong_predictions [0; 1; 2; 1]%Z [0; 2; 2; 1]%Z ["a"; "b"; "c"; "d"]
      = Ok (idx, wi, wl, cl) ∧
    length wi = length idx ∧
    (∀ k i, idx !! k = Some i →
            ∃ x, ["a"; "b"; "c"; "d"] !! i = Some x ∧ wi !! k = Some x).
Proof.
  split; [reflexivity|]. split; [reflexivity|].
  apply (wrong_images_follow_indices [0; 1; 2; 1]%Z [0; 2; 2; 1]%Z
           ["a"; "b"; "c"; "d"]); reflexivity.
Defined.

(** ** The rendering monad *)

Section plt_facts.
Context {val : Type}.
Implicit Types (fig : figure val) (cs : list (ax_call val)).

Lemma bind_ok {A B} (m : plt val A) (f : A → plt val B) fig a fig' :
  m fig = Ok (a, fig') → (m ≫= f) fig = f a fig'.
Proof. intros Hm. unfold mbind, plt_bind. by rewrite Hm. Qed.

Lemma bind_err {A B} (m : plt val A) (f : A → plt val B) fig e :
  m fig = Err e → (m ≫= f) fig = Err e.
Proof. intros Hm. unfold mbind, plt_bind. by rewrite Hm. Qed.

Lemma lift_ok {A} (r : res A) a fig : r = Ok a → Plt.lift r fig = Ok (a, fig).
Proof. by intros ->. Qed.

Lemma add_calls_nil h fig : add_calls h [] fig = fig.
Proof.
  destruct fig as [axs fcs]. unfold add_calls. simpl. f_equal.
  apply list_eq. intros i. rewrite list_lookup_alter.
  case_decide as Hi; [|done]. subst i.
  destruct (axs !! h) as [[s cs]|]; simpl; [|done]. by rewrite app_nil_r.
Qed.

Lemma add_calls_app h cs1 cs2 fig :
  add_calls h cs2 (add_calls h cs1 fig) = add_calls h (cs1 ++ cs2) fig.
Proof.
  destruct fig as [axs fcs]. unfold add_calls. simpl. f_equal.
  apply list_eq. intros i.
  destruct (decide (h = i)) as [<-|Hi].
  - rewrite !list_lookup_alter_eq.
    destruct (axs !! h) as [[s cs]|]; simpl; [|done]. by rewrite app_assoc.
  - by rewrite !list_lookup_alter_ne.
Qed.

Lemma call_add h c fig : Plt.call h c fig = Ok ((), add_calls h [c] fig).
Proof. done. Qed.

Lemma fig_calls_add_all hcs fig : fig_calls (add_all hcs fig) = fig_calls fig.
Proof.
  revert fig. induction hcs as [|hc hcs IH]; intros fig; [done|].
  unfold add_all in *. simpl. by rewrite IH.
Qed.

(** After a batch of calls, each axes object holds what it held before
    followed by the calls addressed to it. *)
Lemma lookup_add_all hcs fig h :
  fig_axes (add_all hcs fig) !! h
  = (λ a, Axes (ax_spec a) (ax_calls a ++ calls_for h hcs)) <$> fig_axes fig !! h.
Proof.
  revert fig. induction hcs as [|[h' cs'] hcs IH]; intros fig.
  - unfold calls_for. simpl. destruct (fig_axes fig !! h) as [[s cs]|]; simpl;
      [|done]. by rewrite app_nil_r.
  - unfold add_all in *. simpl. rewrite IH. unfold add_calls, calls_for.
    simpl. rewrite list_lookup_alter. case_decide as Hh.
    + subst h'. destruct (fig_axes fig !! h) as [[s cs]|]; simpl; [|done].
      by rewrite app_assoc.
    + done.
Qed.

(** A loop whose body first checks its data and then only records calls
    succeeds exactly when every check does, and leaves the recorded calls. *)
Lemma for_plan {A B} (check : A → res B)
    (upd : A → B → figure val → figure val)
    (body : A → plt val unit) (l : list A) fig :
  (∀ x f, body x f = match check x with
                     | Ok b => Ok ((), upd x b f)
                     | Err e => Err e
                     end) →
  Plt.for_ l body fig
  = match mapM check l with
    | Ok bs => Ok ((), foldl (λ f xb, upd xb.1 xb.2 f) fig (zip l bs))
    | Err e => Err e
    end.
Proof.
  intros Hbody. revert fig. induction l as [|x l IH]; intros fig; [done|].
  simpl. unfold mbind at 1, plt_bind. rewrite Hbody.
  change (mapM check (x :: l))
    with (b ← check x; bs ← mapM check l; mret (b :: bs)).
  destruct (check x) as [b|e]; simpl; [|done].
  rewrite IH. by destruct (mapM check l).
Qed.

End plt_facts.

Section mapM_facts.
Context {A B : Type} (f : A → res B).

Lemma mapM_ok_inv l bs :
  mapM f l = Ok bs → Forall2 (λ x b, f x = Ok b) l bs.
Proof.
  revert bs. induction l as [|x l IH]; intros bs.
  - intros [= <-]. constructor.
  - change (mapM f (x :: l)) with (b ← f x; bs ← mapM f l; mret (b :: bs)).
    destruct (f x) as [b|] eqn:Hx; simpl; [|done].
    destruct (mapM f l) as [bs'|]; simpl; [|done].
    intros [= <-]. constructor; auto.
Qed.

Lemma mapM_ok l bs :
  Forall2 (λ x b, f x = Ok b) l bs → mapM f l = Ok bs.
Proof.
  induction 1 as [|x b l bs Hx _ IH]; [done|].
  change (mapM f (x :: l)) with (b ← f x; bs ← mapM f l; mret (b :: bs)).
  by rewrite Hx, IH.
Qed.

Lemma mapM_total l :
  (∀ x, x ∈ l → is_ok (f x) = true) → ∃ bs, mapM f l = Ok bs.
Proof.
  induction l as [|x l IH]; intros Hall; [by exists []|].
  destruct IH as [bs Hbs]. { intros y Hy. apply Hall. by right. }
  specialize (Hall x (list_elem_of_here _ _)).
  destruct (f x) as [b|] eqn:Hx; [|done]. exists (b :: bs).
  change (mapM f (x :: l)) with (b ← f x; bs ← mapM f l; mret (b :: bs)).
  by rewrite Hx, Hbs.
Qed.

End mapM_facts.

(** ** Grid arithmetic *)

Lemma ceil_sqrt_covers n : n ≤ ceil_sqrt n * ceil_sqrt n.
Proof.
  unfold ceil_sqrt. pose proof (Nat.sqrt_spec n (Nat.le_0_l n)) as [_ Hhi].
  simpl. case_decide; simpl in *; lia.
Qed.

Lemma ceil_sqrt_least n r : n ≤ r * r → ceil_sqrt n ≤ r.
Proof.
  intros Hr. unfold ceil_sqrt.
  pose proof (Nat.sqrt_spec n (Nat.le_0_l n)) as [Hlo _]. simpl.
  case_decide as Hsq.
  - destruct (decide (Nat.sqrt n ≤ r)) as [|Hgt]; [done|]. nia.
  - destruct (decide (S (Nat.sqrt n) ≤ r)) as [|Hgt]; [done|].
    assert (r ≤ Nat.sqrt n) as Hle by lia.
    assert (r * r ≤ Nat.sqrt n * Nat.sqrt n) by nia. lia.
Qed.

Lemma ceil_sqrt_pos n : 0 < n → 0 < ceil_sqrt n.
Proof. intros Hn. pose proof (ceil_sqrt_covers n). nia. Qed.

Lemma ceil_sqrt_ge_2 n : 2 ≤ n → 2 ≤ ceil_sqrt n.
Proof. intros Hn. pose proof (ceil_sqrt_covers n). nia. Qed.

Lemma ceil_div_ok n d :
  0 < d → ∃ c, ceil_div n d = Ok c ∧ n ≤ c * d ∧ (∀ c', n ≤ c' * d → c ≤ c').
Proof.
  intros Hd. unfold ceil_div. rewrite decide_False by lia.
  eexists. split; [done|].
  pose proof (Nat.div_mod (n + d - 1) d ltac:(lia)) as Hdm.
  pose proof (Nat.mod_upper_bound (n + d - 1) d ltac:(lia)) as Hmod.
  split; [nia|]. intros c' Hc'.
  destruct (decide ((n + d - 1) / d ≤ c')) as [|Hgt]; [done|]. nia.
Qed.

Lemma ceil_div_zero n : ceil_div n 0 = Err (ZeroDivisionError "float division by zero").
Proof. done. Qed.

(** ** Tensors *)

Section nd_facts.
Context {val : Type}.
Implicit Types (a : ndarray val) (l : list val) (sh : list nat).

Lemma numel_app sh1 sh2 : Nd.numel (sh1 ++ sh2) = Nd.numel sh1 * Nd.numel sh2.
Proof.
  induction sh1 as [|d sh1 IH]; simpl; [lia|].
  unfold Nd.numel in *. simpl. rewrite IH. lia.
Qed.

Lemma numel_split sh k d :
  sh !! k = Some d →
  Nd.numel sh = Nd.numel (take k sh) * (d * Nd.numel (drop (S k) sh)).
Proof.
  intros Hk. rewrite <-(take_drop_middle sh k d Hk) at 1.
  by rewrite numel_app.
Qed.

Lemma numel_delete sh k d :
  sh !! k = Some d →
  Nd.numel (delete k sh) = Nd.numel (take k sh) * Nd.numel (drop (S k) sh).
Proof.
  intros Hk. rewrite delete_take_drop. apply numel_app.
Qed.

Lemma length_gather outer block off len l :
  off + len ≤ block →
  outer * block ≤ length l →
  length (Nd.gather outer block off len l) = outer * len.
Proof.
  intros Hfit. revert l. induction outer as [|outer IH]; intros l Hl; [done|].
  simpl. rewrite length_app, length_take, length_drop, IH.
  - simpl in Hl. nia.
  - rewrite length_drop. simpl in Hl. nia.
Qed.

(** Indexing along an axis succeeds for every index below the extent of
    that axis, and keeps a well-formed array well-formed. *)
Lemma take_axis_ok k i a d :
  shape a !! k = Some d → i < d →
  ∃ a', Nd.take_axis k i a = Ok a' ∧ shape a' = delete k (shape a) ∧
        (Nd.wf a → Nd.wf a').
Proof.
  intros Hk Hi. unfold Nd.take_axis. rewrite Hk, decide_True by done.
  eexists. split_and!; [done..|].
  unfold Nd.wf. simpl. intros Hwf.
  rewrite (numel_split _ _ _ Hk) in Hwf.
  rewrite (numel_delete _ _ _ Hk).
  apply length_gather; [nia|lia].
Qed.

Lemma take_axis_ok_inv k i a a' :
  Nd.take_axis k i a = Ok a' →
  ∃ d, shape a !! k = Some d ∧ i < d ∧ shape a' = delete k (shape a).
Proof.
  unfold Nd.take_axis. destruct (shape a !! k) as [d|]; [|done].
  case_decide; [|done]. intros [= <-]. by exists d.
Qed.

Lemma reshape_ok a sh :
  Nd.numel sh = length (data a) →
  Nd.reshape a sh = Ok (NdArray sh (data a)).
Proof. intros Hsh. unfold Nd.reshape. by rewrite decide_True. Qed.

Lemma reshape_ok_inv a sh a' :
  Nd.reshape a sh = Ok a' →
  Nd.numel sh = length (data a) ∧ a' = NdArray sh (data a).
Proof. unfold Nd.reshape. case_decide; [|done]. by intros [= <-]. Qed.

Lemma amin_ok `{!Scalar val} a :
  Nd.wf a → 0 < Nd.numel (shape a) → ∃ m, Nd.amin a = Ok m.
Proof.
  unfold Nd.wf, Nd.amin. destruct (data a); simpl; intros; [lia|eauto].
Qed.

Lemma amax_ok `{!Scalar val} a :
  Nd.wf a → 0 < Nd.numel (shape a) → ∃ m, Nd.amax a = Ok m.
Proof.
  unfold Nd.wf, Nd.amax. destruct (data a); simpl; intros; [lia|eauto].
Qed.

End nd_facts.

(** ** The sample plotter on a one-sample batch *)

(** C8.  With exactly one sample, [plt.subplots(1, 3)] hands back a
    one-dimensional array of three axes, the column selection [axes[:, 0]]
    is an index error on it, and [plot_images] raises that error, whatever
    its other arguments are. *)
Theorem plot_images_single_sample_raises {val} (images : ndarray val)
    (y_pred logits : list (list val)) (cls_true cls_pred : list Z)
    (img_shape : list nat) (reshape : option bool) :
  shape images !! 0 = Some 1 →
  Plt.squeeze 1 3 = Ax1D [0; 1; 2] ∧
  Plt.column (Ax1D [0; 1; 2]) 0
    = Err (IndexError "too many indices for array") ∧
  Plt.run (plot_images images y_pred logits cls_true cls_pred img_shape reshape)
    = Err (IndexError "too many indices for array").
Proof.
  intros Hshape. split_and!; [done..|].
  unfold Plt.run, plot_images, Nd.shape_at. rewrite Hshape. done.
Qed.

Lemma plot_images_single_sample_raises_witness :
  shape (NdArray [1; 4] [1; 2; 3; 4]%Z) !! 0 = Some 1 ∧
  Plt.squeeze 1 3 = Ax1D [0; 1; 2] ∧
  Plt.column (Ax1D [0; 1; 2]) 0
    = Err (IndexError "too many indices for array") ∧
  Plt.run (plot_images (NdArray [1; 4] [1; 2; 3; 4]%Z)
             [[1; 0; 0; 0; 0; 0; 0; 0; 0; 0]%Z]
             [[9; 0; 0; 0; 0; 0; 0; 0; 0; 0]%Z]
             [0%Z] [0%Z] [2; 2] None)
    = Err (IndexError "too many indices for array").
Proof.
  split; [reflexivity|].
  apply (plot_images_single_sample_raises (NdArray [1; 4] [1; 2; 3; 4]%Z)).
  reflexivity.
Defined.

(** ** The confusion matrix plotter *)

Lemma arange_ticks (n : Z) : arange n = Z.of_nat <$> seq 0 (Z.to_nat n).
Proof.
  unfold arange, seqZ. apply list_fmap_ext. intros _ i _. lia.
Qed.

(** C4.  Whatever matrix the statistics routine returns for the labels and
    predictions, [print_confusion_matrix] draws that matrix, puts the ticks
    0 .. num_classes-1 on both axes, and sets the x-axis caption twice,
    "Predicted" and then "True": the axis shows "True" and the y-axis has no
    caption.  The figure holds the matrix's axes and the axes of its colour
    bar, which gets no caption and no ticks from the module.  The class
    count reaches only the ticks. *)
Theorem print_confusion_matrix_labels_and_ticks {val}
    (confusion_matrix : list Z → list Z → res (ndarray val))
    (labels predictions : list Z) (num_classes : Z) (conf_mat : ndarray val) :
  confusion_matrix labels predictions = Ok conf_mat →
  length (shape conf_mat) = 2 →
  ∃ fig ax cax,
    Plt.run (print_confusion_matrix confusion_matrix labels predictions
               num_classes) = Ok fig ∧
    fig_axes fig = [ax; cax] ∧
    ax_calls ax
      = [Imshow conf_mat
           (ImshowKw (Some "Blues") None (Some "nearest") None None);
         SetXTicks (arange num_classes) (Some (arange num_classes));
         SetYTicks (arange num_classes) (Some (arange num_classes));
         SetXLabel "Predicted";
         SetXLabel "True"] ∧
    ax_calls cax = [ColorbarFor 0] ∧
    fig_calls fig = [TightLayout; Colorbar; Show] ∧
    arange num_classes = Z.of_nat <$> seq 0 (Z.to_nat num_classes) ∧
    xlabel_of ax = Some "True" ∧
    ylabel_of ax = None.
Proof.
  intros Hcm Hrank.
  destruct conf_mat as [[|r [|c [|? ?]]] d]; simplify_eq/=.
  eexists _, _, _. unfold Plt.run, print_confusion_matrix. rewrite Hcm.
  simpl. split_and!; try reflexivity. apply arange_ticks.
Qed.

Lemma print_confusion_matrix_labels_and_ticks_witness :
  let cm : list Z → list Z → res (ndarray Z) :=
    λ _ _, Ok (NdArray [2; 2] [1; 0; 1; 2]%Z) in
  cm [0; 1; 1; 1]%Z [0; 1; 0; 1]%Z = Ok (NdArray [2; 2] [1; 0; 1; 2]%Z) ∧
  length (shape (NdArray [2; 2] [1; 0; 1; 2]%Z)) = 2 ∧
  ∃ fig ax cax,
    Plt.run (print_confusion_matrix cm [0; 1; 1; 1]%Z [0; 1; 0; 1]%Z 2)
      = Ok fig ∧
    fig_axes fig = [ax; cax] ∧
    ax_calls ax
      = [Imshow (NdArray [2; 2] [1; 0; 1; 2]%Z)
           (ImshowKw (Some "Blues") None (Some "nearest") None None);
         SetXTicks (arange 2) (Some (arange 2));
         SetYTicks (arange 2) (Some (arange 2));
         SetXLabel "Predicted";
         SetXLabel "True"] ∧
    ax_calls cax = [ColorbarFor 0] ∧
    fig_calls fig = [TightLayout; Colorbar; Show] ∧
    arange 2 = Z.of_nat <$> seq 0 (Z.to_nat 2) ∧
    xlabel_of ax = Some "True" ∧
    ylabel_of ax = None.
Proof.
  intros cm. split; [reflexivity|]. split; [reflexivity|].
  apply (print_confusion_matrix_labels_and_ticks cm
           [0; 1; 1; 1]%Z [0; 1; 0; 1]%Z 2 (NdArray [2; 2] [1; 0; 1; 2]%Z));
    reflexivity.
Defined.

(** ** Axes arrays *)

Lemma concat_seq_rows (nrows ncols s : nat) :
  concat ((λ r, seq (s + r * ncols) ncols) <$> seq 0 nrows)
  = seq s (nrows * ncols).
Proof.
  revert s. induction nrows as [|nrows IH]; intros s; [done|].
  simpl. rewrite seq_app. f_equal; [f_equal; lia|].
  rewrite <-(IH (s + ncols)), <-fmap_S_seq, <-list_fmap_compose.
  f_equal. apply list_fmap_ext. intros _ r _. simpl. f_equal. lia.
Qed.

(** Unless the grid is 1x1, [axes.flat] runs through all cells in row-major
    order. *)
Lemma flat_squeeze nrows ncols :
  ¬ (nrows = 1 ∧ ncols = 1) →
  Plt.flat (Plt.squeeze nrows ncols) = Ok (seq 0 (nrows * ncols)).
Proof.
  intros Hnot. unfold Plt.squeeze. rewrite decide_False by done.
  case_decide; simpl; [done|]. f_equal. apply (concat_seq_rows nrows ncols 0).
Qed.

Lemma flat_squeeze_1x1 :
  Plt.flat (Plt.squeeze 1 1)
  = Err (AttributeError "'Axes' object has no attribute 'flat'").
Proof. done. Qed.

(** With at least two rows and three columns, [axes[:, j]] is the [j]-th
    cell of every row. *)
Lemma column_squeeze nrows j :
  2 ≤ nrows → j < 3 →
  Plt.column (Plt.squeeze nrows 3) j = Ok ((λ r, r * 3 + j) <$> seq 0 nrows).
Proof.
  intros Hrows Hj. unfold Plt.squeeze.
  rewrite !decide_False by lia. unfold Plt.column. apply mapM_ok.
  apply Forall2_fmap, Forall_Forall2_diag, list.Forall_forall.
  intros r _. unfold Np.getitem. by rewrite lookup_seq_lt.
Qed.

Lemma enumerate_lookup {A} (l : list A) i :
  Plt.enumerate l !! i = pair i <$> l !! i.
Proof. unfold Plt.enumerate. apply list_lookup_imap. Qed.

Lemma enumerate_fmap_seq {A} (f : nat → A) n :
  Plt.enumerate (f <$> seq 0 n) = (λ i, (i, f i)) <$> seq 0 n.
Proof.
  apply list_eq. intros i. rewrite enumerate_lookup, !list_lookup_fmap.
  destruct (decide (i < n)).
  - by rewrite lookup_seq_lt.
  - by rewrite lookup_seq_ge by lia.
Qed.

Lemma enumerate_seq n : Plt.enumerate (seq 0 n) = (λ i, (i, i)) <$> seq 0 n.
Proof.
  rewrite <-(enumerate_fmap_seq id). by rewrite list_fmap_id.
Qed.

(** ** Calls gathered per axes *)

Section calls_facts.
Context {val : Type}.
Implicit Types (cs : list (ax_call val)) (css : list (list (ax_call val))).

Lemma calls_for_cons h h' cs (hcs : list (nat * list (ax_call val))) :
  calls_for h ((h', cs) :: hcs)
  = (if decide (h' = h) then cs else []) ++ calls_for h hcs.
Proof. unfold calls_for. simpl. by case_decide. Qed.

Lemma calls_for_zip_notin h hs css :
  h ∉ hs → calls_for h (zip hs css) = [].
Proof.
  revert css. induction hs as [|h' hs IH]; intros css Hnot; [done|].
  destruct css as [|cs css]; [done|]. apply not_elem_of_cons in Hnot as [? ?].
  simpl. rewrite calls_for_cons, decide_False by done. by apply IH.
Qed.

Lemma calls_for_zip_lookup h hs css k cs :
  NoDup hs → hs !! k = Some h → css !! k = Some cs →
  calls_for h (zip hs css) = cs.
Proof.
  intros Hnd. revert css k.
  induction Hnd as [|h' hs Hnot Hnd IH]; intros css k Hh Hcs; [done|].
  destruct css as [|cs' css]; [by destruct k|].
  simpl. rewrite calls_for_cons.
  destruct k as [|k]; simplify_eq/=.
  - rewrite decide_True by done.
    rewrite calls_for_zip_notin by done. apply app_nil_r.
  - rewrite decide_False.
    + by apply (IH css k).
    + intros ->. apply Hnot. by eapply list_elem_of_lookup_2.
Qed.

(** A loop whose body checks its data and then records calls on the axes
    it was handed. *)
Lemma for_calls {A} (handle : A → nat) (check : A → res (list (ax_call val)))
    (body : A → plt val unit) (l : list A) (fig : figure val) :
  (∀ x f, body x f = match check x with
                     | Ok cs => Ok ((), add_calls (handle x) cs f)
                     | Err e => Err e
                     end) →
  Plt.for_ l body fig
  = match mapM check l with
    | Ok css => Ok ((), add_all (zip (handle <$> l) css) fig)
    | Err e => Err e
    end.
Proof.
  intros Hbody. rewrite (for_plan check (λ x cs, add_calls (handle x) cs))
    by done.
  destruct (mapM check l) as [css|] eqn:Hcss; [|done]. do 2 f_equal.
  apply mapM_ok_inv in Hcss. clear Hbody. revert fig.
  induction Hcss as [|x cs l css _ _ IH]; intros fig; [done|].
  simpl. rewrite IH. done.
Qed.

(** A loop whose body opens a new axes at a cell, checks its data and
    records calls on that axes. *)
Lemma for_new_axes {A} (cell : A → subplotspec)
    (check : A → res (list (ax_call val)))
    (body : A → plt val unit) (l : list A) (fig : figure val) :
  (∀ x f, body x f = match check x with
                     | Ok cs => Ok ((), add_axes [Axes (cell x) cs] f)
                     | Err e => Err e
                     end) →
  Plt.for_ l body fig
  = match mapM check l with
    | Ok css => Ok ((), add_axes (zip_with Axes (cell <$> l) css) fig)
    | Err e => Err e
    end.
Proof.
  intros Hbody.
  rewrite (for_plan check (λ x cs, add_axes [Axes (cell x) cs])) by done.
  destruct (mapM check l) as [css|] eqn:Hcss; [|done]. do 2 f_equal.
  apply mapM_ok_inv in Hcss. clear Hbody. revert fig.
  induction Hcss as [|x cs l css _ _ IH]; intros fig.
  - unfold add_axes. simpl. rewrite app_nil_r. by destruct fig.
  - simpl. rewrite IH. unfold add_axes. simpl. by rewrite <-app_assoc.
Qed.

(** Opening an axes and recording calls on it right away. *)
Lemma subplot_add_calls spec cs (fig : figure val) :
  add_calls (length (fig_axes fig)) cs
    (Figure (fig_axes fig ++ [Axes spec []]) (fig_calls fig))
  = add_axes [Axes spec cs] fig.
Proof.
  unfold add_calls, add_axes. simpl. f_equal.
  rewrite alter_app_r_alt by done. by rewrite Nat.sub_diag.
Qed.

End calls_facts.

(** ** One pass of each loop, as a check followed by recorded calls *)

Section body_facts.
Context {val : Type}.
Implicit Types (fig f : figure val).

Lemma add_calls_cons h (c c' : ax_call val) cs f :
  add_calls h (c :: c' :: cs) f = add_calls h (c' :: cs) (add_calls h [c] f).
Proof. by rewrite add_calls_app. Qed.

Lemma imshow_eq h (X : ndarray val) kw f :
  Plt.imshow h X kw f
  = if Plt.image_shape_ok (shape X) then Ok ((), add_calls h [Imshow X kw] f)
    else bad_image.
Proof. unfold Plt.imshow. by destruct (Plt.image_shape_ok (shape X)). Qed.

Lemma conv_body (weights : ndarray val) ic n w_min w_max (x : nat * nat) f :
  (let '(i, ax) := x in
   (if decide (i < n) then
      img ← Plt.lift (index_filter weights ic i);
      Plt.imshow ax img
        (ImshowKw (Some "seismic") None (Some "nearest")
           (Some w_min) (Some w_max))
    else mret ());;
   Plt.set_xticks ax [];;
   Plt.set_yticks ax []) f
  = match conv_panel weights ic n w_min w_max x.1 with
    | Ok cs => Ok ((), add_calls x.2 cs f)
    | Err e => Err e
    end.
Proof.
  destruct x as [i ax]. unfold conv_panel, no_ticks. simpl.
  unfold mbind at 1, plt_bind. case_decide.
  - unfold mbind at 1, plt_bind.
    destruct (index_filter weights ic i) as [img|]; simpl; [|done].
    rewrite imshow_eq.
    destruct (Plt.image_shape_ok (shape img)); [|done].
    by rewrite !add_calls_cons.
  - simpl. by rewrite !add_calls_cons.
Qed.

Lemma weights_body (weights : ndarray val) img_shape w_min w_max
    (x : nat * nat) f :
  (let '(i, axes) := x in
   (if decide (i < 10) then
      col ← Plt.lift (Nd.take_axis 1 i weights);
      image ← Plt.lift (Nd.reshape col img_shape);
      Plt.set_xlabel axes ("Weights: " +:+ pretty i);;
      Plt.imshow axes image
        (ImshowKw (Some "seismic") None None (Some w_min) (Some w_max))
    else mret ());;
   Plt.set_xticks axes [];;
   Plt.set_yticks axes []) f
  = match weights_panel weights img_shape w_min w_max x.1 with
    | Ok cs => Ok ((), add_calls x.2 cs f)
    | Err e => Err e
    end.
Proof.
  destruct x as [i ax]. unfold weights_panel, no_ticks. simpl.
  unfold mbind at 1, plt_bind. case_decide.
  - unfold mbind at 1, plt_bind.
    destruct (Nd.take_axis 1 i weights) as [col|]; simpl; [|done].
    unfold mbind at 1, plt_bind.
    destruct (Nd.reshape col img_shape) as [image|]; simpl; [|done].
    unfold mbind at 1, plt_bind. unfold Plt.set_xlabel. rewrite call_add.
    rewrite imshow_eq.
    destruct (Plt.image_shape_ok (shape image)); [|done].
    by rewrite !add_calls_cons.
  - simpl. by rewrite !add_calls_cons.
Qed.

Lemma collection_body (images : ndarray val) cmap
    (x : subplotspec * nat) f :
  (let '(dim, count) := x in
   ax ← Plt.subplot dim;
   row ← Plt.lift (index_row images count);
   img ← Plt.lift (Nd.reshape row [28; 28]);
   Plt.imshow ax img (ImshowKw cmap None None None None);;
   Plt.set_xticks ax [];;
   Plt.set_yticks ax []) f
  = match collection_panel images cmap x.2 with
    | Ok cs => Ok ((), add_axes [Axes x.1 cs] f)
    | Err e => Err e
    end.
Proof.
  destruct x as [dim count]. unfold collection_panel, no_ticks. simpl.
  unfold mbind at 1, plt_bind. simpl.
  unfold mbind at 1, plt_bind.
  destruct (index_row images count) as [row|]; simpl; [|done].
  unfold mbind at 1, plt_bind.
  destruct (Nd.reshape row [28; 28]) as [img|]; simpl; [|done].
  unfold mbind at 1, plt_bind. rewrite imshow_eq.
  destruct (Plt.image_shape_ok (shape img)); [|done].
  simpl. rewrite <-subplot_add_calls. by rewrite !add_calls_cons.
Qed.

Lemma image_body (images : ndarray val) cls_true cls_pred img_shape reshape
    (x : nat * nat) f :
  (let '(i, subfig) := x in
   (if default true reshape then
      img ← Plt.lift (Nd.take_axis 0 i images);
      img ← Plt.lift (Nd.reshape img img_shape);
      Plt.imshow subfig img
        (ImshowKw (Some "binary") (Some "auto") None None None)
    else
      img ← Plt.lift (Nd.take_axis 0 i images);
      Plt.imshow subfig img (ImshowKw None None None None None));;
   t ← Plt.lift (Np.getitem cls_true i);
   p ← Plt.lift (Np.getitem cls_pred i);
   Plt.set_xlabel subfig ("True: " +:+ pretty t +:+ ", Pred: " +:+ pretty p);;
   Plt.set_xticks subfig [];;
   Plt.set_yticks subfig []) f
  = match image_panel images cls_true cls_pred img_shape reshape x.1 with
    | Ok cs => Ok ((), add_calls x.2 cs f)
    | Err e => Err e
    end.
Proof.
  destruct x as [i ax]. unfold image_panel, no_ticks. simpl.
  unfold mbind at 1, plt_bind.
  assert (∀ (shown : ax_call val) g,
    (t ← Plt.lift (Np.getitem cls_true i);
     p ← Plt.lift (Np.getitem cls_pred i);
     Plt.set_xlabel ax ("True: " +:+ pretty t +:+ ", Pred: " +:+ pretty p);;
     Plt.set_xticks ax [];;
     Plt.set_yticks ax []) (add_calls ax [shown] g)
    = match
        (t ← Np.getitem cls_true i;
         p ← Np.getitem cls_pred i;
         Ok (shown
             :: SetXLabel ("True: " +:+ pretty t +:+ ", Pred: " +:+ pretty p)
             :: [SetXTicks [] None; SetYTicks [] None]))
      with
      | Ok cs => Ok ((), add_calls ax cs g)
      | Err e => Err e
      end) as Hrest.
  { intros shown g. unfold mbind at 1, plt_bind.
    destruct (Np.getitem cls_true i) as [t|]; simpl; [|done].
    unfold mbind at 1, plt_bind.
    destruct (Np.getitem cls_pred i) as [p|]; simpl; [|done].
    by rewrite !add_calls_cons. }
  destruct (default true reshape).
  - unfold mbind at 1, plt_bind.
    destruct (Nd.take_axis 0 i images) as [img|]; simpl; [|done].
    unfold mbind at 1, plt_bind.
    destruct (Nd.reshape img img_shape) as [img'|]; simpl; [|done].
    rewrite imshow_eq.
    destruct (Plt.image_shape_ok (shape img')); [|done]. apply Hrest.
  - unfold mbind at 1, plt_bind.
    destruct (Nd.take_axis 0 i images) as [img|]; simpl; [|done].
    rewrite imshow_eq.
    destruct (Plt.image_shape_ok (shape img)); [|done]. apply Hrest.
Qed.

Lemma score_body (scores : list (list val)) (x : nat * nat) f :
  (let '(i, subfig) := x in
   score ← Plt.lift (Np.getitem scores i);
   Plt.bar subfig (arange 10) score bar_colors;;
   Plt.set_xticks subfig (arange 10);;
   Plt.set_yticks subfig []) f
  = match score_panel scores x.1 with
    | Ok cs => Ok ((), add_calls x.2 cs f)
    | Err e => Err e
    end.
Proof.
  destruct x as [i ax]. unfold score_panel. simpl.
  unfold mbind at 1, plt_bind.
  destruct (Np.getitem scores i) as [score|]; simpl; [|done].
  unfold mbind at 1, plt_bind. unfold Plt.bar.
  unfold mbind at 1, plt_bind.
  change (length (arange 10)) with 10.
  destruct (Plt.broadcast_to 10 score) as [height|]; simpl; [|done].
  by rewrite !add_calls_cons.
Qed.

End body_facts.

(** ** Whole runs of the grid renderers *)

Section run_facts.
Context {val : Type} `{!Scalar val}.
Implicit Types (fig f : figure val) (css : list (list (ax_call val))).

Lemma mapM_fmap {A B C} (f : B → res C) (g : A → B) (l : list A) :
  mapM f (g <$> l) = mapM (f ∘ g) l.
Proof.
  induction l as [|x l IH]; [done|].
  change (mapM f (g <$> x :: l))
    with (b ← f (g x); bs ← mapM f (g <$> l); mret (b :: bs)).
  by rewrite IH.
Qed.

Lemma mapM_length {A B} (f : A → res B) l bs :
  mapM f l = Ok bs → length bs = length l.
Proof.
  intros Hbs%mapM_ok_inv. symmetry. by eapply list.Forall2_length.
Qed.

Lemma mapM_lookup {A B} (f : A → res B) l bs i x :
  mapM f l = Ok bs → l !! i = Some x → ∃ b, bs !! i = Some b ∧ f x = Ok b.
Proof.
  intros Hbs%mapM_ok_inv Hx.
  destruct (Forall2_lookup_l _ _ _ _ _ Hbs Hx) as (b & Hb & Hfx). eauto.
Qed.

Lemma length_cells gs : length (Plt.cells gs) = gs_nrows gs * gs_ncols gs.
Proof. unfold Plt.cells. by rewrite length_fmap, length_seq. Qed.

Lemma lookup_cells gs i :
  i < gs_nrows gs * gs_ncols gs → Plt.cells gs !! i = Some (SubplotSpec gs i).
Proof.
  intros Hi. unfold Plt.cells. by rewrite list_lookup_fmap, lookup_seq_lt.
Qed.

(** Calls recorded panel by panel on freshly made axes. *)
Lemma add_all_fresh (specs : list subplotspec) css fcs :
  length css = length specs →
  add_all (zip (seq 0 (length specs)) css)
    (Figure ((λ s, Axes s []) <$> specs) fcs)
  = Figure (zip_with Axes specs css) fcs.
Proof.
  intros Hlen.
  assert (∀ fig1 fig2 : figure val,
    fig_axes fig1 = fig_axes fig2 → fig_calls fig1 = fig_calls fig2 →
    fig1 = fig2) as Hext.
  { intros [? ?] [? ?]; simpl; congruence. }
  apply Hext; [|by rewrite fig_calls_add_all].
  apply list_eq. intros i. rewrite lookup_add_all. simpl.
  rewrite list_lookup_fmap, lookup_zip_with.
  destruct (specs !! i) as [s|] eqn:Hs; simpl; [|done].
  destruct (lookup_lt_is_Some_2 css i) as [cs Hcs].
  { rewrite Hlen. by eapply lookup_lt_Some. }
  rewrite Hcs. simpl. f_equal. f_equal.
  eapply calls_for_zip_lookup; [apply NoDup_seq| |done].
  apply lookup_seq_lt. by eapply lookup_lt_Some.
Qed.

Lemma enumerate_panels (check : nat → res (list (ax_call val))) n :
  mapM (λ x : nat * nat, check x.1) (Plt.enumerate (seq 0 n))
  = mapM check (seq 0 n).
Proof. rewrite enumerate_seq, mapM_fmap. done. Qed.

Lemma enumerate_handles n :
  (λ x : nat * nat, x.2) <$> Plt.enumerate (seq 0 n) = seq 0 n.
Proof.
  rewrite enumerate_seq, <-list_fmap_compose. apply list_fmap_id.
Qed.

(** [plot_conv_weights] on a grid of at least 2x2: the run succeeds exactly
    when every panel's data does, and the figure holds one axes per cell. *)
Lemma plot_conv_weights_run (weights : ndarray val) ic w_min w_max n :
  Nd.amin weights = Ok w_min → Nd.amax weights = Ok w_max →
  shape weights !! 3 = Some n → 2 ≤ ceil_sqrt n →
  Plt.run (plot_conv_weights weights ic)
  = match mapM (conv_panel weights (default 0%Z ic) n w_min w_max)
            (seq 0 (ceil_sqrt n * ceil_sqrt n)) with
    | Ok css =>
        Ok (Figure (zip_with Axes
                      (Plt.cells (Plt.default_grid (ceil_sqrt n) (ceil_sqrt n)))
                      css) [Show])
    | Err e => Err e
    end.
Proof.
  intros Hmin Hmax Hn Hg. unfold Plt.run, plot_conv_weights.
  rewrite (bind_ok _ _ _ _ _ (lift_ok _ _ _ Hmin)).
  rewrite (bind_ok _ _ _ _ _ (lift_ok _ _ _ Hmax)).
  unfold Nd.shape_at. rewrite Hn. unfold mbind at 1, plt_bind. simpl.
  unfold mbind at 1, plt_bind. unfold Plt.subplots.
  rewrite !decide_False by lia.
  unfold mbind at 1, plt_bind.
  rewrite (lift_ok _ _ _
             (flat_squeeze (ceil_sqrt n) (ceil_sqrt n) ltac:(lia))).
  unfold mbind at 1, plt_bind.
  erewrite for_calls; [|intros x f; apply conv_body].
  rewrite enumerate_panels, enumerate_handles.
  destruct (mapM _ _) as [css|] eqn:Hcss; [|done].
  apply mapM_length in Hcss. rewrite length_seq in Hcss.
  pose proof (length_cells (Plt.default_grid (ceil_sqrt n) (ceil_sqrt n)))
    as Hcells. simpl in Hcells.
  rewrite <-Hcells, add_all_fresh by lia. done.
Qed.

Lemma plot_weights_run (weights : ndarray val) img_shape w_min w_max :
  Nd.amin weights = Ok w_min → Nd.amax weights = Ok w_max →
  Plt.run (plot_weights weights img_shape)
  = match mapM (weights_panel weights img_shape w_min w_max) (seq 0 12) with
    | Ok css =>
        Ok (Figure (zip_with Axes (Plt.cells (Plt.default_grid 3 4)) css)
                   [SubplotsAdjust (3 # 10) (3 # 10); Show])
    | Err e => Err e
    end.
Proof.
  intros Hmin Hmax. unfold Plt.run, plot_weights.
  rewrite (bind_ok _ _ _ _ _ (lift_ok _ _ _ Hmin)).
  rewrite (bind_ok _ _ _ _ _ (lift_ok _ _ _ Hmax)).
  unfold mbind at 1, plt_bind. unfold Plt.subplots.
  rewrite !decide_False by lia.
  unfold mbind at 1, plt_bind. unfold Plt.subplots_adjust, Plt.fig_do.
  unfold mbind at 1, plt_bind.
  rewrite (lift_ok _ _ _ (flat_squeeze 3 4 ltac:(lia))).
  unfold mbind at 1, plt_bind.
  erewrite for_calls; [|intros x f; apply weights_body].
  rewrite enumerate_panels, enumerate_handles.
  destruct (mapM _ _) as [css|] eqn:Hcss; [|done].
  apply mapM_length in Hcss. rewrite length_seq in Hcss.
  change (seq 0 (3 * 4))
    with (seq 0 (length (Plt.cells (Plt.default_grid 3 4)))).
  cbn [fig_calls fig_axes]. rewrite add_all_fresh by done. done.
Qed.

Lemma zip_with_fst_zip {A B C D} (f : A → C → D) (l : list A) (k : list B)
    (cs : list C) :
  length cs ≤ length k → zip_with f ((zip l k).*1) cs = zip_with f l cs.
Proof.
  revert k cs. induction l as [|x l IH]; intros [|y k] [|c cs] Hlen;
    simpl in *; try done; try lia. f_equal. apply IH. lia.
Qed.

Lemma mapM_snd_zip {A B C} (check : B → res C) (l : list A) (k : list B) :
  mapM (λ x : A * B, check x.2) (zip l k) = mapM check (take (length l) k).
Proof.
  revert k. induction l as [|x l IH]; intros [|y k]; [done..|].
  simpl.
  change (mapM (λ x : A * B, check x.2) ((x, y) :: zip l k))
    with (b ← check y; bs ← mapM (λ x : A * B, check x.2) (zip l k);
          mret (b :: bs)).
  change (mapM check (y :: take (length l) k))
    with (b ← check y; bs ← mapM check (take (length l) k); mret (b :: bs)).
  by rewrite IH.
Qed.

(** The loop shared by [save_image_collection] and
    [plot_autoencoder_weights]: one new axes per pairing of a grid cell with
    an image number. *)
Lemma collection_loop (images : ndarray val) cmap gs n fig :
  Plt.for_ (zip (Plt.cells gs) (seq 0 n))
    (λ '(dim, count),
       ax ← Plt.subplot dim;
       row ← Plt.lift (index_row images count);
       img ← Plt.lift (Nd.reshape row [28; 28]);
       Plt.imshow ax img (ImshowKw cmap None None None None);;
       Plt.set_xticks ax [];;
       Plt.set_yticks ax []) fig
  = match mapM (collection_panel images cmap)
            (seq 0 (n `min` (gs_nrows gs * gs_ncols gs))) with
    | Ok css => Ok ((), add_axes (zip_with Axes (Plt.cells gs) css) fig)
    | Err e => Err e
    end.
Proof.
  erewrite for_new_axes; [|intros x f; apply collection_body].
  rewrite mapM_snd_zip, length_cells, take_seq, (Nat.min_comm n).
  destruct (mapM _ _) as [css|] eqn:Hcss; [|done].
  apply mapM_length in Hcss. rewrite length_seq in Hcss.
  rewrite zip_with_fst_zip; [done|].
  rewrite Hcss, length_seq. lia.
Qed.

Lemma save_image_collection_run open_file (images : ndarray val)
    filename n cols :
  shape images !! 0 = Some n →
  ceil_div n (ceil_sqrt n) = Ok cols →
  Plt.run (save_image_collection open_file images filename)
  = match mapM (collection_panel images None) (seq 0 n) with
    | Ok css =>
        match open_file (filename +:+ "_vis.png") with
        | Ok _ =>
            Ok (Figure
                  (zip_with Axes
                     (Plt.cells (GridSpec (ceil_sqrt n) cols
                                   (Some 1%Q) (Some 0%Q) (Some 1%Q) (Some 0%Q)
                                   (Some 0%Q) (Some 0%Q))) css)
                  [Savefig (filename +:+ "_vis.png")])
        | Err e => Err e
        end
    | Err e => Err e
    end.
Proof.
  intros Hn Hcols. unfold Plt.run, save_image_collection, Nd.shape_at.
  rewrite Hn. unfold mbind at 1; unfold plt_bind at 1. cbn [Plt.lift].
  cbv zeta.
  rewrite (bind_ok _ _ _ _ _ (lift_ok _ _ _ Hcols)).
  unfold mbind at 1, plt_bind. rewrite collection_loop.
  cbn [gs_nrows gs_ncols].
  assert (n `min` (ceil_sqrt n * cols) = n) as ->.
  { destruct (decide (ceil_sqrt n = 0)) as [Hz|Hnz].
    - rewrite Hz in Hcols. done.
    - destruct (ceil_div_ok n (ceil_sqrt n)) as (c & Hc & Hle & _); [lia|].
      rewrite Hcols in Hc. injection Hc as <-. lia. }
  destruct (mapM _ _); [|done].
  unfold Plt.savefig, mbind, plt_bind, Plt.lift, Plt.fig_do, add_axes.
  by destruct (open_file _).
Qed.

Lemma plot_autoencoder_weights_run (weights : ndarray val) dims cols :
  shape (Nd.transpose weights) !! 1 = Some dims →
  ceil_div dims (ceil_sqrt dims) = Ok cols →
  Plt.run (plot_autoencoder_weights weights)
  = match mapM (collection_panel (Nd.transpose weights) (Some "binary"))
            (seq 0 (dims `min` 100)) with
    | Ok css =>
        Ok (Figure
              (zip_with Axes
                 (Plt.cells (GridSpec 10 10
                               (Some 1%Q) (Some 0%Q) (Some 1%Q) (Some 0%Q)
                               (Some 0%Q) (Some 0%Q))) css)
              [Show])
    | Err e => Err e
    end.
Proof.
  intros Hn Hcols. unfold Plt.run, plot_autoencoder_weights, Nd.shape_at.
  cbv zeta. rewrite Hn. unfold mbind at 1; unfold plt_bind at 1.
  cbn [Plt.lift].
  rewrite (bind_ok _ _ _ _ _ (lift_ok _ _ _ Hcols)).
  unfold mbind at 1, plt_bind. rewrite collection_loop.
  cbn [gs_nrows gs_ncols]. change (10 * 10) with 100.
  by destruct (mapM _ _).
Qed.

Lemma enumerate_column_panels (check : nat → res (list (ax_call val)))
    (cell : nat → nat) n :
  mapM (λ x : nat * nat, check x.1) (Plt.enumerate (cell <$> seq 0 n))
  = mapM check (seq 0 n).
Proof. rewrite enumerate_fmap_seq, mapM_fmap. done. Qed.

Lemma enumerate_column_handles (cell : nat → nat) n :
  (λ x : nat * nat, x.2) <$> Plt.enumerate (cell <$> seq 0 n)
  = cell <$> seq 0 n.
Proof. rewrite enumerate_fmap_seq, <-list_fmap_compose. done. Qed.

(** [plot_images] on at least two samples: three loops, one per column of
    the axes array. *)
Lemma plot_images_run (images : ndarray val) y_pred logits cls_true cls_pred
    img_shape reshape n :
  shape images !! 0 = Some n → 2 ≤ n →
  Plt.run (plot_images images y_pred logits cls_true cls_pred img_shape reshape)
  = match mapM (image_panel images cls_true cls_pred img_shape reshape)
            (seq 0 n) with
    | Ok cs0 =>
        match mapM (score_panel y_pred) (seq 0 n) with
        | Ok cs1 =>
            match mapM (score_panel logits) (seq 0 n) with
            | Ok cs2 =>
                let drawn :=
                  add_all (zip ((λ r, r * 3 + 2) <$> seq 0 n) cs2)
                    (add_all (zip ((λ r, r * 3 + 1) <$> seq 0 n) cs1)
                       (add_all (zip ((λ r, r * 3 + 0) <$> seq 0 n) cs0)
                          (Figure ((λ s, Axes s [])
                                     <$> Plt.cells (Plt.default_grid n 3))
                             [SubplotsAdjust (1 # 2) (1 # 2)]))) in
                Ok (Figure (fig_axes drawn) (fig_calls drawn ++ [Show]))
            | Err e => Err e
            end
        | Err e => Err e
        end
    | Err e => Err e
    end.
Proof.
  intros Hn Hrows. unfold Plt.run, plot_images, Nd.shape_at. rewrite Hn.
  unfold mbind at 1; unfold plt_bind at 1. cbn [Plt.lift].
  unfold mbind at 1; unfold plt_bind at 1. unfold Plt.subplots.
  rewrite !decide_False by lia.
  unfold mbind at 1; unfold plt_bind at 1.
  unfold Plt.subplots_adjust, Plt.fig_do. cbn [fig_axes fig_calls app].
  rewrite (bind_ok _ _ _ _ _
             (lift_ok _ _ _ (column_squeeze n 0 Hrows ltac:(lia)))).
  unfold mbind at 1; unfold plt_bind at 1.
  erewrite for_calls; [|intros x f; apply image_body].
  rewrite enumerate_column_panels, enumerate_column_handles.
  destruct (mapM (image_panel _ _ _ _ _) _) as [cs0|]; [|done].
  rewrite (bind_ok _ _ _ _ _
             (lift_ok _ _ _ (column_squeeze n 1 Hrows ltac:(lia)))).
  unfold mbind at 1; unfold plt_bind at 1.
  erewrite for_calls; [|intros x f; apply score_body].
  rewrite enumerate_column_panels, enumerate_column_handles.
  destruct (mapM (score_panel y_pred) _) as [cs1|]; [|done].
  rewrite (bind_ok _ _ _ _ _
             (lift_ok _ _ _ (column_squeeze n 2 Hrows ltac:(lia)))).
  unfold mbind at 1; unfold plt_bind at 1.
  erewrite for_calls; [|intros x f; apply score_body].
  rewrite enumerate_column_panels, enumerate_column_handles.
  destruct (mapM (score_panel logits) _) as [cs2|]; [|done].
  done.
Qed.

(** What the three loops leave on the axes of row [r]. *)
Lemma plot_images_row (cs0 cs1 cs2 : list (list (ax_call val))) n fcs r j cs :
  j < 3 →
  [cs0; cs1; cs2] !! j ≫= (.!! r) = Some cs →
  r < n →
  fig_axes
    (add_all (zip ((λ r, r * 3 + 2) <$> seq 0 n) cs2)
       (add_all (zip ((λ r, r * 3 + 1) <$> seq 0 n) cs1)
          (add_all (zip ((λ r, r * 3 + 0) <$> seq 0 n) cs0)
             (Figure ((λ s, Axes s []) <$> Plt.cells (Plt.default_grid n 3))
                fcs)))) !! (r * 3 + j)
  = Some (Axes (SubplotSpec (Plt.default_grid n 3) (r * 3 + j)) cs).
Proof.
  intros Hj Hcs Hr. rewrite !lookup_add_all. cbn [fig_axes].
  rewrite list_lookup_fmap, lookup_cells by (simpl; lia).
  cbn [fmap option_fmap option_map ax_spec ax_calls app]. do 2 f_equal.
  assert (∀ j', j' < 3 → NoDup ((λ r, r * 3 + j') <$> seq 0 n)) as Hnd.
  { intros j' _. apply NoDup_fmap_2; [|apply NoDup_seq].
    intros r1 r2 ?. lia. }
  assert (∀ j' css, j' ≠ j → j' < 3 →
    calls_for (r * 3 + j) (zip ((λ r, r * 3 + j') <$> seq 0 n) css) = [])
    as Hother.
  { intros j' css Hne Hj'. apply calls_for_zip_notin.
    intros (r' & Heq & _)%list_elem_of_fmap. lia. }
  assert (∀ css, css !! r = Some cs →
    calls_for (r * 3 + j) (zip ((λ r, r * 3 + j) <$> seq 0 n) css) = cs)
    as Hown.
  { intros css Hcss. eapply calls_for_zip_lookup; [by apply Hnd| |done].
    by rewrite list_lookup_fmap, lookup_seq_lt. }
  destruct j as [|[|[|?]]]; [| | |lia]; simpl in Hcs.
  - rewrite (Hown cs0), (Hother 1), (Hother 2) by (done || lia).
    by rewrite !app_nil_r.
  - rewrite (Hother 0), (Hown cs1), (Hother 2) by (done || lia).
    by rewrite !app_nil_r.
  - by rewrite (Hother 0), (Hother 1), (Hown cs2) by (done || lia).
Qed.

End run_facts.

(** ** The dense-weight visualizer *)

Section plot_weights_facts.
Context {val : Type} `{!Scalar val}.
Implicit Types (weights : ndarray val) (fig : figure val).

Lemma lift_err {A} (r : res A) e (fig : figure val) :
  r = Err e → Plt.lift r fig = Err e.
Proof. by intros ->. Qed.

(** Counting the entries of a list that satisfy a property which depends
    on the position only. *)
Lemma length_filter_by_index {A} (P : A → Prop) `{!∀ x, Decision (P x)}
    (Q : nat → Prop) `{!∀ i, Decision (Q i)} (l : list A) (s : nat) :
  (∀ i a, l !! i = Some a → (P a ↔ Q (s + i))) →
  length (filter P l) = length (filter Q (seq s (length l))).
Proof.
  revert s. induction l as [|a l IH]; intros s Hl; [done|].
  simpl. rewrite !filter_cons.
  pose proof (Hl 0 a eq_refl) as Hhead. rewrite Nat.add_0_r in Hhead.
  assert (length (filter P l) = length (filter Q (seq (S s) (length l))))
    as Hrest.
  { apply IH. intros i b Hb. replace (S s + i) with (s + S i) by lia.
    by apply (Hl (S i)). }
  destruct (decide (P a)), (decide (Q s)); simpl; tauto || by rewrite Hrest.
Qed.

(** A successful run went through all twelve panels. *)
Lemma plot_weights_ok_inv weights img_shape fig :
  Plt.run (plot_weights weights img_shape) = Ok fig →
  ∃ w_min w_max css,
    Nd.amin weights = Ok w_min ∧ Nd.amax weights = Ok w_max ∧
    mapM (weights_panel weights img_shape w_min w_max) (seq 0 12) = Ok css ∧
    fig = Figure (zip_with Axes (Plt.cells (Plt.default_grid 3 4)) css)
            [SubplotsAdjust (3 # 10) (3 # 10); Show].
Proof.
  intros Hrun.
  destruct (Nd.amin weights) as [w_min|e] eqn:Hmin; last first.
  { unfold Plt.run, plot_weights in Hrun.
    by rewrite (bind_err _ _ _ _ (lift_err _ _ _ Hmin)) in Hrun. }
  destruct (Nd.amax weights) as [w_max|e] eqn:Hmax; last first.
  { unfold Plt.run, plot_weights in Hrun.
    rewrite (bind_ok _ _ _ _ _ (lift_ok _ _ _ Hmin)) in Hrun.
    by rewrite (bind_err _ _ _ _ (lift_err _ _ _ Hmax)) in Hrun. }
  rewrite (plot_weights_run _ _ _ _ Hmin Hmax) in Hrun.
  destruct (mapM _ _) as [css|] eqn:Hcss; [|done].
  injection Hrun as <-. by exists w_min, w_max, css.
Qed.

Lemma weights_panel_lt weights img_shape w_min w_max i cs :
  i < 10 →
  weights_panel weights img_shape w_min w_max i = Ok cs →
  ∃ col,
    Nd.take_axis 1 i weights = Ok col ∧
    Nd.numel img_shape = length (data col) ∧
    cs = [SetXLabel ("Weights: " +:+ pretty i);
          Imshow (NdArray img_shape (data col))
            (ImshowKw (Some "seismic") None None (Some w_min) (Some w_max));
          SetXTicks [] None; SetYTicks [] None].
Proof.
  intros Hi. unfold weights_panel. rewrite decide_True by done.
  destruct (Nd.take_axis 1 i weights) as [col|]; simpl; [|done].
  destruct (Nd.reshape col img_shape) as [image|] eqn:Himg; simpl; [|done].
  apply reshape_ok_inv in Himg as [Hnumel ->]. simpl.
  destruct (Plt.image_shape_ok img_shape); [|done].
  intros [= <-]. by exists col.
Qed.

Lemma weights_panel_ge weights img_shape w_min w_max i :
  10 ≤ i → weights_panel weights img_shape w_min w_max i = Ok no_ticks.
Proof. intros Hi. unfold weights_panel. by rewrite decide_False by lia. Qed.

Lemma weights_panel_ok weights img_shape w_min w_max r u i :
  Nd.wf weights → shape weights = [r; u] → i < u →
  Nd.numel img_shape = r → Plt.image_shape_ok img_shape = true →
  is_ok (weights_panel weights img_shape w_min w_max i) = true.
Proof.
  intros Hwf Hshape Hi Hnumel Himg. unfold weights_panel.
  case_decide; [|done].
  destruct (take_axis_ok 1 i weights u) as (col & -> & Hcol & Hwfcol);
    [by rewrite Hshape|done|].
  specialize (Hwfcol Hwf). unfold Nd.wf in Hwfcol.
  rewrite Hcol, Hshape in Hwfcol. simpl in Hwfcol.
  simpl. rewrite reshape_ok by (unfold Nd.numel in *; simpl in *; lia).
  simpl. by rewrite Himg.
Qed.

End plot_weights_facts.

Section plot_weights_panels.
Context {val : Type} `{!Scalar val}.

(** The figure a successful run leaves: twelve axes on the 3x4 grid, the
    first ten captioned and showing a weight column, the last two bare. *)
Lemma plot_weights_panels (weights : ndarray val) img_shape fig :
  Plt.run (plot_weights weights img_shape) = Ok fig →
  length (fig_axes fig) = 12 ∧
  fig_calls fig = [SubplotsAdjust (3 # 10) (3 # 10); Show] ∧
  ∀ i a, fig_axes fig !! i = Some a →
    ax_spec a = SubplotSpec (Plt.default_grid 3 4) i ∧
    (i < 10 →
       ∃ col w_min w_max,
         Nd.take_axis 1 i weights = Ok col ∧
         Nd.numel img_shape = length (data col) ∧
         ax_calls a
         = [SetXLabel ("Weights: " +:+ pretty i);
            Imshow (NdArray img_shape (data col))
              (ImshowKw (Some "seismic") None None (Some w_min) (Some w_max));
            SetXTicks [] None; SetYTicks [] None]) ∧
    (10 ≤ i → ax_calls a = no_ticks).
Proof.
  intros (w_min & w_max & css & Hmin & Hmax & Hcss & ->)%plot_weights_ok_inv.
  pose proof (mapM_length _ _ _ Hcss) as Hlen. rewrite length_seq in Hlen.
  cbn [fig_axes fig_calls]. split_and!; [|done|].
  { rewrite length_zip_with, length_cells, Hlen. done. }
  intros i a Ha. apply lookup_zip_with_Some in Ha as (s & cs & -> & Hs & Hcs).
  assert (i < 12) as Hi by (rewrite <-Hlen; by eapply lookup_lt_Some).
  rewrite lookup_cells in Hs by (simpl; lia). injection Hs as <-.
  destruct (mapM_lookup _ _ _ i i Hcss) as (cs' & Hcs' & Hpanel);
    [by apply lookup_seq_lt|].
  rewrite Hcs in Hcs'. injection Hcs' as <-. simpl.
  split_and!; [done| |].
  - intros Hlt.
    destruct (weights_panel_lt _ _ _ _ _ _ Hlt Hpanel) as (col & ? & ? & ->).
    by exists col, w_min, w_max.
  - intros Hge. rewrite weights_panel_ge in Hpanel by done. congruence.
Qed.

End plot_weights_panels.

(** C3.  [plot_weights] captions the first ten cells of its fixed 3x4 grid
    and no others: a run that returns has at most (in fact exactly) ten
    labelled panels whatever the number of units, and for every well-formed
    weight matrix with at least ten units, in particular of shape (784, 10),
    whose columns fit the image shape, the run returns twelve axes of which
    cells 0..9 are captioned "Weights: 0" .. "Weights: 9" and drawn, and
    cells 10 and 11 are blank. *)
Theorem plot_weights_labels_ten_panels {val} `{!Scalar val} :
  (∀ (weights : ndarray val) img_shape fig,
     Plt.run (plot_weights weights img_shape) = Ok fig →
     length (filter (λ a, labelled a) (fig_axes fig)) ≤ 10) ∧
  (∀ (weights : ndarray val) img_shape r u,
     Nd.wf weights → shape weights = [r; u] → 0 < r → 10 ≤ u →
     Nd.numel img_shape = r → Plt.image_shape_ok img_shape = true →
     ∃ fig,
       Plt.run (plot_weights weights img_shape) = Ok fig ∧
       length (fig_axes fig) = 12 ∧
       (∀ i a, fig_axes fig !! i = Some a →
          ax_spec a = SubplotSpec (Plt.default_grid 3 4) i ∧
          (i < 10 →
             xlabel_of a = Some ("Weights: " +:+ pretty i) ∧
             blank a = false) ∧
          (10 ≤ i → labelled a = false ∧ blank a = true)) ∧
       length (filter (λ a, labelled a) (fig_axes fig)) = 10 ∧
       length (filter (λ a, blank a) (fig_axes fig)) = 2).
Proof.
  assert (∀ (weights : ndarray val) img_shape fig,
    Plt.run (plot_weights weights img_shape) = Ok fig →
    length (fig_axes fig) = 12 ∧
    ∀ i a, fig_axes fig !! i = Some a →
      ax_spec a = SubplotSpec (Plt.default_grid 3 4) i ∧
      (i < 10 →
         xlabel_of a = Some ("Weights: " +:+ pretty i) ∧
         blank a = false ∧ labelled a = true) ∧
      (10 ≤ i → labelled a = false ∧ blank a = true)) as Hpanels.
  { intros weights img_shape fig (Hlen & _ & Hax)%plot_weights_panels.
    split; [done|]. intros i a Ha.
    destruct (Hax i a Ha) as (Hspec & Hlt & Hge). split_and!; [done| |].
    - intros Hi. destruct (Hlt Hi) as (col & w_min & w_max & _ & _ & Hcalls).
      unfold xlabel_of, blank, labelled. by rewrite Hcalls.
    - intros Hi. unfold blank, labelled. by rewrite (Hge Hi). }
  assert (∀ (weights : ndarray val) img_shape fig,
    Plt.run (plot_weights weights img_shape) = Ok fig →
    length (filter (λ a, labelled a) (fig_axes fig)) = 10 ∧
    length (filter (λ a, blank a) (fig_axes fig)) = 2) as Hcount.
  { intros weights img_shape fig [Hlen Hax]%Hpanels. split.
    - rewrite (length_filter_by_index _ (λ i, i < 10) _ 0), Hlen; [done|].
      intros i a Ha. destruct (Hax i a Ha) as (_ & Hlt & Hge). simpl.
      destruct (decide (i < 10)) as [Hi|Hi].
      + destruct (Hlt Hi) as (_ & _ & ->). done.
      + destruct (Hge ltac:(lia)) as [-> _]. simpl. split; [done|lia].
    - rewrite (length_filter_by_index _ (λ i, 10 ≤ i) _ 0), Hlen; [done|].
      intros i a Ha. destruct (Hax i a Ha) as (_ & Hlt & Hge). simpl.
      destruct (decide (i < 10)) as [Hi|Hi].
      + destruct (Hlt Hi) as (_ & -> & _). simpl. split; [done|lia].
      + destruct (Hge ltac:(lia)) as [_ ->]. simpl. split; [lia|done]. }
  split.
  - intros weights img_shape fig [-> _]%Hcount. done.
  - intros weights img_shape r u Hwf Hshape Hr Hu Hnumel Himg.
    assert (0 < Nd.numel (shape weights)) as Hpos.
    { rewrite Hshape. unfold Nd.numel. simpl. nia. }
    destruct (amin_ok weights Hwf Hpos) as [w_min Hmin].
    destruct (amax_ok weights Hwf Hpos) as [w_max Hmax].
    destruct (mapM_total (weights_panel weights img_shape w_min w_max)
                (seq 0 12)) as [css Hcss].
    { intros i Hi%elem_of_seq. destruct (decide (i < 10)).
      - eapply weights_panel_ok; eauto with lia.
      - by rewrite weights_panel_ge by lia. }
    pose proof (plot_weights_run weights img_shape _ _ Hmin Hmax) as Hrun.
    rewrite Hcss in Hrun. eexists. split; [exact Hrun|].
    destruct (Hpanels _ _ _ Hrun) as [Hlen Hax].
    destruct (Hcount _ _ _ Hrun) as [Hlab Hblank].
    split_and!; [done| |done|done].
    intros i a Ha. destruct (Hax i a Ha) as (? & Hlt & ?).
    split_and!; [done| |done]. intros Hi. by destruct (Hlt Hi) as (? & ? & _).
Qed.

Lemma plot_weights_labels_ten_panels_witness :
  let weights : ndarray Z := NdArray [784; 10] (replicate (784 * 10) 0%Z) in
  Nd.wf weights ∧ shape weights = [784; 10] ∧ 0 < 784 ∧ 10 ≤ 10 ∧
  Nd.numel [28; 28] = 784 ∧ Plt.image_shape_ok [28; 28] = true ∧
  ∃ fig,
    Plt.run (plot_weights weights [28; 28]) = Ok fig ∧
    length (fig_axes fig) = 12 ∧
    (∀ i a, fig_axes fig !! i = Some a →
       ax_spec a = SubplotSpec (Plt.default_grid 3 4) i ∧
       (i < 10 →
          xlabel_of a = Some ("Weights: " +:+ pretty i) ∧
          blank a = false) ∧
       (10 ≤ i → labelled a = false ∧ blank a = true)) ∧
    length (filter (λ a, labelled a) (fig_axes fig)) = 10 ∧
    length (filter (λ a, blank a) (fig_axes fig)) = 2.
Proof.
  intros weights.
  assert (Nd.wf weights) as Hwf by (vm_compute; reflexivity).
  assert (Nd.numel [28; 28] = 784) as Hnumel by reflexivity.
  split; [exact Hwf|]. split; [reflexivity|]. split; [lia|]. split; [lia|].
  split; [exact Hnumel|]. split; [reflexivity|].
  apply (proj2 plot_weights_labels_ten_panels weights [28; 28] 784 10);
    [exact Hwf|reflexivity|lia|lia|exact Hnumel|reflexivity].
Defined.

(** ** The convolution-kernel visualizer *)

Section conv_facts.
Context {val : Type} `{!Scalar val}.
Implicit Types (weights a : ndarray val) (fig : figure val).

(** Position [t] of the piece taken from block [o]. *)
Lemma lookup_gather outer block off len (l : list val) o t :
  off + len ≤ block → outer * block ≤ length l → o < outer → t < len →
  Nd.gather outer block off len l !! (o * len + t)
  = l !! (o * block + off + t).
Proof.
  intros Hfit. revert l o.
  induction outer as [|outer IH]; intros l o Hl Ho Ht; [lia|].
  simpl in *.
  assert (length (take len (drop off l)) = len) as Hpiece.
  { rewrite length_take, length_drop. nia. }
  destruct o as [|o]; simpl.
  - rewrite lookup_app_l by lia.
    rewrite lookup_take_lt by done. by rewrite lookup_drop.
  - rewrite lookup_app_r by lia. rewrite Hpiece.
    replace (len + o * len + t - len) with (o * len + t) by lia.
    rewrite IH by (rewrite ?length_drop; lia).
    rewrite lookup_drop. f_equal. lia.
Qed.

(** The slice [a[:, :, c, i]] of a four-dimensional array is the h-by-w
    image whose pixel (y, x) is [a[y, x, c, i]]. *)
Lemma index_filter_ok a h w c n (ic : Z) i :
  shape a = [h; w; c; n] → i < n →
  (- Z.of_nat c ≤ ic < Z.of_nat c)%Z →
  ∃ img c',
    index_filter a ic i = Ok img ∧ shape img = [h; w] ∧
    c' < c ∧
    (Z.of_nat c' = ic ∨ Z.of_nat c' = Z.of_nat c + ic)%Z ∧
    (Nd.wf a → ∀ p, p < h * w →
       data img !! p = data a !! ((p * c + c') * n + i)).
Proof.
  intros Hshape Hi Hic. unfold index_filter, Nd.norm_index, Nd.take_axis.
  rewrite Hshape. simpl.
  assert (∃ c', c' < c ∧
    (Z.of_nat c' = ic ∨ Z.of_nat c' = Z.of_nat c + ic)%Z ∧
    (if decide (0 ≤ ic < Z.of_nat c)%Z then Ok (Z.to_nat ic)
     else if decide (- Z.of_nat c ≤ ic < 0)%Z
          then Ok (Z.to_nat (Z.of_nat c + ic))
          else Err (IndexError "index is out of bounds for axis"))
    = Ok c') as (c' & Hc' & Hcases & ->).
  { case_decide.
    - exists (Z.to_nat ic). split_and!; [lia|left; lia|done].
    - rewrite decide_True by lia.
      exists (Z.to_nat (Z.of_nat c + ic)). split_and!; [lia|right; lia|done]. }
  simpl. rewrite decide_True by done. simpl. rewrite decide_True by done.
  eexists _, c'. split_and!; [done..|].
  unfold Nd.wf. rewrite Hshape. unfold Nd.numel. simpl. intros Hwf p Hp.
  rewrite !Nat.mul_1_r in *.
  pose proof (lookup_gather (h * w) c c' 1
    (Nd.gather (h * (w * c)) n i 1 (data a)) p 0) as Hin.
  rewrite !Nat.mul_1_r, !Nat.add_0_r in Hin.
  rewrite Hin; [|lia| |done|lia].
  - pose proof (lookup_gather (h * (w * c)) n i 1 (data a)
                  (p * c + c') 0) as Hout.
    rewrite !Nat.mul_1_r, !Nat.add_0_r in Hout.
    rewrite Hout; [done|lia|nia|nia|lia].
  - rewrite length_gather; [nia|lia|nia].
Qed.

Lemma conv_panel_lt weights ic n w_min w_max i cs :
  i < n →
  conv_panel weights ic n w_min w_max i = Ok cs →
  ∃ img,
    index_filter weights ic i = Ok img ∧
    cs = [Imshow img (ImshowKw (Some "seismic") None (Some "nearest")
                        (Some w_min) (Some w_max));
          SetXTicks [] None; SetYTicks [] None].
Proof.
  intros Hi. unfold conv_panel. rewrite decide_True by done.
  destruct (index_filter weights ic i) as [img|]; simpl; [|done].
  destruct (Plt.image_shape_ok (shape img)); [|done].
  intros [= <-]. by exists img.
Qed.

Lemma conv_panel_ge weights ic n w_min w_max i :
  n ≤ i → conv_panel weights ic n w_min w_max i = Ok no_ticks.
Proof. intros Hi. unfold conv_panel. by rewrite decide_False by lia. Qed.

(** A run that returns had at least two filters to lay out and went through
    every cell of the square grid. *)
Lemma plot_conv_weights_ok_inv weights ic fig :
  Plt.run (plot_conv_weights weights ic) = Ok fig →
  ∃ w_min w_max n css,
    Nd.amin weights = Ok w_min ∧ Nd.amax weights = Ok w_max ∧
    shape weights !! 3 = Some n ∧ 2 ≤ ceil_sqrt n ∧
    mapM (conv_panel weights (default 0%Z ic) n w_min w_max)
      (seq 0 (ceil_sqrt n * ceil_sqrt n)) = Ok css ∧
    fig = Figure
            (zip_with Axes
               (Plt.cells (Plt.default_grid (ceil_sqrt n) (ceil_sqrt n))) css)
            [Show].
Proof.
  intros Hrun.
  destruct (Nd.amin weights) as [w_min|e] eqn:Hmin; last first.
  { unfold Plt.run, plot_conv_weights in Hrun.
    by rewrite (bind_err _ _ _ _ (lift_err _ _ _ Hmin)) in Hrun. }
  destruct (Nd.amax weights) as [w_max|e] eqn:Hmax; last first.
  { unfold Plt.run, plot_conv_weights in Hrun.
    rewrite (bind_ok _ _ _ _ _ (lift_ok _ _ _ Hmin)) in Hrun.
    by rewrite (bind_err _ _ _ _ (lift_err _ _ _ Hmax)) in Hrun. }
  destruct (shape weights !! 3) as [n|] eqn:Hn; last first.
  { unfold Plt.run, plot_conv_weights, Nd.shape_at in Hrun.
    rewrite (bind_ok _ _ _ _ _ (lift_ok _ _ _ Hmin)) in Hrun.
    rewrite (bind_ok _ _ _ _ _ (lift_ok _ _ _ Hmax)) in Hrun.
    by rewrite Hn in Hrun. }
  destruct (decide (2 ≤ ceil_sqrt n)) as [Hg|Hg]; last first.
  { unfold Plt.run, plot_conv_weights, Nd.shape_at in Hrun.
    rewrite (bind_ok _ _ _ _ _ (lift_ok _ _ _ Hmin)) in Hrun.
    rewrite (bind_ok _ _ _ _ _ (lift_ok _ _ _ Hmax)) in Hrun.
    rewrite Hn in Hrun.
    unfold mbind at 1 in Hrun. unfold plt_bind at 1 in Hrun.
    cbn [Plt.lift] in Hrun. unfold mbind at 1 in Hrun.
    unfold plt_bind at 1 in Hrun.
    destruct (ceil_sqrt n) as [|[|g]]; [done|done|lia]. }
  rewrite (plot_conv_weights_run _ _ _ _ _ Hmin Hmax Hn Hg) in Hrun.
  destruct (mapM _ _) as [css|] eqn:Hcss; [|done].
  injection Hrun as <-. by exists w_min, w_max, n, css.
Qed.

End conv_facts.

(** ** The image collection saver *)

Section collection_facts.
Context {val : Type} `{!Scalar val}.
Implicit Types (images : ndarray val) (fig : figure val).

Lemma collection_panel_inv images cmap count cs :
  collection_panel images cmap count = Ok cs →
  ∃ row,
    index_row images count = Ok row ∧ length (data row) = 784 ∧
    cs = [Imshow (NdArray [28; 28] (data row))
            (ImshowKw cmap None None None None);
          SetXTicks [] None; SetYTicks [] None].
Proof.
  unfold collection_panel.
  destruct (index_row images count) as [row|]; simpl; [|done].
  destruct (Nd.reshape row [28; 28]) as [img|] eqn:Himg; simpl; [|done].
  apply reshape_ok_inv in Himg as [Hnumel ->]. simpl.
  intros [= <-]. exists row. split_and!; [done| |done].
  rewrite <-Hnumel. done.
Qed.

Lemma collection_panel_ok images cmap n count :
  Nd.wf images → shape images = [n; 784] → count < n →
  is_ok (collection_panel images cmap count) = true.
Proof.
  intros Hwf Hshape Hcount. unfold collection_panel, index_row.
  rewrite Hshape. simpl.
  destruct (take_axis_ok 0 count images n) as (row & -> & Hrow & Hwfrow);
    [by rewrite Hshape|done|].
  specialize (Hwfrow Hwf). unfold Nd.wf in Hwfrow.
  rewrite Hrow, Hshape in Hwfrow. simpl in Hwfrow.
  simpl. rewrite reshape_ok; [done|]. rewrite Hwfrow. done.
Qed.

(** A run that returns had a non-empty batch and drew every image of it. *)
Lemma save_image_collection_ok_inv open_file images filename fig :
  Plt.run (save_image_collection open_file images filename) = Ok fig →
  ∃ n cols css,
    shape images !! 0 = Some n ∧ 0 < n ∧
    ceil_div n (ceil_sqrt n) = Ok cols ∧ n ≤ ceil_sqrt n * cols ∧
    mapM (collection_panel images None) (seq 0 n) = Ok css ∧
    open_file (filename +:+ "_vis.png") = Ok () ∧
    fig = Figure
            (zip_with Axes
               (Plt.cells (GridSpec (ceil_sqrt n) cols
                             (Some 1%Q) (Some 0%Q) (Some 1%Q) (Some 0%Q)
                             (Some 0%Q) (Some 0%Q))) css)
            [Savefig (filename +:+ "_vis.png")].
Proof.
  intros Hrun.
  destruct (shape images !! 0) as [n|] eqn:Hn; last first.
  { unfold Plt.run, save_image_collection, Nd.shape_at in Hrun.
    by rewrite Hn in Hrun. }
  destruct (ceil_div n (ceil_sqrt n)) as [cols|e] eqn:Hcols; last first.
  { unfold Plt.run, save_image_collection, Nd.shape_at in Hrun.
    rewrite Hn in Hrun. unfold mbind at 1 in Hrun.
    unfold plt_bind at 1 in Hrun. cbn [Plt.lift] in Hrun. cbv zeta in Hrun.
    by rewrite (bind_err _ _ _ _ (lift_err _ _ _ Hcols)) in Hrun. }
  rewrite (save_image_collection_run _ _ _ _ _ Hn Hcols) in Hrun.
  destruct (mapM _ _) as [css|] eqn:Hcss; [|done].
  destruct (open_file _) as [[]|] eqn:Hopen; [|done]. injection Hrun as <-.
  assert (0 < n) as Hpos.
  { destruct n; [done|lia]. }
  exists n, cols, css. split_and!; try done.
  destruct (ceil_div_ok n (ceil_sqrt n)) as (c & Hc & Hle & _).
  { by apply ceil_sqrt_pos. }
  rewrite Hcols in Hc. injection Hc as <-. lia.
Qed.

(** The figure a returning run leaves: one axes per image, on the leading
    cells of the grid, and a single file written. *)
Lemma save_image_collection_panels open_file images filename fig :
  Plt.run (save_image_collection open_file images filename) = Ok fig →
  ∃ n cols,
    shape images !! 0 = Some n ∧ 0 < n ∧
    ceil_div n (ceil_sqrt n) = Ok cols ∧ n ≤ ceil_sqrt n * cols ∧
    length (fig_axes fig) = n ∧
    fig_calls fig = [Savefig (filename +:+ "_vis.png")] ∧
    ∀ i a, fig_axes fig !! i = Some a →
      ax_spec a
      = SubplotSpec (GridSpec (ceil_sqrt n) cols
                       (Some 1%Q) (Some 0%Q) (Some 1%Q) (Some 0%Q)
                       (Some 0%Q) (Some 0%Q)) i ∧
      ∃ row,
        index_row images i = Ok row ∧ length (data row) = 784 ∧
        ax_calls a
        = [Imshow (NdArray [28; 28] (data row))
             (ImshowKw None None None None None);
           SetXTicks [] None; SetYTicks [] None].
Proof.
  intros (n & cols & css & Hn & Hpos & Hcols & Hcover & Hcss & _ & ->)
    %save_image_collection_ok_inv.
  pose proof (mapM_length _ _ _ Hcss) as Hlen. rewrite length_seq in Hlen.
  exists n, cols. cbn [fig_axes fig_calls]. split_and!; try done.
  { rewrite length_zip_with, length_cells, Hlen. simpl. lia. }
  intros i a Ha. apply lookup_zip_with_Some in Ha as (s & cs & -> & Hs & Hcs).
  assert (i < n) as Hi by (rewrite <-Hlen; by eapply lookup_lt_Some).
  rewrite lookup_cells in Hs by (simpl; lia). injection Hs as <-.
  destruct (mapM_lookup _ _ _ i i Hcss) as (cs' & Hcs' & Hpanel);
    [by apply lookup_seq_lt|].
  rewrite Hcs in Hcs'. injection Hcs' as <-. simpl. split; [done|].
  by apply collection_panel_inv.
Qed.

Lemma save_image_collection_returns open_file images filename n :
  Nd.wf images → shape images = [n; 784] → 0 < n →
  open_file (filename +:+ "_vis.png") = Ok () →
  ∃ fig, Plt.run (save_image_collection open_file images filename) = Ok fig.
Proof.
  intros Hwf Hshape Hpos Hopen.
  destruct (ceil_div_ok n (ceil_sqrt n)) as (cols & Hcols & _).
  { by apply ceil_sqrt_pos. }
  destruct (mapM_total (collection_panel images None) (seq 0 n))
    as [css Hcss].
  { intros i Hi%elem_of_seq. eapply collection_panel_ok; eauto with lia. }
  rewrite (save_image_collection_run open_file images filename n cols)
    by (by rewrite ?Hshape). rewrite Hcss, Hopen. eauto.
Qed.

(** A path that does not open stops the run at [savefig], with the error
    the file system gave. *)
Lemma save_image_collection_unwritable open_file images filename n e :
  Nd.wf images → shape images = [n; 784] → 0 < n →
  open_file (filename +:+ "_vis.png") = Err e →
  Plt.run (save_image_collection open_file images filename) = Err e.
Proof.
  intros Hwf Hshape Hpos Hopen.
  destruct (ceil_div_ok n (ceil_sqrt n)) as (cols & Hcols & _).
  { by apply ceil_sqrt_pos. }
  destruct (mapM_total (collection_panel images None) (seq 0 n))
    as [css Hcss].
  { intros i Hi%elem_of_seq. eapply collection_panel_ok; eauto with lia. }
  rewrite (save_image_collection_run open_file images filename n cols)
    by (by rewrite ?Hshape). by rewrite Hcss, Hopen.
Qed.

End collection_facts.

(** C7, as the code has it.  A run of [save_image_collection] that returns
    has written exactly one file, named by the path followed by "_vis.png",
    and that path could be opened for writing.  For every non-empty batch of
    flattened 784-pixel images the outcome is decided by the path alone:
    when it opens, the run returns with one axes per image on a grid of
    ceil(sqrt(n)) rows and ceil(n / rows) columns with no spacing, each
    image reshaped to 28x28; when it does not, [savefig] raises the error of
    the file system and nothing is written.  Nine images give a 3x3 grid.
    (An empty batch, or images of another size, raise before [savefig].) *)
Theorem save_image_collection_writes_one_file {val} :
  (∀ open_file (images : ndarray val) filename fig,
     Plt.run (save_image_collection open_file images filename) = Ok fig →
     files_written fig = [filename +:+ "_vis.png"] ∧
     open_file (filename +:+ "_vis.png") = Ok ()) ∧
  (∀ open_file (images : ndarray val) filename n,
     Nd.wf images → shape images = [n; 784] → 0 < n →
     open_file (filename +:+ "_vis.png") = Ok () →
     ∃ fig cols,
       Plt.run (save_image_collection open_file images filename) = Ok fig ∧
       files_written fig = [filename +:+ "_vis.png"] ∧
       ceil_div n (ceil_sqrt n) = Ok cols ∧
       length (fig_axes fig) = n ∧
       ∀ i a, fig_axes fig !! i = Some a →
         ax_spec a
         = SubplotSpec (GridSpec (ceil_sqrt n) cols
                          (Some 1%Q) (Some 0%Q) (Some 1%Q) (Some 0%Q)
                          (Some 0%Q) (Some 0%Q)) i ∧
         ∃ row,
           index_row images i = Ok row ∧
           ax_calls a
           = [Imshow (NdArray [28; 28] (data row))
                (ImshowKw None None None None None);
              SetXTicks [] None; SetYTicks [] None]) ∧
  (∀ open_file (images : ndarray val) filename n e,
     Nd.wf images → shape images = [n; 784] → 0 < n →
     open_file (filename +:+ "_vis.png") = Err e →
     Plt.run (save_image_collection open_file images filename) = Err e) ∧
  (∀ open_file (images : ndarray val) filename,
     Nd.wf images → shape images = [9; 784] →
     open_file (filename +:+ "_vis.png") = Ok () →
     ∃ fig,
       Plt.run (save_image_collection open_file images filename) = Ok fig ∧
       files_written fig = [filename +:+ "_vis.png"] ∧
       length (fig_axes fig) = 9 ∧
       ∀ i a, fig_axes fig !! i = Some a →
         ax_spec a
         = SubplotSpec (GridSpec 3 3
                          (Some 1%Q) (Some 0%Q) (Some 1%Q) (Some 0%Q)
                          (Some 0%Q) (Some 0%Q)) i ∧
         ∃ X kw, ax_calls a = [Imshow X kw; SetXTicks [] None; SetYTicks [] None]
                 ∧ shape X = [28; 28]).
Proof.
  assert (∀ open_file (images : ndarray val) filename n,
    Nd.wf images → shape images = [n; 784] → 0 < n →
    open_file (filename +:+ "_vis.png") = Ok () →
    ∃ fig cols,
      Plt.run (save_image_collection open_file images filename) = Ok fig ∧
      files_written fig = [filename +:+ "_vis.png"] ∧
      ceil_div n (ceil_sqrt n) = Ok cols ∧
      length (fig_axes fig) = n ∧
      ∀ i a, fig_axes fig !! i = Some a →
        ax_spec a
        = SubplotSpec (GridSpec (ceil_sqrt n) cols
                         (Some 1%Q) (Some 0%Q) (Some 1%Q) (Some 0%Q)
                         (Some 0%Q) (Some 0%Q)) i ∧
        ∃ row,
          index_row images i = Ok row ∧
          ax_calls a
          = [Imshow (NdArray [28; 28] (data row))
               (ImshowKw None None None None None);
             SetXTicks [] None; SetYTicks [] None]) as Hgeneral.
  { intros open_file images filename n Hwf Hshape Hpos Hopen.
    destruct (save_image_collection_returns open_file images filename n
                Hwf Hshape Hpos Hopen) as [fig Hrun].
    destruct (save_image_collection_panels _ _ _ _ Hrun)
      as (n' & cols & Hn & _ & Hcols & _ & Hlen & Hcalls & Hax).
    rewrite Hshape in Hn. injection Hn as <-.
    exists fig, cols. split_and!; try done.
    - unfold files_written. by rewrite Hcalls.
    - intros i a Ha. destruct (Hax i a Ha) as (Hspec & row & ? & _ & ?).
      split; [done|]. by exists row. }
  split_and!; [|exact Hgeneral| |].
  - intros open_file images filename fig Hrun.
    destruct (save_image_collection_panels _ _ _ _ Hrun)
      as (n & cols & _ & _ & _ & _ & _ & Hcalls & _).
    apply save_image_collection_ok_inv in Hrun
      as (? & ? & ? & _ & _ & _ & _ & _ & Hopen & _).
    split; [|done]. unfold files_written. by rewrite Hcalls.
  - intros open_file images filename n e.
    apply save_image_collection_unwritable.
  - intros open_file images filename Hwf Hshape Hopen.
    destruct (Hgeneral open_file images filename 9 Hwf Hshape ltac:(lia) Hopen)
      as (fig & cols & Hrun & Hfiles & Hcols & Hlen & Hax).
    injection Hcols as <-.
    exists fig. split_and!; try done.
    intros i a Ha. destruct (Hax i a Ha) as (Hspec & row & _ & Hcalls).
    split; [exact Hspec|]. eauto.
Qed.

Lemma save_image_collection_writes_one_file_witness :
  let images : ndarray Z := NdArray [9; 784] (replicate (9 * 784) 0%Z) in
  let open_file : string → res unit := λ _, Ok () in
  Nd.wf images ∧ shape images = [9; 784] ∧
  open_file "digits_vis.png" = Ok () ∧
  ∃ fig,
    Plt.run (save_image_collection open_file images "digits") = Ok fig ∧
    files_written fig = ["digits_vis.png"] ∧
    length (fig_axes fig) = 9 ∧
    ∀ i a, fig_axes fig !! i = Some a →
      ax_spec a
      = SubplotSpec (GridSpec 3 3
                       (Some 1%Q) (Some 0%Q) (Some 1%Q) (Some 0%Q)
                       (Some 0%Q) (Some 0%Q)) i ∧
      ∃ X kw, ax_calls a = [Imshow X kw; SetXTicks [] None; SetYTicks [] None]
              ∧ shape X = [28; 28].
Proof.
  intros images open_file.
  assert (Nd.wf images) as Hwf by (vm_compute; reflexivity).
  split; [exact Hwf|]. split; [reflexivity|]. split; [reflexivity|].
  apply (proj2 (proj2 (proj2 save_image_collection_writes_one_file))
           open_file images "digits");
    [exact Hwf|reflexivity|reflexivity].
Defined.

(** C7 as stated fails in three ways.  An empty batch divides by zero while
    sizing the grid, and a batch of 3072-pixel images cannot be reshaped to
    28x28; neither run reaches [savefig].  And a path in a directory that
    does not exist cannot be opened: [savefig] raises and no file is
    written, whatever the batch. *)
Lemma save_image_collection_raises_before_saving :
  Plt.run (save_image_collection (λ _, Ok ())
             (NdArray [0; 784] ([] : list Z)) "digits")
    = Err (ZeroDivisionError "float division by zero") ∧
  Plt.run (save_image_collection (λ _, Ok ())
             (NdArray [1; 3072] (replicate 3072 0%Z)) "digits")
    = Err (ValueError "cannot reshape array into the requested shape") ∧
  Plt.run (save_image_collection
             (λ path, if String.eqb path "a/b_vis.png"
                      then Err (FileNotFoundError "No such file or directory")
                      else Ok ())
             (NdArray [1; 784] (replicate 784 0%Z)) "a/b")
    = Err (FileNotFoundError "No such file or directory").
Proof. split_and!; vm_compute; reflexivity. Qed.

Section conv_panels.
Context {val : Type} `{!Scalar val}.

(** The figure a returning run of [plot_conv_weights] leaves. *)
Lemma plot_conv_weights_panels (weights : ndarray val) ic fig :
  Plt.run (plot_conv_weights weights ic) = Ok fig →
  ∃ n,
    shape weights !! 3 = Some n ∧ 2 ≤ ceil_sqrt n ∧
    length (fig_axes fig) = ceil_sqrt n * ceil_sqrt n ∧
    ∀ i a, fig_axes fig !! i = Some a →
      ax_spec a
      = SubplotSpec (Plt.default_grid (ceil_sqrt n) (ceil_sqrt n)) i ∧
      (i < n →
         ∃ img kw,
           index_filter weights (default 0%Z ic) i = Ok img ∧
           ax_calls a = [Imshow img kw; SetXTicks [] None; SetYTicks [] None]) ∧
      (n ≤ i → ax_calls a = no_ticks).
Proof.
  intros (w_min & w_max & n & css & Hmin & Hmax & Hn & Hg & Hcss & ->)
    %plot_conv_weights_ok_inv.
  pose proof (mapM_length _ _ _ Hcss) as Hlen. rewrite length_seq in Hlen.
  exists n. cbn [fig_axes]. split_and!; [done..| |].
  { rewrite length_zip_with, length_cells, Hlen. simpl. lia. }
  intros i a Ha. apply lookup_zip_with_Some in Ha as (s & cs & -> & Hs & Hcs).
  assert (i < ceil_sqrt n * ceil_sqrt n) as Hi
    by (rewrite <-Hlen; by eapply lookup_lt_Some).
  rewrite lookup_cells in Hs by done. injection Hs as <-.
  destruct (mapM_lookup _ _ _ i i Hcss) as (cs' & Hcs' & Hpanel);
    [by apply lookup_seq_lt|].
  rewrite Hcs in Hcs'. injection Hcs' as <-. simpl.
  split_and!; [done| |].
  - intros Hlt.
    destruct (conv_panel_lt _ _ _ _ _ _ _ Hlt Hpanel) as (img & ? & ->).
    eauto.
  - intros Hge. rewrite conv_panel_ge in Hpanel by done. congruence.
Qed.

Lemma plot_conv_weights_returns (weights : ndarray val) ic h w c n :
  Nd.wf weights → shape weights = [h; w; c; n] →
  0 < h * w * c → 2 ≤ n →
  (- Z.of_nat c ≤ default 0 ic < Z.of_nat c)%Z →
  ∃ fig, Plt.run (plot_conv_weights weights ic) = Ok fig.
Proof.
  intros Hwf Hshape Hpos Hn Hic.
  assert (0 < Nd.numel (shape weights)) as Hnumel.
  { rewrite Hshape. unfold Nd.numel. simpl. nia. }
  destruct (amin_ok weights Hwf Hnumel) as [w_min Hmin].
  destruct (amax_ok weights Hwf Hnumel) as [w_max Hmax].
  destruct (mapM_total (conv_panel weights (default 0%Z ic) n w_min w_max)
              (seq 0 (ceil_sqrt n * ceil_sqrt n))) as [css Hcss].
  { intros i _. destruct (decide (i < n)) as [Hi|Hi].
    - unfold conv_panel. rewrite decide_True by done.
      destruct (index_filter_ok weights h w c n (default 0%Z ic) i
                  Hshape Hi Hic) as (img & c' & -> & Himg & _).
      simpl. by rewrite Himg.
    - by rewrite conv_panel_ge by lia. }
  rewrite (plot_conv_weights_run weights ic w_min w_max n Hmin Hmax);
    [|by rewrite Hshape|by apply ceil_sqrt_ge_2].
  rewrite Hcss. eauto.
Qed.

End conv_panels.

(** A kernel with a single filter is laid out on a 1x1 grid, for which
    [plt.subplots] hands back a bare axes object: the grid is sized as for
    any other count, but [axes.flat] then raises. *)
Example plot_conv_weights_single_filter :
  ceil_sqrt 1 = 1 ∧
  Plt.run (plot_conv_weights (NdArray [2; 2; 1; 1] [1; 2; 3; 4]%Z) None)
  = Err (AttributeError "'Axes' object has no attribute 'flat'").
Proof. split; reflexivity. Qed.

(** C2.  The grid-sizing visualizers lay their panels on ceil(sqrt(count))
    rows, with enough cells for all of them, and leave the cells past the
    count blank.  [plot_conv_weights] builds a square grid and fills cells
    0 .. count-1 with the slices [weights[:, :, input_channel, i]]; it
    returns for every kernel with at least two filters and an existing
    channel, and for a single filter it sizes a 1x1 grid and then raises on
    [axes.flat], so no panel is left to speak of.
    [save_image_collection] opens axes on the first count cells only, and
    returns for every non-empty batch of 784-pixel images whose destination
    can be opened for writing.  A kernel of shape (5, 5, 3, 16) with the
    channel left out gives a 4x4 grid whose sixteen panels all show a 5x5
    slice of channel 0. *)
Theorem grid_visualizers_cover_and_blank {val} `{!Scalar val} :
  (∀ n, n ≤ ceil_sqrt n * ceil_sqrt n ∧ ∀ r, n ≤ r * r → ceil_sqrt n ≤ r) ∧
  (∀ (weights : ndarray val) ic fig,
     Plt.run (plot_conv_weights weights ic) = Ok fig →
     ∃ n,
       shape weights !! 3 = Some n ∧
       n ≤ ceil_sqrt n * ceil_sqrt n ∧
       length (fig_axes fig) = ceil_sqrt n * ceil_sqrt n ∧
       ∀ i a, fig_axes fig !! i = Some a →
         ax_spec a
         = SubplotSpec (Plt.default_grid (ceil_sqrt n) (ceil_sqrt n)) i ∧
         (i < n →
            ∃ img kw,
              index_filter weights (default 0%Z ic) i = Ok img ∧
              ax_calls a
              = [Imshow img kw; SetXTicks [] None; SetYTicks [] None]) ∧
         (n ≤ i → blank a = true)) ∧
  (∀ (weights : ndarray val) ic h w c n,
     Nd.wf weights → shape weights = [h; w; c; n] →
     0 < h * w * c → 2 ≤ n →
     (- Z.of_nat c ≤ default 0 ic < Z.of_nat c)%Z →
     ∃ fig, Plt.run (plot_conv_weights weights ic) = Ok fig) ∧
  (∀ (weights : ndarray val) ic h w c,
     Nd.wf weights → shape weights = [h; w; c; 1] → 0 < h * w * c →
     ceil_sqrt 1 = 1 ∧
     Plt.run (plot_conv_weights weights ic)
     = Err (AttributeError "'Axes' object has no attribute 'flat'")) ∧
  (∀ open_file (images : ndarray val) filename fig,
     Plt.run (save_image_collection open_file images filename) = Ok fig →
     ∃ n cols,
       shape images !! 0 = Some n ∧
       ceil_div n (ceil_sqrt n) = Ok cols ∧
       n ≤ ceil_sqrt n * cols ∧
       length (fig_axes fig) = n ∧
       ∀ i a, fig_axes fig !! i = Some a →
         ss_grid (ax_spec a)
         = GridSpec (ceil_sqrt n) cols
             (Some 1%Q) (Some 0%Q) (Some 1%Q) (Some 0%Q) (Some 0%Q) (Some 0%Q)
         ∧ ss_cell (ax_spec a) = i ∧ i < n) ∧
  (∀ open_file (images : ndarray val) filename n,
     Nd.wf images → shape images = [n; 784] → 0 < n →
     open_file (filename +:+ "_vis.png") = Ok () →
     ∃ fig, Plt.run (save_image_collection open_file images filename) = Ok fig) ∧
  (∀ (weights : ndarray val),
     Nd.wf weights → shape weights = [5; 5; 3; 16] →
     ∃ fig,
       Plt.run (plot_conv_weights weights None) = Ok fig ∧
       length (fig_axes fig) = 16 ∧
       ∀ i a, fig_axes fig !! i = Some a →
         ax_spec a = SubplotSpec (Plt.default_grid 4 4) i ∧
         blank a = false ∧
         ∃ img kw,
           index_filter weights 0 i = Ok img ∧ shape img = [5; 5] ∧
           (∀ p, p < 25 →
              data img !! p = data weights !! ((p * 3 + 0) * 16 + i)) ∧
           ax_calls a = [Imshow img kw; SetXTicks [] None; SetYTicks [] None]).
Proof.
  split_and!.
  - intros n. split; [apply ceil_sqrt_covers|apply ceil_sqrt_least].
  - intros weights ic fig (n & Hn & _ & Hlen & Hax)%plot_conv_weights_panels.
    exists n. split_and!; [done|apply ceil_sqrt_covers|done|].
    intros i a Ha. destruct (Hax i a Ha) as (Hspec & Hlt & Hge).
    split_and!; [done..|]. intros Hi. unfold blank. by rewrite (Hge Hi).
  - intros weights ic h w c n. apply plot_conv_weights_returns.
  - intros weights ic h w c Hwf Hshape Hpos. split; [done|].
    assert (0 < Nd.numel (shape weights)) as Hnumel.
    { rewrite Hshape. unfold Nd.numel. simpl. lia. }
    destruct (amin_ok weights Hwf Hnumel) as [w_min Hmin].
    destruct (amax_ok weights Hwf Hnumel) as [w_max Hmax].
    unfold Plt.run, plot_conv_weights, Nd.shape_at.
    rewrite (bind_ok _ _ _ _ _ (lift_ok _ _ _ Hmin)).
    rewrite (bind_ok _ _ _ _ _ (lift_ok _ _ _ Hmax)).
    rewrite Hshape. reflexivity.
  - intros open_file images filename fig
      (n & cols & Hn & _ & Hcols & Hle & Hlen & _ & Hax)
      %save_image_collection_panels.
    exists n, cols. split_and!; [done..|].
    intros i a Ha. destruct (Hax i a Ha) as (-> & _). simpl.
    split_and!; [done..|]. rewrite <-Hlen. by eapply lookup_lt_Some.
  - intros open_file images filename n. apply save_image_collection_returns.
  - intros weights Hwf Hshape.
    destruct (plot_conv_weights_returns weights None 5 5 3 16 Hwf Hshape)
      as [fig Hrun]; [simpl; lia..|].
    exists fig. split; [done|].
    destruct (plot_conv_weights_panels _ _ _ Hrun)
      as (n & Hn & _ & Hlen & Hax).
    rewrite Hshape in Hn. injection Hn as <-.
    change (ceil_sqrt 16) with 4 in *. split; [done|].
    intros i a Ha. destruct (Hax i a Ha) as (Hspec & Hlt & _).
    assert (i < 16) as Hi.
    { change 16 with (4 * 4). rewrite <-Hlen. by eapply lookup_lt_Some. }
    destruct (Hlt Hi) as (img & kw & Himg & Hcalls).
    destruct (index_filter_ok weights 5 5 3 16 0 i Hshape Hi ltac:(lia))
      as (img' & c' & Himg' & Hsh & Hlt3 & Hc' & Hdata).
    simpl in Himg. rewrite Himg in Himg'. injection Himg' as <-.
    assert (c' = 0) as -> by lia.
    split_and!; [done| |].
    + unfold blank. by rewrite Hcalls.
    + exists img, kw. split_and!; [done..| |done].
      intros p Hp. apply Hdata; [done|lia].
Qed.

Lemma grid_visualizers_cover_and_blank_witness :
  let weights : ndarray Z :=
    NdArray [5; 5; 3; 16] (Z.of_nat <$> seq 0 (5 * 5 * 3 * 16)) in
  Nd.wf weights ∧ shape weights = [5; 5; 3; 16] ∧
  ∃ fig,
    Plt.run (plot_conv_weights weights None) = Ok fig ∧
    length (fig_axes fig) = 16 ∧
    ∀ i a, fig_axes fig !! i = Some a →
      ax_spec a = SubplotSpec (Plt.default_grid 4 4) i ∧
      blank a = false ∧
      ∃ img kw,
        index_filter weights 0 i = Ok img ∧ shape img = [5; 5] ∧
        (∀ p, p < 25 →
           data img !! p = data weights !! ((p * 3 + 0) * 16 + i)) ∧
        ax_calls a = [Imshow img kw; SetXTicks [] None; SetYTicks [] None].
Proof.
  intros weights.
  assert (Nd.wf weights) as Hwf by (vm_compute; reflexivity).
  split; [exact Hwf|]. split; [reflexivity|].
  apply (proj2 (proj2 (proj2 (proj2 (proj2
           (proj2 grid_visualizers_cover_and_blank)))))
           weights); [exact Hwf|reflexivity].
Defined.

(** ** The sample plotter *)

Section plot_images_facts.
Context {val : Type}.
Implicit Types (images : ndarray val) (fig : figure val)
  (scores : list (list val)).







(** A run that returns had at least two samples and went through the three
    columns. *)
Lemma plot_images_ok_inv images y_pred logits cls_true cls_pred img_shape
    reshape fig :
  Plt.run (plot_images images y_pred logits cls_true cls_pred img_shape reshape)
    = Ok fig →
  ∃ n cs0 cs1 cs2,
    shape images !! 0 = Some n ∧ 2 ≤ n ∧
    mapM (image_panel images cls_true cls_pred img_shape reshape) (seq 0 n)
      = Ok cs0 ∧
    mapM (score_panel y_pred) (seq 0 n) = Ok cs1 ∧
    mapM (score_panel logits) (seq 0 n) = Ok cs2 ∧
    fig_axes fig
    = fig_axes
        (add_all (zip ((λ r, r * 3 + 2) <$> seq 0 n) cs2)
           (add_all (zip ((λ r, r * 3 + 1) <$> seq 0 n) cs1)
              (add_all (zip ((λ r, r * 3 + 0) <$> seq 0 n) cs0)
                 (Figure ((λ s, Axes s [])
                            <$> Plt.cells (Plt.default_grid n 3))
                    [SubplotsAdjust (1 # 2) (1 # 2)])))).
Proof.
  intros Hrun.
  destruct (shape images !! 0) as [n|] eqn:Hn; last first.
  { unfold Plt.run, plot_images, Nd.shape_at in Hrun. by rewrite Hn in Hrun. }
  destruct (decide (2 ≤ n)) as [Hrows|Hrows]; last first.
  { unfold Plt.run, plot_images, Nd.shape_at in Hrun. rewrite Hn in Hrun.
    destruct n as [|[|n]]; [by vm_compute in Hrun..|lia]. }
  rewrite (plot_images_run _ _ _ _ _ _ _ _ Hn Hrows) in Hrun.
  destruct (mapM (image_panel _ _ _ _ _) _) as [cs0|] eqn:H0; [|done].
  destruct (mapM (score_panel y_pred) _) as [cs1|] eqn:H1; [|done].
  destruct (mapM (score_panel logits) _) as [cs2|] eqn:H2; [|done].
  cbv zeta in Hrun. injection Hrun as <-.
  exists n, cs0, cs1, cs2. split_and!; done.
Qed.

End plot_images_facts.




(** ** The autoencoder-weight visualizer *)

Section transpose_facts.
Context {val : Type}.
Implicit Types (l : list val) (rows : list (list val)) (sh : list nat).

Lemma chunks_lengths n block l :
  n * block ≤ length l →
  length (Nd.chunks n block l) = n ∧
  Forall (λ c, length c = block) (Nd.chunks n block l).
Proof.
  revert l. induction n as [|n IH]; intros l Hl; simpl; [by split|].
  destruct (IH (drop block l)) as [Hlen Hall].
  { rewrite length_drop. simpl in Hl. lia. }
  split; [by rewrite Hlen|]. constructor; [|done].
  rewrite length_take. simpl in Hl. lia.
Qed.

Lemma ltranspose_lengths m rows :
  Forall (λ row, length row = m) rows →
  length (Nd.ltranspose m rows) = m ∧
  Forall (λ col, length col = length rows) (Nd.ltranspose m rows).
Proof.
  unfold Nd.ltranspose. induction 1 as [|row rows Hrow _ [IHlen IHall]]; simpl.
  - rewrite length_replicate. split; [done|]. by apply Forall_replicate.
  - split; [rewrite length_zip_with; lia|].
    clear IHlen Hrow. revert row.
    induction IHall as [|col cols Hcol _ IH]; intros [|x row]; simpl;
      constructor; simpl; auto.
Qed.

Lemma length_concat_uniform k (ls : list (list val)) :
  Forall (λ c, length c = k) ls → length (concat ls) = length ls * k.
Proof.
  induction 1 as [|c ls Hc _ IH]; simpl; [done|].
  rewrite length_app, IH. lia.
Qed.

Lemma length_transpose_data sh l :
  length l = Nd.numel sh → length (Nd.transpose_data sh l) = Nd.numel sh.
Proof.
  revert l. induction sh as [|d sh IH]; intros l Hl; simpl; [done|].
  change (Nd.numel (d :: sh)) with (d * Nd.numel sh) in *.
  destruct (chunks_lengths d (Nd.numel sh) l) as [Hn Hall]; [lia|].
  destruct (ltranspose_lengths (Nd.numel sh)
              (Nd.transpose_data sh <$> Nd.chunks d (Nd.numel sh) l))
    as [Hcols Hcol].
  { apply Forall_fmap. eapply list.Forall_impl; [exact Hall|].
    intros c Hc. simpl. by apply IH. }
  rewrite (length_concat_uniform _ _ Hcol), Hcols, length_fmap, Hn. lia.
Qed.

Lemma numel_reverse sh : Nd.numel (reverse sh) = Nd.numel sh.
Proof.
  induction sh as [|d sh IH]; [done|].
  rewrite reverse_cons, numel_app, IH. unfold Nd.numel. simpl. lia.
Qed.

(** Transposition keeps an array well-formed and reverses its shape. *)
Lemma transpose_wf (a : ndarray val) : Nd.wf a → Nd.wf (Nd.transpose a).
Proof.
  unfold Nd.wf, Nd.transpose. simpl. intros Hwf.
  rewrite numel_reverse. by apply length_transpose_data.
Qed.

End transpose_facts.

Section autoencoder_facts.
Context {val : Type} `{!Scalar val}.
Implicit Types (weights : ndarray val) (fig : figure val).

Lemma collection_panel_out_of_range (a : ndarray val) cmap u r count :
  shape a = [u; r] → u ≤ count →
  collection_panel a cmap count
  = Err (IndexError "index is out of bounds for axis").
Proof.
  intros Hshape Hcount. unfold collection_panel, index_row, Nd.take_axis.
  rewrite Hshape. simpl. by rewrite decide_False by lia.
Qed.

Lemma collection_panel_row (a : ndarray val) cmap u r count cs :
  Nd.wf a → shape a = [u; r] →
  collection_panel a cmap count = Ok cs → count < u ∧ r = 784.
Proof.
  intros Hwf Hshape (row & Hrow & Hlen & _)%collection_panel_inv.
  unfold index_row in Hrow. rewrite Hshape in Hrow. simpl in Hrow.
  destruct (take_axis_ok_inv _ _ _ _ Hrow) as (d & Hd & Hlt & Hsh).
  rewrite Hshape in Hd, Hsh. simplify_eq/=. split; [done|].
  destruct (take_axis_ok 0 count a d) as (row' & Hrow' & _ & Hwf');
    [by rewrite Hshape|done|].
  rewrite Hrow in Hrow'. injection Hrow' as <-.
  specialize (Hwf' Hwf). unfold Nd.wf in Hwf'. rewrite Hsh in Hwf'.
  unfold Nd.numel in Hwf'. simpl in Hwf'. lia.
Qed.

(** The first failing element decides a traversal. *)
Lemma mapM_first_error {A B} (f : A → res B) (l : list A) i x e :
  l !! i = Some x → f x = Err e →
  (∀ j y, j < i → l !! j = Some y → is_ok (f y) = true) →
  mapM f l = Err e.
Proof.
  revert i. induction l as [|y l IH]; intros i Hx He Hbefore; [done|].
  change (mapM f (y :: l)) with (b ← f y; bs ← mapM f l; mret (b :: bs)).
  destruct i as [|i]; simplify_eq/=.
  - by rewrite He.
  - pose proof (Hbefore 0 y ltac:(lia) eq_refl) as Hy.
    destruct (f y) as [b|]; [|done]. simpl.
    rewrite (IH i Hx He); [done|].
    intros j z Hj Hz. apply (Hbefore (S j) z); [lia|done].
Qed.

(** What [plot_autoencoder_weights] does with a well-formed r x u weight
    matrix: it returns exactly when r = 784 and there are at least a hundred
    units, and then draws the first hundred; with 784 rows and fewer units it
    raises an index error. *)
Lemma plot_autoencoder_weights_cases weights r u :
  Nd.wf weights → shape weights = [r; u] →
  (∀ fig, Plt.run (plot_autoencoder_weights weights) = Ok fig →
     r = 784 ∧ 100 ≤ u ∧ length (fig_axes fig) = 100) ∧
  (r = 784 → 100 ≤ u →
     ∃ fig, Plt.run (plot_autoencoder_weights weights) = Ok fig) ∧
  (r = 784 → u < 100 →
     Plt.run (plot_autoencoder_weights weights)
     = Err (IndexError "index is out of bounds for axis")).
Proof.
  intros Hwf Hshape.
  pose proof (transpose_wf weights Hwf) as Hwft.
  assert (shape (Nd.transpose weights) = [u; r]) as Hsht.
  { unfold Nd.transpose. simpl. by rewrite Hshape. }
  assert (shape (Nd.transpose weights) !! 1 = Some r) as Hdims
    by (by rewrite Hsht).
  destruct (decide (r = 0)) as [->|Hr].
  { assert (∀ x, Plt.run (plot_autoencoder_weights weights) ≠ Ok x) as Hno.
    { intros x. unfold Plt.run, plot_autoencoder_weights, Nd.shape_at.
      cbv zeta. by rewrite Hdims. }
    split_and!; [|done..]. intros fig Hrun. by destruct (Hno fig). }
  destruct (ceil_div_ok r (ceil_sqrt r)) as (cols & Hcols & _).
  { apply ceil_sqrt_pos. lia. }
  pose proof (plot_autoencoder_weights_run weights r cols Hdims Hcols) as Hrun.
  split_and!.
  - intros fig Hfig. rewrite Hfig in Hrun.
    destruct (mapM _ _) as [css|] eqn:Hcss; [|done].
    assert (fig_axes fig
            = zip_with Axes
                (Plt.cells (GridSpec 10 10 (Some 1%Q) (Some 0%Q) (Some 1%Q)
                              (Some 0%Q) (Some 0%Q) (Some 0%Q))) css) as Hax.
    { by injection Hrun as ->. }
    clear Hrun Hfig.
    pose proof (mapM_length _ _ _ Hcss) as Hlen. rewrite length_seq in Hlen.
    destruct (mapM_lookup _ _ _ 0 0 Hcss) as (cs0 & _ & Hp0).
    { apply lookup_seq_lt. lia. }
    apply (collection_panel_row _ _ u r) in Hp0 as [_ ->]; [|done..].
    change (784 `min` 100) with 100 in *.
    destruct (mapM_lookup _ _ _ 99 99 Hcss) as (cs99 & _ & Hp99).
    { apply lookup_seq_lt. lia. }
    apply (collection_panel_row _ _ u 784) in Hp99 as [? _]; [|done..].
    split_and!; [done|lia|].
    rewrite Hax, length_zip_with, length_cells, Hlen. done.
  - intros -> Hu. change (784 `min` 100) with 100 in Hrun.
    destruct (mapM_total
                (collection_panel (Nd.transpose weights) (Some "binary"))
                (seq 0 100)) as [css Hcss].
    { intros i Hi%elem_of_seq.
      eapply collection_panel_ok; [done..|lia]. }
    rewrite Hcss in Hrun. eauto.
  - intros -> Hu. change (784 `min` 100) with 100 in Hrun.
    rewrite (mapM_first_error _ _ u u
               (IndexError "index is out of bounds for axis")) in Hrun;
      [done|apply lookup_seq_lt; lia| |].
    + by eapply collection_panel_out_of_range.
    + intros j y Hj [-> _]%lookup_seq.
      eapply collection_panel_ok; [done..|]. simpl. done.
Qed.

End autoencoder_facts.

(** The run on sixty-four units, step by step: the transposed matrix has
    shape (64, 784), the loop counter ranges over its second extent, the
    pass for unit 63 is fine and the pass for index 64 raises. *)
Example plot_autoencoder_weights_64_units :
  let weights : ndarray Z := NdArray [784; 64] (replicate (784 * 64) 0%Z) in
  shape (Nd.transpose weights) = [64; 784] ∧
  Nd.shape_at (Nd.transpose weights) 1 = Ok 784 ∧
  is_ok (collection_panel (Nd.transpose weights) (Some "binary") 63) = true ∧
  collection_panel (Nd.transpose weights) (Some "binary") 64
    = Err (IndexError "index is out of bounds for axis") ∧
  Plt.run (plot_autoencoder_weights weights)
    = Err (IndexError "index is out of bounds for axis").
Proof. vm_compute. split_and!; reflexivity. Qed.

(** C10.  [plot_autoencoder_weights] counts its passes over
    [weights.shape[1]] of the transposed matrix, the length of one unit's
    weight vector, while it indexes units.  For a well-formed r x u weight
    matrix a run returns only if r = 784 and u >= 100, and then it has drawn
    exactly one hundred panels, the units past index 99 being left out; with
    r = 784 and fewer than a hundred units the pass after the last unit
    raises an index error instead of leaving the remaining cells
    untouched. *)
Theorem plot_autoencoder_weights_few_units_raises {val}
    (weights : ndarray val) (r u : nat) :
  Nd.wf weights → shape weights = [r; u] →
  (∀ fig, Plt.run (plot_autoencoder_weights weights) = Ok fig →
     r = 784 ∧ 100 ≤ u ∧ length (fig_axes fig) = 100) ∧
  (r = 784 → 100 ≤ u →
     ∃ fig, Plt.run (plot_autoencoder_weights weights) = Ok fig) ∧
  (r = 784 → u < 100 →
     Plt.run (plot_autoencoder_weights weights)
     = Err (IndexError "index is out of bounds for axis")).
Proof. apply plot_autoencoder_weights_cases. Qed.

Lemma plot_autoencoder_weights_few_units_raises_witness :
  let weights : ndarray Z := NdArray [784; 64] (replicate (784 * 64) 0%Z) in
  Nd.wf weights ∧ shape weights = [784; 64] ∧ 64 < 100 ∧
  Plt.run (plot_autoencoder_weights weights)
  = Err (IndexError "index is out of bounds for axis").
Proof.
  intros weights.
  assert (Nd.wf weights) as Hwf.
  { unfold Nd.wf, weights, Nd.numel. cbn [data shape foldr].
    rewrite length_replicate. lia. }
  split; [exact Hwf|]. split; [reflexivity|]. split; [lia|].
  apply (proj2 (proj2 (plot_autoencoder_weights_few_units_raises
                         weights 784 64 Hwf eq_refl)));
    [reflexivity|lia].
Defined.

(* ================================================================== *)
(** * Further properties *)

(** ** The mismatch finders: what the returned slices look like *)

Section finder_extras.
Context {A : Type}.
Implicit Types (arr : list A) (idx : list nat).

Lemma take_ok_iff arr idx :
  is_ok (Np.take arr idx) = true ↔ Forall (λ i, i < length arr) idx.
Proof.
  split.
  - induction idx as [|i idx IH]; [constructor|].
    rewrite take_cons. unfold Np.getitem.
    destruct (arr !! i) as [x|] eqn:Hi; simpl; [|done].
    destruct (Np.take arr idx) as [l|]; simpl; [|done].
    intros _. constructor; [by eapply lookup_lt_Some|by apply IH].
  - intros Hall. by destruct (take_in_range arr idx Hall) as (l & -> & _).
Qed.

Lemma take_error arr idx e :
  Np.take arr idx = Err e → e = IndexError "index is out of bounds for axis 0".
Proof.
  induction idx as [|i idx IH]; [done|].
  rewrite take_cons. unfold Np.getitem.
  destruct (arr !! i) as [x|]; simpl; [|by intros [= <-]].
  destruct (Np.take arr idx) as [l|]; simpl; [done|].
  intros [= <-]. by apply IH.
Qed.

Lemma take_all arr : Np.take arr (seq 0 (length arr)) = Ok arr.
Proof.
  apply mapM_ok. apply Forall2_same_length_lookup_2.
  - by rewrite length_seq.
  - intros i j x [-> _]%lookup_seq Hx. unfold Np.getitem. simpl.
    by rewrite Hx.
Qed.

Lemma where_replicate_true n i : Np.where_from i (replicate n true) = seq i n.
Proof.
  revert i. induction n as [|n IH]; intros i; simpl; [done|]. by rewrite IH.
Qed.

End finder_extras.

Lemma ne_mask_comm (a b : list Z) :
  zip_with (λ x y, bool_decide (x ≠ y)) a b
  = zip_with (λ x y, bool_decide (x ≠ y)) b a.
Proof.
  revert b. induction a as [|x a IH]; intros [|y b]; simpl; [done..|].
  rewrite IH. f_equal. apply bool_decide_ext. naive_solver.
Qed.

Lemma ne_mask_all_true (a b : list Z) :
  length a = length b →
  (∀ k x y, a !! k = Some x → b !! k = Some y → x ≠ y) →
  zip_with (λ x y, bool_decide (x ≠ y)) a b = replicate (length a) true.
Proof.
  revert b. induction a as [|x a IH]; intros [|y b] Hlen Hne;
    simplify_eq/=; [done|].
  rewrite IH; [|done|].
  - by rewrite bool_decide_true by (by apply (Hne 0)).
  - intros k x' y' Hx Hy. by apply (Hne (S k)).
Qed.

(** The slices both finders return, position by position. *)
Lemma find_wrong_predictions_cifar_slices (labels predictions : list Z)
    idx wl cl :
  length labels = length predictions →
  find_wrong_predictions_cifar labels predictions = Ok (idx, wl, cl) →
  length wl = length idx ∧ length cl = length idx ∧
  ∀ k w c, wl !! k = Some w → cl !! k = Some c →
    ∃ i, idx !! k = Some i ∧ predictions !! i = Some w ∧
         labels !! i = Some c ∧ w ≠ c.
Proof.
  intros Hlen Hrun.
  destruct (find_wrong_predictions_cifar_spec labels predictions Hlen)
    as (idx' & wl' & cl' & Hrun' & Hidx & Hwl & Hcl).
  rewrite Hrun in Hrun'. simplify_eq.
  split_and!.
  - symmetry. by eapply list.Forall2_length.
  - symmetry. by eapply list.Forall2_length.
  - intros k w c Hw Hc.
    destruct (Forall2_lookup_r _ _ _ _ _ Hwl Hw) as (i & Hi & Hpi).
    destruct (Forall2_lookup_r _ _ _ _ _ Hcl Hc) as (i' & Hi' & Hli).
    simplify_eq. exists i. split_and!; [done..|].
    assert (i ∈ Np.where_
              (zip_with (λ x y, bool_decide (x ≠ y)) labels predictions))
      as Hin by (by eapply list_elem_of_lookup_2).
    apply elem_of_where, lookup_ne_mask in Hin
      as (x & y & Hx & Hy & Hne). naive_solver.
Qed.

(** X1.  On vectors of equal length the two label slices have the length
    of the index list, and at every position the wrong label differs from
    the correct one. *)
Theorem wrong_and_correct_labels_differ (labels predictions : list Z)
    idx wl cl :
  length labels = length predictions →
  find_wrong_predictions_cifar labels predictions = Ok (idx, wl, cl) →
  length wl = length idx ∧ length cl = length idx ∧
  ∀ k w c, wl !! k = Some w → cl !! k = Some c → w ≠ c.
Proof.
  intros Hlen Hrun.
  destruct (find_wrong_predictions_cifar_slices _ _ _ _ _ Hlen Hrun)
    as (Hwl & Hcl & Hk).
  split_and!; [done..|]. intros k w c Hw Hc.
  by destruct (Hk k w c Hw Hc) as (i & _ & _ & _ & Hne).
Qed.

Lemma wrong_and_correct_labels_differ_witness :
  length [7; 1; 2; 1; 5]%Z = length [0; 2; 2; 1; 9]%Z ∧
  find_wrong_predictions_cifar [7; 1; 2; 1; 5]%Z [0; 2; 2; 1; 9]%Z
    = Ok ([0; 1; 4], [0; 2; 9]%Z, [7; 1; 5]%Z) ∧
  length [0; 2; 9]%Z = length [0; 1; 4] ∧
  length [7; 1; 5]%Z = length [0; 1; 4] ∧
  ∀ k w c, [0; 2; 9]%Z !! k = Some w → [7; 1; 5]%Z !! k = Some c → w ≠ c.
Proof.
  split; [reflexivity|]. split; [reflexivity|].
  apply (wrong_and_correct_labels_differ [7; 1; 2; 1; 5]%Z [0; 2; 2; 1; 9]%Z);
    reflexivity.
Defined.

(** X2.  Feeding the finder its own output, correct labels against wrong
    labels, reports every position as a mismatch and hands the two slices
    back unchanged. *)
Theorem finder_on_its_own_slices (labels predictions : list Z) idx wl cl :
  length labels = length predictions →
  find_wrong_predictions_cifar labels predictions = Ok (idx, wl, cl) →
  find_wrong_predictions_cifar cl wl = Ok (seq 0 (length idx), wl, cl).
Proof.
  intros Hlen Hrun.
  destruct (find_wrong_predictions_cifar_slices _ _ _ _ _ Hlen Hrun)
    as (Hwl & Hcl & Hk).
  unfold find_wrong_predictions_cifar.
  rewrite ne_same_length by lia. simpl.
  rewrite ne_mask_all_true; [|lia|].
  - unfold Np.where_. rewrite where_replicate_true, Hcl.
    rewrite <-Hwl at 1. rewrite take_all. simpl.
    rewrite <-Hcl at 1. rewrite take_all. simpl. done.
  - intros k c w Hc Hw Heq. subst.
    destruct (Hk k w w Hw Hc) as (_ & _ & _ & _ & Hne). done.
Qed.

Lemma finder_on_its_own_slices_witness :
  length [7; 1; 2; 1; 5]%Z = length [0; 2; 2; 1; 9]%Z ∧
  find_wrong_predictions_cifar [7; 1; 2; 1; 5]%Z [0; 2; 2; 1; 9]%Z
    = Ok ([0; 1; 4], [0; 2; 9]%Z, [7; 1; 5]%Z) ∧
  find_wrong_predictions_cifar [7; 1; 5]%Z [0; 2; 9]%Z
    = Ok (seq 0 (length [0; 1; 4]), [0; 2; 9]%Z, [7; 1; 5]%Z).
Proof.
  split; [reflexivity|]. split; [reflexivity|].
  apply (finder_on_its_own_slices [7; 1; 2; 1; 5]%Z [0; 2; 2; 1; 9]%Z);
    reflexivity.
Defined.

(** X3.  Exchanging labels and predictions leaves the indices as they are
    and exchanges the two slices. *)
Theorem finder_swapped_arguments (labels predictions : list Z) idx wl cl :
  length labels = length predictions →
  find_wrong_predictions_cifar labels predictions = Ok (idx, wl, cl) →
  find_wrong_predictions_cifar predictions labels = Ok (idx, cl, wl).
Proof.
  intros Hlen. unfold find_wrong_predictions_cifar.
  rewrite !ne_same_length by done. simpl.
  rewrite (ne_mask_comm predictions labels).
  destruct (Np.take predictions _) as [wl'|]; simpl; [|done].
  destruct (Np.take labels _) as [cl'|]; simpl; [|done].
  by intros [= <- <- <-].
Qed.

Lemma finder_swapped_arguments_witness :
  length [7; 1; 2; 1; 5]%Z = length [0; 2; 2; 1; 9]%Z ∧
  find_wrong_predictions_cifar [7; 1; 2; 1; 5]%Z [0; 2; 2; 1; 9]%Z
    = Ok ([0; 1; 4], [0; 2; 9]%Z, [7; 1; 5]%Z) ∧
  find_wrong_predictions_cifar [0; 2; 2; 1; 9]%Z [7; 1; 2; 1; 5]%Z
    = Ok ([0; 1; 4], [7; 1; 5]%Z, [0; 2; 9]%Z).
Proof.
  split; [reflexivity|]. split; [reflexivity|].
  apply (finder_swapped_arguments [7; 1; 2; 1; 5]%Z [0; 2; 2; 1; 9]%Z);
    reflexivity.
Defined.

(** X4.  [find_wrong_predictions] never checks the length of the image
    batch: it returns exactly when every mismatching position lies inside
    the batch, and raises an index error otherwise, so a batch that is too
    short goes unnoticed as long as the mismatches fall early enough. *)
Theorem finder_image_batch_bounds {img} (labels predictions : list Z)
    (images : list img) idx wl cl :
  length labels = length predictions →
  find_wrong_predictions_cifar labels predictions = Ok (idx, wl, cl) →
  (Forall (λ i, i < length images) idx →
     ∃ wi, find_wrong_predictions labels predictions images
           = Ok (idx, wi, wl, cl) ∧
           Forall2 (λ i x, images !! i = Some x) idx wi) ∧
  (¬ Forall (λ i, i < length images) idx →
     find_wrong_predictions labels predictions images
     = Err (IndexError "index is out of bounds for axis 0")).
Proof.
  intros Hlen. unfold find_wrong_predictions_cifar, find_wrong_predictions.
  rewrite !ne_same_length by done. simpl.
  destruct (Np.take predictions _) as [wl'|] eqn:Hwl; simpl; [|done].
  destruct (Np.take labels _) as [cl'|] eqn:Hcl; simpl; [|done].
  intros [= <- <- <-]. split.
  - intros Hall. destruct (take_in_range images _ Hall) as (wi & Hwi & Hlook).
    exists wi. by rewrite Hwi.
  - intros Hnot.
    destruct (Np.take images _) as [wi|e] eqn:Hwi; simpl.
    + destruct Hnot. apply take_ok_iff. by rewrite Hwi.
    + by rewrite (take_error _ _ _ Hwi).
Qed.

Lemma finder_image_batch_bounds_witness :
  length [7; 1; 2; 1; 5]%Z = length [0; 2; 2; 1; 9]%Z ∧
  find_wrong_predictions_cifar [7; 1; 2; 1; 5]%Z [0; 2; 2; 1; 9]%Z
    = Ok ([0; 1; 4], [0; 2; 9]%Z, [7; 1; 5]%Z) ∧
  ¬ Forall (λ i, i < length ["a"; "b"; "c"]) [0; 1; 4] ∧
  find_wrong_predictions [7; 1; 2; 1; 5]%Z [0; 2; 2; 1; 9]%Z ["a"; "b"; "c"]
    = Err (IndexError "index is out of bounds for axis 0").
Proof.
  assert (¬ Forall (λ i, i < length ["a"; "b"; "c"]) [0; 1; 4]) as Hnot.
  { intros Hall. apply list.Forall_forall with (x := 4) in Hall.
    - simpl in Hall. lia.
    - do 2 right. left. }
  split; [reflexivity|]. split; [reflexivity|]. split; [exact Hnot|].
  apply (proj2 (finder_image_batch_bounds [7; 1; 2; 1; 5]%Z [0; 2; 2; 1; 9]%Z
                  ["a"; "b"; "c"] [0; 1; 4] [0; 2; 9]%Z [7; 1; 5]%Z
                  eq_refl eq_refl)).
  exact Hnot.
Defined.

(** ** The sample plotter: captions, and what is never read *)

Section plot_images_extras.
Context {val : Type}.
Implicit Types (images : ndarray val) (fig : figure val).

Lemma mapM_ext_in {A B} (f g : A → res B) (l : list A) :
  (∀ x, x ∈ l → f x = g x) → mapM f l = mapM g l.
Proof.
  induction l as [|x l IH]; intros Heq; [done|].
  change (mapM f (x :: l)) with (b ← f x; bs ← mapM f l; mret (b :: bs)).
  change (mapM g (x :: l)) with (b ← g x; bs ← mapM g l; mret (b :: bs)).
  rewrite (Heq x) by left. rewrite IH; [done|].
  intros y Hy. apply Heq. by right.
Qed.

Lemma length_add_all_axes hcs fig :
  length (fig_axes (add_all hcs fig)) = length (fig_axes fig).
Proof.
  revert fig. induction hcs as [|hc hcs IH]; intros fig; [done|].
  unfold add_all in *. simpl. rewrite IH. unfold add_calls. simpl.
  by rewrite length_alter.
Qed.


(** The same, with the keywords of the [imshow] call. *)
Lemma image_panel_shown images cls_true cls_pred img_shape reshape i cs :
  image_panel images cls_true cls_pred img_shape reshape i = Ok cs →
  ∃ row X kw t p,
    Nd.take_axis 0 i images = Ok row ∧ data X = data row ∧
    shape X = (if default true reshape then img_shape else shape row) ∧
    kw = (if default true reshape
          then ImshowKw (Some "binary") (Some "auto") None None None
          else ImshowKw None None None None None) ∧
    cls_true !! i = Some t ∧ cls_pred !! i = Some p ∧
    cs = [Imshow X kw;
          SetXLabel ("True: " +:+ pretty t +:+ ", Pred: " +:+ pretty p);
          SetXTicks [] None; SetYTicks [] None].
Proof.
  unfold image_panel, Np.getitem.
  destruct (Nd.take_axis 0 i images) as [row|]; last first.
  { by destruct (default true reshape). }
  destruct (default true reshape); simpl.
  - destruct (Nd.reshape row img_shape) as [X|] eqn:HX; simpl; [|done].
    apply reshape_ok_inv in HX as [_ ->]. simpl.
    destruct (Plt.image_shape_ok img_shape); simpl; [|done].
    destruct (cls_true !! i) as [t|]; simpl; [|done].
    destruct (cls_pred !! i) as [p|]; simpl; [|done].
    intros [= <-]. eexists row, _, _, t, p.
    split_and!; [done| | | |done|done|reflexivity]; reflexivity.
  - destruct (Plt.image_shape_ok (shape row)); simpl; [|done].
    destruct (cls_true !! i) as [t|]; simpl; [|done].
    destruct (cls_pred !! i) as [p|]; simpl; [|done].
    intros [= <-]. eexists row, _, _, t, p.
    split_and!; [done| | | |done|done|reflexivity]; reflexivity.
Qed.

End plot_images_extras.

(** X5.  In a figure [plot_images] returns, the first panel of row r shows
    sample r: the values of [images[r]], in the shape [img_shape] with the
    "binary" colour map and automatic aspect when [reshape] is on, and as
    they are stored with the default settings when it is off.  The panel is
    captioned "True: t, Pred: p" with the r-th entries of the two class
    vectors; so both class vectors have an entry for every sample. *)
Theorem plot_images_caption_per_row {val} (images : ndarray val)
    y_pred logits cls_true cls_pred img_shape reshape fig :
  Plt.run (plot_images images y_pred logits cls_true cls_pred img_shape reshape)
    = Ok fig →
  ∃ n,
    shape images !! 0 = Some n ∧ n ≤ length cls_true ∧ n ≤ length cls_pred ∧
    length (fig_axes fig) = n * 3 ∧
    ∀ r, r < n →
      ∃ a row X kw t p,
        fig_axes fig !! (r * 3) = Some a ∧
        Nd.take_axis 0 r images = Ok row ∧ data X = data row ∧
        shape X = (if default true reshape then img_shape else shape row) ∧
        kw = (if default true reshape
              then ImshowKw (Some "binary") (Some "auto") None None None
              else ImshowKw None None None None None) ∧
        cls_true !! r = Some t ∧ cls_pred !! r = Some p ∧
        ax_calls a
        = [Imshow X kw;
           SetXLabel ("True: " +:+ pretty t +:+ ", Pred: " +:+ pretty p);
           SetXTicks [] None; SetYTicks [] None] ∧
        xlabel_of a = Some ("True: " +:+ pretty t +:+ ", Pred: " +:+ pretty p).
Proof.
  intros (n & cs0 & cs1 & cs2 & Hn & Hrows & H0 & H1 & H2 & Hax)
    %plot_images_ok_inv.
  assert (∀ r, r < n →
    ∃ a row X kw t p,
      fig_axes fig !! (r * 3) = Some a ∧
      Nd.take_axis 0 r images = Ok row ∧ data X = data row ∧
      shape X = (if default true reshape then img_shape else shape row) ∧
      kw = (if default true reshape
            then ImshowKw (Some "binary") (Some "auto") None None None
            else ImshowKw None None None None None) ∧
      cls_true !! r = Some t ∧ cls_pred !! r = Some p ∧
      ax_calls a
      = [Imshow X kw;
         SetXLabel ("True: " +:+ pretty t +:+ ", Pred: " +:+ pretty p);
         SetXTicks [] None; SetYTicks [] None] ∧
      xlabel_of a = Some ("True: " +:+ pretty t +:+ ", Pred: " +:+ pretty p))
    as Hrow.
  { intros r Hr.
    destruct (mapM_lookup _ _ _ r r H0) as (c0 & Hc0 & Hp0);
      [by apply lookup_seq_lt|].
    apply image_panel_shown in Hp0
      as (row & X & kw & t & p & Hrow & HX & Hsh & Hkw & Ht & Hp & ->).
    pose proof (plot_images_row cs0 cs1 cs2 n
                  [SubplotsAdjust (1 # 2) (1 # 2)] r 0 _ ltac:(lia) Hc0 Hr)
      as Ha. rewrite <-Hax, Nat.add_0_r in Ha.
    eexists _, row, X, kw, t, p. split_and!; [exact Ha|done..]. }
  exists n. split_and!; [done| | | |exact Hrow].
  - destruct (decide (n ≤ length cls_true)) as [|Hgt]; [done|].
    destruct (Hrow (length cls_true) ltac:(lia))
      as (? & ? & ? & ? & t & ? & _ & _ & _ & _ & _ & Ht & _).
    apply lookup_lt_Some in Ht. lia.
  - destruct (decide (n ≤ length cls_pred)) as [|Hgt]; [done|].
    destruct (Hrow (length cls_pred) ltac:(lia))
      as (? & ? & ? & ? & ? & p & _ & _ & _ & _ & _ & _ & Hp & _).
    apply lookup_lt_Some in Hp. lia.
  - rewrite Hax, !length_add_all_axes. simpl.
    rewrite length_fmap, length_cells. done.
Qed.

Lemma plot_images_caption_per_row_witness :
  ∃ fig,
    Plt.run (plot_images (NdArray [2; 4] [0; 1; 1; 0; 1; 0; 0; 1]%Z)
               [[5]; [7]]%Z [[1]; [2]]%Z [1; 3]%Z [1; 8]%Z [2; 2] None)
      = Ok fig ∧
    ∃ n,
      shape (NdArray [2; 4] [0; 1; 1; 0; 1; 0; 0; 1]%Z) !! 0 = Some n ∧
      n ≤ length [1; 3]%Z ∧ n ≤ length [1; 8]%Z ∧
      length (fig_axes fig) = n * 3 ∧
      ∀ r, r < n →
        ∃ a row X kw t p,
          fig_axes fig !! (r * 3) = Some a ∧
          Nd.take_axis 0 r (NdArray [2; 4] [0; 1; 1; 0; 1; 0; 0; 1]%Z)
            = Ok row ∧
          data X = data row ∧
          shape X = [2; 2] ∧
          kw = ImshowKw (Some "binary") (Some "auto") None None None ∧
          [1; 3]%Z !! r = Some t ∧ [1; 8]%Z !! r = Some p ∧
          ax_calls a
          = [Imshow X kw;
             SetXLabel ("True: " +:+ pretty t +:+ ", Pred: " +:+ pretty p);
             SetXTicks [] None; SetYTicks [] None] ∧
          xlabel_of a
          = Some ("True: " +:+ pretty t +:+ ", Pred: " +:+ pretty p).
Proof.
  eexists. split; [vm_compute; reflexivity|].
  apply (plot_images_caption_per_row
           (NdArray [2; 4] [0; 1; 1; 0; 1; 0; 0; 1]%Z)
           [[5]; [7]]%Z [[1]; [2]]%Z [1; 3]%Z [1; 8]%Z [2; 2] None).
  vm_compute. reflexivity.
Defined.

(** X6.  [plot_images] reads one entry of each score matrix and class
    vector per sample and nothing past the last sample: cutting the four of
    them down to the number of samples changes neither the figure nor the
    error. *)
Theorem plot_images_ignores_extra_rows {val} (images : ndarray val)
    y_pred logits cls_true cls_pred img_shape reshape n :
  shape images !! 0 = Some n →
  Plt.run (plot_images images y_pred logits cls_true cls_pred img_shape reshape)
  = Plt.run (plot_images images (take n y_pred) (take n logits)
               (take n cls_true) (take n cls_pred) img_shape reshape).
Proof.
  intros Hn. destruct (decide (2 ≤ n)) as [Hrows|Hrows].
  - rewrite !(plot_images_run _ _ _ _ _ _ _ n Hn Hrows).
    rewrite (mapM_ext_in
               (image_panel images (take n cls_true) (take n cls_pred)
                  img_shape reshape)
               (image_panel images cls_true cls_pred img_shape reshape)).
    2: { intros i Hi%elem_of_seq. unfold image_panel, Np.getitem.
         by rewrite !lookup_take_lt by lia. }
    rewrite (mapM_ext_in (score_panel (take n y_pred)) (score_panel y_pred)).
    2: { intros i Hi%elem_of_seq. unfold score_panel, Np.getitem.
         by rewrite !lookup_take_lt by lia. }
    rewrite (mapM_ext_in (score_panel (take n logits)) (score_panel logits)).
    2: { intros i Hi%elem_of_seq. unfold score_panel, Np.getitem.
         by rewrite !lookup_take_lt by lia. }
    done.
  - unfold Plt.run, plot_images, Nd.shape_at. rewrite Hn.
    destruct n as [|[|n]]; [reflexivity|reflexivity|lia].
Qed.

Lemma plot_images_ignores_extra_rows_witness :
  shape (NdArray [2; 4] [0; 1; 1; 0; 1; 0; 0; 1]%Z) !! 0 = Some 2 ∧
  Plt.run (plot_images (NdArray [2; 4] [0; 1; 1; 0; 1; 0; 0; 1]%Z)
             [[5]; [7]; [0; 0]]%Z [[1]; [2]; []]%Z [1; 3; 9]%Z [1; 8; 9; 9]%Z
             [2; 2] None)
  = Plt.run (plot_images (NdArray [2; 4] [0; 1; 1; 0; 1; 0; 0; 1]%Z)
               (take 2 [[5]; [7]; [0; 0]]%Z) (take 2 [[1]; [2]; []]%Z)
               (take 2 [1; 3; 9]%Z) (take 2 [1; 8; 9; 9]%Z) [2; 2] None).
Proof.
  split; [reflexivity|].
  apply (plot_images_ignores_extra_rows
           (NdArray [2; 4] [0; 1; 1; 0; 1; 0; 0; 1]%Z)).
  reflexivity.
Defined.

(** ** The dense-weight visualizer: when it returns, and what it shows *)

Section plot_weights_extras.
Context {val : Type} `{!Scalar val}.
Implicit Types (weights : ndarray val) (fig : figure val).

Lemma amin_empty (a : ndarray val) :
  Nd.wf a → Nd.numel (shape a) = 0 →
  Nd.amin a
  = Err (ValueError "zero-size array to reduction operation minimum which has no identity").
Proof.
  unfold Nd.wf, Nd.amin. intros Hwf Hz. rewrite Hz in Hwf.
  by destruct (data a).
Qed.

Lemma weights_panel_shape_ok weights img_shape w_min w_max i cs :
  i < 10 →
  weights_panel weights img_shape w_min w_max i = Ok cs →
  Plt.image_shape_ok img_shape = true.
Proof.
  intros Hi. unfold weights_panel. rewrite decide_True by done.
  destruct (Nd.take_axis 1 i weights) as [col|]; simpl; [|done].
  destruct (Nd.reshape col img_shape) as [image|] eqn:Himg; simpl; [|done].
  apply reshape_ok_inv in Himg as [_ ->]. simpl.
  by destruct (Plt.image_shape_ok img_shape).
Qed.

Lemma weights_panel_out_of_range weights img_shape w_min w_max r u i :
  shape weights = [r; u] → u ≤ i → i < 10 →
  weights_panel weights img_shape w_min w_max i
  = Err (IndexError "index is out of bounds for axis").
Proof.
  intros Hshape Hu Hi. unfold weights_panel, Nd.take_axis.
  rewrite decide_True by done. rewrite Hshape. simpl.
  by rewrite decide_False by lia.
Qed.

(** A column that does not fit the requested shape stops the first panel:
    in [reshape] when the sizes differ, in [imshow] when the shape is not
    one of an image. *)
Lemma weights_panel_misfit weights img_shape w_min w_max r u i :
  Nd.wf weights → shape weights = [r; u] → i < u → i < 10 →
  (Nd.numel img_shape ≠ r →
     weights_panel weights img_shape w_min w_max i
     = Err (ValueError "cannot reshape array into the requested shape")) ∧
  (Nd.numel img_shape = r → Plt.image_shape_ok img_shape = false →
     weights_panel weights img_shape w_min w_max i
     = Err (TypeError "Invalid shape for image data")).
Proof.
  intros Hwf Hshape Hu Hi.
  destruct (take_axis_ok 1 i weights u) as (col & Hcol & Hsh & Hwfc);
    [by rewrite Hshape|done|].
  specialize (Hwfc Hwf). unfold Nd.wf in Hwfc.
  rewrite Hsh, Hshape in Hwfc. cbn in Hwfc. rewrite Nat.mul_1_r in Hwfc.
  unfold weights_panel. rewrite decide_True by done. rewrite Hcol.
  cbn [mbind res_bind]. unfold Nd.reshape. split.
  - intros Hne. by rewrite decide_False by lia.
  - intros Hfit Hbad. rewrite decide_True by lia. cbn. by rewrite Hbad.
Qed.

(** Column [i] of a matrix, entry by entry. *)
Lemma take_column weights r u i col :
  Nd.wf weights → shape weights = [r; u] →
  Nd.take_axis 1 i weights = Ok col →
  i < u ∧ length (data col) = r ∧
  ∀ p, p < r → data col !! p = data weights !! (p * u + i).
Proof.
  intros Hwf Hshape Hcol.
  destruct (take_axis_ok_inv _ _ _ _ Hcol) as (d & Hd & Hi & _).
  rewrite Hshape in Hd. simplify_eq/=.
  unfold Nd.take_axis in Hcol. rewrite Hshape in Hcol. simpl in Hcol.
  rewrite decide_True in Hcol by done. injection Hcol as <-. simpl.
  unfold Nd.wf, Nd.numel in Hwf. rewrite Hshape in Hwf. simpl in Hwf.
  unfold Nd.numel. simpl. rewrite !Nat.mul_1_r in *.
  split_and!; [done|rewrite length_gather; lia|].
  intros p Hp.
  pose proof (lookup_gather (r * 1) d i 1 (data weights) p 0) as Hg.
  rewrite !Nat.mul_1_r, !Nat.add_0_r in Hg. apply Hg; lia.
Qed.

End plot_weights_extras.

(** X7.  What [plot_weights] does with a well-formed r x u weight matrix.
    It returns exactly when the matrix is not empty, has at least ten
    units, and a column holds as many values as the requested image shape,
    which is one [imshow] takes (M x N, or M x N x 1, 3 or 4).  An empty
    matrix fails in [np.min] before any figure exists.  On a matrix that is
    not empty, a column of another size fails in [reshape] and a shape that
    is not an image's fails in [imshow], both at the first panel; and when
    the shape fits, fewer than ten units make the loop index a missing
    column. *)
Theorem plot_weights_returns_iff {val} `{!Scalar val}
    (weights : ndarray val) img_shape r u :
  Nd.wf weights → shape weights = [r; u] →
  (is_ok (Plt.run (plot_weights weights img_shape)) = true ↔
     0 < r ∧ 10 ≤ u ∧ Nd.numel img_shape = r ∧
     Plt.image_shape_ok img_shape = true) ∧
  (r * u = 0 →
     Plt.run (plot_weights weights img_shape)
     = Err (ValueError "zero-size array to reduction operation minimum which has no identity")) ∧
  (0 < r → 0 < u → Nd.numel img_shape ≠ r →
     Plt.run (plot_weights weights img_shape)
     = Err (ValueError "cannot reshape array into the requested shape")) ∧
  (0 < r → 0 < u →
     Nd.numel img_shape = r → Plt.image_shape_ok img_shape = false →
     ∃ msg, Plt.run (plot_weights weights img_shape) = Err (TypeError msg)) ∧
  (0 < r → 0 < u → u < 10 →
     Nd.numel img_shape = r → Plt.image_shape_ok img_shape = true →
     Plt.run (plot_weights weights img_shape)
     = Err (IndexError "index is out of bounds for axis")).
Proof.
  intros Hwf Hshape.
  assert (Nd.numel (shape weights) = r * u) as Hnumel.
  { rewrite Hshape. unfold Nd.numel. simpl. lia. }
  split_and!.
  - split.
    + destruct (Plt.run (plot_weights weights img_shape)) as [fig|] eqn:Hrun;
        [intros _|done].
      apply plot_weights_ok_inv in Hrun
        as (w_min & w_max & css & Hmin & _ & Hcss & _).
      destruct (mapM_lookup _ _ _ 0 0 Hcss) as (c0 & _ & Hp0); [done|].
      destruct (mapM_lookup _ _ _ 9 9 Hcss) as (c9 & _ & Hp9); [done|].
      pose proof (weights_panel_shape_ok _ _ _ _ 0 _ ltac:(lia) Hp0) as Himg.
      apply weights_panel_lt in Hp0 as (col0 & Hcol0 & Hlen0 & _); [|lia].
      apply weights_panel_lt in Hp9 as (col9 & Hcol9 & _ & _); [|lia].
      destruct (take_column _ _ _ _ _ Hwf Hshape Hcol0) as (_ & Hr & _).
      destruct (take_column _ _ _ _ _ Hwf Hshape Hcol9) as (Hu & _ & _).
      assert (0 < r * u) as Hpos.
      { destruct (decide (r * u = 0)) as [Hz|]; [|lia].
        rewrite amin_empty in Hmin by (done || lia). done. }
      split_and!; [nia|lia|lia|done].
    + intros (Hr & Hu & Hfit & Himg).
      destruct (amin_ok weights Hwf ltac:(nia)) as [w_min Hmin].
      destruct (amax_ok weights Hwf ltac:(nia)) as [w_max Hmax].
      destruct (mapM_total (weights_panel weights img_shape w_min w_max)
                  (seq 0 12)) as [css Hcss].
      { intros i Hi%elem_of_seq. destruct (decide (i < 10)).
        - eapply weights_panel_ok; eauto with lia.
        - by rewrite weights_panel_ge by lia. }
      rewrite (plot_weights_run weights img_shape _ _ Hmin Hmax), Hcss. done.
  - intros Hz. unfold Plt.run, plot_weights.
    by rewrite (bind_err _ _ _ _
                  (lift_err _ _ _ (amin_empty weights Hwf ltac:(lia)))).
  - intros Hr Hu Hne.
    destruct (amin_ok weights Hwf ltac:(nia)) as [w_min Hmin].
    destruct (amax_ok weights Hwf ltac:(nia)) as [w_max Hmax].
    rewrite (plot_weights_run weights img_shape _ _ Hmin Hmax).
    rewrite (mapM_first_error _ _ 0 0
               (ValueError "cannot reshape array into the requested shape"));
      [done|done| |intros; lia].
    by apply (weights_panel_misfit weights img_shape w_min w_max r u 0
                Hwf Hshape Hu ltac:(lia)).
  - intros Hr Hu Hfit Hbad. eexists.
    destruct (amin_ok weights Hwf ltac:(nia)) as [w_min Hmin].
    destruct (amax_ok weights Hwf ltac:(nia)) as [w_max Hmax].
    rewrite (plot_weights_run weights img_shape _ _ Hmin Hmax).
    rewrite (mapM_first_error _ _ 0 0
               (TypeError "Invalid shape for image data"));
      [done|done| |intros; lia].
    by apply (weights_panel_misfit weights img_shape w_min w_max r u 0
                Hwf Hshape Hu ltac:(lia)).
  - intros Hr Hu Hlt Hfit Himg.
    destruct (amin_ok weights Hwf ltac:(nia)) as [w_min Hmin].
    destruct (amax_ok weights Hwf ltac:(nia)) as [w_max Hmax].
    rewrite (plot_weights_run weights img_shape _ _ Hmin Hmax).
    rewrite (mapM_first_error _ _ u u
               (IndexError "index is out of bounds for axis"));
      [done|apply lookup_seq_lt; lia| |].
    + by eapply weights_panel_out_of_range.
    + intros j y Hj [-> _]%lookup_seq.
      eapply weights_panel_ok; eauto with lia.
Qed.

Lemma plot_weights_returns_iff_witness :
  let weights : ndarray Z := NdArray [4; 3] (Z.of_nat <$> seq 0 12) in
  Nd.wf weights ∧ shape weights = [4; 3] ∧
  (is_ok (Plt.run (plot_weights weights [2; 2; 1])) = true ↔
     0 < 4 ∧ 10 ≤ 3 ∧ Nd.numel [2; 2; 1] = 4 ∧
     Plt.image_shape_ok [2; 2; 1] = true) ∧
  (4 * 3 = 0 →
     Plt.run (plot_weights weights [2; 2; 1])
     = Err (ValueError "zero-size array to reduction operation minimum which has no identity")) ∧
  (0 < 4 → 0 < 3 → Nd.numel [2; 2; 1] ≠ 4 →
     Plt.run (plot_weights weights [2; 2; 1])
     = Err (ValueError "cannot reshape array into the requested shape")) ∧
  (0 < 4 → 0 < 3 →
     Nd.numel [2; 2; 1] = 4 → Plt.image_shape_ok [2; 2; 1] = false →
     ∃ msg, Plt.run (plot_weights weights [2; 2; 1]) = Err (TypeError msg)) ∧
  (0 < 4 → 0 < 3 → 3 < 10 →
     Nd.numel [2; 2; 1] = 4 → Plt.image_shape_ok [2; 2; 1] = true →
     Plt.run (plot_weights weights [2; 2; 1])
     = Err (IndexError "index is out of bounds for axis")).
Proof.
  intros weights. split; [reflexivity|]. split; [reflexivity|].
  apply (plot_weights_returns_iff weights [2; 2; 1] 4 3); reflexivity.
Defined.

(** X8.  Every panel [plot_weights] draws uses one colour scale, the
    smallest and the largest entry of the whole matrix, and panel i shows
    column i: its p-th pixel is the weight in row p, column i. *)
Theorem plot_weights_shows_columns {val} `{!Scalar val}
    (weights : ndarray val) img_shape r u fig :
  Nd.wf weights → shape weights = [r; u] →
  Plt.run (plot_weights weights img_shape) = Ok fig →
  ∃ w_min w_max,
    Nd.amin weights = Ok w_min ∧ Nd.amax weights = Ok w_max ∧
    ∀ i, i < 10 →
      ∃ a X,
        fig_axes fig !! i = Some a ∧
        ax_calls a
        = [SetXLabel ("Weights: " +:+ pretty i);
           Imshow X (ImshowKw (Some "seismic") None None
                       (Some w_min) (Some w_max));
           SetXTicks [] None; SetYTicks [] None] ∧
        shape X = img_shape ∧ length (data X) = r ∧
        ∀ p, p < r → data X !! p = data weights !! (p * u + i).
Proof.
  intros Hwf Hshape
    (w_min & w_max & css & Hmin & Hmax & Hcss & ->)%plot_weights_ok_inv.
  exists w_min, w_max. split_and!; [done..|]. intros i Hi.
  destruct (mapM_lookup _ _ _ i i Hcss) as (cs & Hcs & Hpanel).
  { apply lookup_seq_lt. lia. }
  apply weights_panel_lt in Hpanel as (col & Hcol & _ & ->); [|done].
  destruct (take_column _ _ _ _ _ Hwf Hshape Hcol) as (_ & Hlen & Hpix).
  eexists _, (NdArray img_shape (data col)). split.
  { cbn [fig_axes]. rewrite lookup_zip_with, lookup_cells by (simpl; lia).
    simpl. by rewrite Hcs. }
  split_and!; done.
Qed.

Lemma plot_weights_shows_columns_witness :
  let weights : ndarray Z := NdArray [4; 10] (Z.of_nat <$> seq 0 40) in
  Nd.wf weights ∧ shape weights = [4; 10] ∧
  ∃ fig,
    Plt.run (plot_weights weights [2; 2]) = Ok fig ∧
    ∃ w_min w_max,
      Nd.amin weights = Ok w_min ∧ Nd.amax weights = Ok w_max ∧
      ∀ i, i < 10 →
        ∃ a X,
          fig_axes fig !! i = Some a ∧
          ax_calls a
          = [SetXLabel ("Weights: " +:+ pretty i);
             Imshow X (ImshowKw (Some "seismic") None None
                         (Some w_min) (Some w_max));
             SetXTicks [] None; SetYTicks [] None] ∧
          shape X = [2; 2] ∧ length (data X) = 4 ∧
          ∀ p, p < 4 → data X !! p = data weights !! (p * 10 + i).
Proof.
  intros weights. split; [reflexivity|]. split; [reflexivity|].
  eexists. split; [vm_compute; reflexivity|].
  apply (plot_weights_shows_columns weights [2; 2] 4 10);
    [reflexivity|reflexivity|vm_compute; reflexivity].
Defined.

(** ** The convolution-kernel visualizer: when it returns, and what it shows *)

Section conv_extras.
Context {val : Type} `{!Scalar val}.
Implicit Types (weights : ndarray val) (fig : figure val).

Lemma index_filter_channel weights h w c n ic i img :
  shape weights = [h; w; c; n] →
  index_filter weights ic i = Ok img →
  (- Z.of_nat c ≤ ic < Z.of_nat c)%Z.
Proof.
  intros Hshape. unfold index_filter, Nd.norm_index. rewrite Hshape. simpl.
  repeat case_decide; simpl; [lia|lia|done].
Qed.

Lemma index_filter_bad_channel weights h w c n ic i :
  shape weights = [h; w; c; n] →
  ¬ (- Z.of_nat c ≤ ic < Z.of_nat c)%Z →
  index_filter weights ic i
  = Err (IndexError "index is out of bounds for axis").
Proof.
  intros Hshape Hic. unfold index_filter, Nd.norm_index. rewrite Hshape. simpl.
  by rewrite !decide_False by lia.
Qed.

Lemma index_filter_from_end weights h w c n k i :
  shape weights = [h; w; c; n] → 1 ≤ k ≤ c →
  index_filter weights (- Z.of_nat k) i
  = index_filter weights (Z.of_nat (c - k)) i.
Proof.
  intros Hshape Hk. unfold index_filter, Nd.norm_index. rewrite Hshape. simpl.
  rewrite (decide_False (P := (0 ≤ - Z.of_nat k < Z.of_nat c)%Z)) by lia.
  rewrite (decide_True (P := (- Z.of_nat c ≤ - Z.of_nat k < 0)%Z)) by lia.
  rewrite (decide_True (P := (0 ≤ Z.of_nat (c - k) < Z.of_nat c)%Z)) by lia.
  simpl. do 2 f_equal. lia.
Qed.

Lemma bind_ext {A B} (m : plt val A) (k1 k2 : A → plt val B) fig :
  (∀ a f, k1 a f = k2 a f) → (m ≫= k1) fig = (m ≫= k2) fig.
Proof.
  intros Hk. unfold mbind, plt_bind. by destruct (m fig) as [[a f]|].
Qed.

Lemma bind_ext_l {A B} (m1 m2 : plt val A) (k : A → plt val B) fig :
  m1 fig = m2 fig → (m1 ≫= k) fig = (m2 ≫= k) fig.
Proof. intros Hm. unfold mbind, plt_bind. by rewrite Hm. Qed.

Lemma for_ext {A} (body1 body2 : A → plt val unit) (l : list A) fig :
  (∀ x f, body1 x f = body2 x f) →
  Plt.for_ l body1 fig = Plt.for_ l body2 fig.
Proof.
  intros Hbody. revert fig. induction l as [|x l IH]; intros fig; [done|].
  simpl. unfold mbind, plt_bind. rewrite Hbody.
  destruct (body2 x fig) as [[[] f]|]; [apply IH|done].
Qed.

End conv_extras.

(** X9.  For a well-formed, non-empty h x w x c x n kernel
    [plot_conv_weights] returns exactly when there are at least two filters
    and the channel, counted from the front or with a negative number from
    the back, exists.  A single filter fails on [axes.flat]; a channel out of
    range fails with an index error in the first panel. *)
Theorem plot_conv_weights_returns_iff {val} `{!Scalar val}
    (weights : ndarray val) ic h w c n :
  Nd.wf weights → shape weights = [h; w; c; n] → 0 < h * w * c * n →
  (is_ok (Plt.run (plot_conv_weights weights ic)) = true ↔
     2 ≤ n ∧ (- Z.of_nat c ≤ default 0 ic < Z.of_nat c)%Z) ∧
  (n = 1 →
     Plt.run (plot_conv_weights weights ic)
     = Err (AttributeError "'Axes' object has no attribute 'flat'")) ∧
  (2 ≤ n → ¬ (- Z.of_nat c ≤ default 0 ic < Z.of_nat c)%Z →
     Plt.run (plot_conv_weights weights ic)
     = Err (IndexError "index is out of bounds for axis")).
Proof.
  intros Hwf Hshape Hpos.
  assert (0 < Nd.numel (shape weights)) as Hnumel.
  { rewrite Hshape. unfold Nd.numel. simpl. lia. }
  destruct (amin_ok weights Hwf Hnumel) as [w_min Hmin].
  destruct (amax_ok weights Hwf Hnumel) as [w_max Hmax].
  assert (shape weights !! 3 = Some n) as Hn by (by rewrite Hshape).
  split_and!.
  - split.
    + destruct (Plt.run (plot_conv_weights weights ic)) as [fig|] eqn:Hrun;
        [intros _|done].
      apply plot_conv_weights_ok_inv in Hrun
        as (w_min' & w_max' & n' & css & _ & _ & Hn' & Hg & Hcss & _).
      rewrite Hn in Hn'. injection Hn' as <-.
      assert (2 ≤ n) as Hn2.
      { destruct n as [|[|n]]; [done|done|lia]. }
      split; [done|].
      destruct (mapM_lookup _ _ _ 0 0 Hcss) as (c0 & _ & Hp0).
      { apply lookup_seq_lt. nia. }
      apply conv_panel_lt in Hp0 as (img & Himg & _); [|lia].
      by eapply index_filter_channel.
    + intros [Hn2 Hic].
      destruct (plot_conv_weights_returns weights ic h w c n Hwf Hshape)
        as [fig ->]; [nia|done..].
  - intros ->. unfold Plt.run, plot_conv_weights, Nd.shape_at.
    rewrite (bind_ok _ _ _ _ _ (lift_ok _ _ _ Hmin)).
    rewrite (bind_ok _ _ _ _ _ (lift_ok _ _ _ Hmax)).
    rewrite Hn. reflexivity.
  - intros Hn2 Hic.
    rewrite (plot_conv_weights_run weights ic w_min w_max n Hmin Hmax Hn)
      by (by apply ceil_sqrt_ge_2).
    rewrite (mapM_first_error _ _ 0 0
               (IndexError "index is out of bounds for axis"));
      [done|apply lookup_seq_lt; pose proof (ceil_sqrt_ge_2 n Hn2); nia| |].
    + unfold conv_panel. rewrite decide_True by lia.
      by rewrite (index_filter_bad_channel weights h w c n).
    + intros j y Hj. lia.
Qed.

Lemma plot_conv_weights_returns_iff_witness :
  let weights : ndarray Z := NdArray [2; 2; 3; 5] (Z.of_nat <$> seq 0 60) in
  Nd.wf weights ∧ shape weights = [2; 2; 3; 5] ∧ 0 < 2 * 2 * 3 * 5 ∧
  (is_ok (Plt.run (plot_conv_weights weights (Some 3%Z))) = true ↔
     2 ≤ 5 ∧ (- Z.of_nat 3 ≤ default 0 (Some 3) < Z.of_nat 3)%Z) ∧
  (5 = 1 →
     Plt.run (plot_conv_weights weights (Some 3%Z))
     = Err (AttributeError "'Axes' object has no attribute 'flat'")) ∧
  (2 ≤ 5 → ¬ (- Z.of_nat 3 ≤ default 0 (Some 3) < Z.of_nat 3)%Z →
     Plt.run (plot_conv_weights weights (Some 3%Z))
     = Err (IndexError "index is out of bounds for axis")).
Proof.
  intros weights. split; [reflexivity|]. split; [reflexivity|].
  split; [simpl; lia|].
  apply (plot_conv_weights_returns_iff weights (Some 3%Z) 2 2 3 5);
    [reflexivity|reflexivity|simpl; lia].
Defined.

(** X10.  A negative [input_channel] counts channels from the back: for a
    kernel with c channels, passing -k (1 <= k <= c) gives the same figure,
    or the same error, as passing c - k. *)
Theorem plot_conv_weights_negative_channel {val} `{!Scalar val}
    (weights : ndarray val) h w c n k :
  shape weights = [h; w; c; n] → 1 ≤ k ≤ c →
  Plt.run (plot_conv_weights weights (Some (- Z.of_nat k)%Z))
  = Plt.run (plot_conv_weights weights (Some (Z.of_nat (c - k)))).
Proof.
  intros Hshape Hk.
  assert (∀ fig,
    plot_conv_weights weights (Some (- Z.of_nat k)%Z) fig
    = plot_conv_weights weights (Some (Z.of_nat (c - k))) fig) as Heq.
  { intros fig. unfold plot_conv_weights. cbv zeta.
    apply bind_ext. intros w_min f1. apply bind_ext. intros w_max f2.
    apply bind_ext. intros num_filters f3. apply bind_ext. intros axes f4.
    apply bind_ext. intros panels f5. apply bind_ext_l.
    apply for_ext. intros [i ax] f. apply bind_ext_l.
    case_decide; [|done]. apply bind_ext_l. f_equal. simpl.
    by eapply index_filter_from_end. }
  unfold Plt.run. by rewrite Heq.
Qed.

Lemma plot_conv_weights_negative_channel_witness :
  let weights : ndarray Z := NdArray [2; 2; 3; 5] (Z.of_nat <$> seq 0 60) in
  shape weights = [2; 2; 3; 5] ∧ 1 ≤ 1 ≤ 3 ∧
  Plt.run (plot_conv_weights weights (Some (- Z.of_nat 1)%Z))
  = Plt.run (plot_conv_weights weights (Some (Z.of_nat (3 - 1)))).
Proof.
  intros weights. split; [reflexivity|]. split; [lia|].
  apply (plot_conv_weights_negative_channel weights 2 2 3 5 1);
    [reflexivity|lia].
Defined.

(** X11.  Every panel [plot_conv_weights] draws uses one colour scale, the
    smallest and the largest entry of the whole kernel, and panel i shows
    filter i of the chosen channel: an h x w image whose pixel p is the
    entry at position p, channel c', filter i. *)
Theorem plot_conv_weights_shows_filters {val} `{!Scalar val}
    (weights : ndarray val) ic h w c n fig :
  Nd.wf weights → shape weights = [h; w; c; n] →
  Plt.run (plot_conv_weights weights ic) = Ok fig →
  ∃ w_min w_max c',
    Nd.amin weights = Ok w_min ∧ Nd.amax weights = Ok w_max ∧
    c' < c ∧
    (Z.of_nat c' = default 0 ic ∨ Z.of_nat c' = Z.of_nat c + default 0 ic)%Z ∧
    ∀ i, i < n →
      ∃ a X,
        fig_axes fig !! i = Some a ∧
        ax_calls a
        = [Imshow X (ImshowKw (Some "seismic") None (Some "nearest")
                       (Some w_min) (Some w_max));
           SetXTicks [] None; SetYTicks [] None] ∧
        shape X = [h; w] ∧
        ∀ p, p < h * w → data X !! p = data weights !! ((p * c + c') * n + i).
Proof.
  intros Hwf Hshape Hrun.
  pose proof Hrun as Hinv.
  apply plot_conv_weights_ok_inv in Hinv
    as (w_min & w_max & n' & css & Hmin & Hmax & Hn & Hg & Hcss & ->).
  rewrite Hshape in Hn. injection Hn as <-.
  assert (2 ≤ n) as Hn2.
  { destruct n as [|[|n]]; [done|done|lia]. }
  pose proof (ceil_sqrt_covers n) as Hcover.
  destruct (mapM_lookup _ _ _ 0 0 Hcss) as (cs0 & _ & Hp0).
  { apply lookup_seq_lt. nia. }
  apply conv_panel_lt in Hp0 as (img0 & Himg0 & _); [|lia].
  pose proof (index_filter_channel _ _ _ _ _ _ _ _ Hshape Himg0) as Hic.
  destruct (index_filter_ok weights h w c n (default 0%Z ic) 0 Hshape
              ltac:(lia) Hic) as (_ & c' & _ & _ & Hc' & Hcase & _).
  exists w_min, w_max, c'. split_and!; [done..|]. intros i Hi.
  destruct (mapM_lookup _ _ _ i i Hcss) as (cs & Hcs & Hpanel).
  { apply lookup_seq_lt. nia. }
  apply conv_panel_lt in Hpanel as (img & Himg & ->); [|done].
  destruct (index_filter_ok weights h w c n (default 0%Z ic) i Hshape Hi Hic)
    as (img' & c'' & Himg' & Hsh & Hc'' & Hcase' & Hdata).
  rewrite Himg in Himg'. injection Himg' as <-.
  assert (c'' = c') as -> by lia.
  eexists _, img. split.
  { cbn [fig_axes]. rewrite lookup_zip_with, lookup_cells by (simpl; nia).
    simpl. by rewrite Hcs. }
  split_and!; [done..|]. intros p Hp. by apply Hdata.
Qed.

Lemma plot_conv_weights_shows_filters_witness :
  let weights : ndarray Z := NdArray [2; 2; 3; 5] (Z.of_nat <$> seq 0 60) in
  Nd.wf weights ∧ shape weights = [2; 2; 3; 5] ∧
  ∃ fig,
    Plt.run (plot_conv_weights weights (Some (-1)%Z)) = Ok fig ∧
    ∃ w_min w_max c',
      Nd.amin weights = Ok w_min ∧ Nd.amax weights = Ok w_max ∧
      c' < 3 ∧
      (Z.of_nat c' = default 0 (Some (-1)) ∨
       Z.of_nat c' = Z.of_nat 3 + default 0 (Some (-1)))%Z ∧
      ∀ i, i < 5 →
        ∃ a X,
          fig_axes fig !! i = Some a ∧
          ax_calls a
          = [Imshow X (ImshowKw (Some "seismic") None (Some "nearest")
                         (Some w_min) (Some w_max));
             SetXTicks [] None; SetYTicks [] None] ∧
          shape X = [2; 2] ∧
          ∀ p, p < 2 * 2 →
            data X !! p = data weights !! ((p * 3 + c') * 5 + i).
Proof.
  intros weights. split; [reflexivity|]. split; [reflexivity|].
  eexists. split; [vm_compute; reflexivity|].
  apply (plot_conv_weights_shows_filters weights (Some (-1)%Z) 2 2 3 5);
    [reflexivity|reflexivity|vm_compute; reflexivity].
Defined.

(** ** The layer-output visualizer *)

Section layer_facts.
Context {val : Type}.
Implicit Types (layer_output : ndarray val) (fig f : figure val).

Lemma layer_body layer_output n (x : nat * nat) f :
  (let '(i, ax) := x in
   (if decide (i < n) then
      img ← Plt.lift (index_sample_filter layer_output i);
      Plt.imshow ax img
        (ImshowKw (Some "binary") None (Some "nearest") None None)
    else mret ());;
   Plt.set_xticks ax [];;
   Plt.set_yticks ax []) f
  = match layer_panel layer_output n x.1 with
    | Ok cs => Ok ((), add_calls x.2 cs f)
    | Err e => Err e
    end.
Proof.
  destruct x as [i ax]. unfold layer_panel, no_ticks. simpl.
  unfold mbind at 1, plt_bind. case_decide.
  - unfold mbind at 1, plt_bind.
    destruct (index_sample_filter layer_output i) as [img|]; simpl; [|done].
    rewrite imshow_eq.
    destruct (Plt.image_shape_ok (shape img)); [|done].
    by rewrite !add_calls_cons.
  - simpl. by rewrite !add_calls_cons.
Qed.

Lemma plot_conv_layer_run layer_output n :
  shape layer_output !! 3 = Some n → 2 ≤ ceil_sqrt n →
  Plt.run (plot_conv_layer layer_output)
  = match mapM (layer_panel layer_output n)
            (seq 0 (ceil_sqrt n * ceil_sqrt n)) with
    | Ok css =>
        Ok (Figure (zip_with Axes
                      (Plt.cells (Plt.default_grid (ceil_sqrt n) (ceil_sqrt n)))
                      css) [Show])
    | Err e => Err e
    end.
Proof.
  intros Hn Hg. unfold Plt.run, plot_conv_layer, Nd.shape_at. rewrite Hn.
  unfold mbind at 1; unfold plt_bind at 1. cbn [Plt.lift]. cbv zeta.
  unfold mbind at 1; unfold plt_bind at 1. unfold Plt.subplots.
  rewrite !decide_False by lia.
  rewrite (bind_ok _ _ _ _ _
             (lift_ok _ _ _
                (flat_squeeze (ceil_sqrt n) (ceil_sqrt n) ltac:(lia)))).
  unfold mbind at 1; unfold plt_bind at 1.
  erewrite for_calls; [|intros x f; apply layer_body].
  rewrite enumerate_panels, enumerate_handles.
  destruct (mapM _ _) as [css|] eqn:Hcss; [|done].
  apply mapM_length in Hcss. rewrite length_seq in Hcss.
  pose proof (length_cells (Plt.default_grid (ceil_sqrt n) (ceil_sqrt n)))
    as Hcells. simpl in Hcells.
  rewrite <-Hcells, add_all_fresh by lia. done.
Qed.

Lemma plot_conv_layer_ok_inv layer_output fig :
  Plt.run (plot_conv_layer layer_output) = Ok fig →
  ∃ n css,
    shape layer_output !! 3 = Some n ∧ 2 ≤ n ∧
    mapM (layer_panel layer_output n) (seq 0 (ceil_sqrt n * ceil_sqrt n))
      = Ok css ∧
    fig = Figure
            (zip_with Axes
               (Plt.cells (Plt.default_grid (ceil_sqrt n) (ceil_sqrt n))) css)
            [Show].
Proof.
  intros Hrun.
  destruct (shape layer_output !! 3) as [n|] eqn:Hn; last first.
  { unfold Plt.run, plot_conv_layer, Nd.shape_at in Hrun.
    by rewrite Hn in Hrun. }
  destruct (decide (2 ≤ n)) as [Hn2|Hn2]; last first.
  { unfold Plt.run, plot_conv_layer, Nd.shape_at in Hrun. rewrite Hn in Hrun.
    destruct n as [|[|n]]; [done|done|lia]. }
  rewrite (plot_conv_layer_run _ _ Hn (ceil_sqrt_ge_2 n Hn2)) in Hrun.
  destruct (mapM _ _) as [css|] eqn:Hcss; [|done].
  injection Hrun as <-. by exists n, css.
Qed.

(** The slice [a[0, :, :, i]] of a batch of activations: filter [i] of the
    first sample. *)
Lemma index_sample_filter_ok layer_output b h w n i :
  shape layer_output = [b; h; w; n] → 0 < b → i < n →
  ∃ img,
    index_sample_filter layer_output i = Ok img ∧ shape img = [h; w] ∧
    (Nd.wf layer_output → ∀ p, p < h * w →
       data img !! p = data layer_output !! (p * n + i)).
Proof.
  intros Hshape Hb Hi. unfold index_sample_filter, Nd.take_axis.
  rewrite Hshape. simpl. rewrite decide_True by done. simpl.
  rewrite decide_True by done.
  eexists. split_and!; [done..|].
  unfold Nd.wf. rewrite Hshape. unfold Nd.numel. simpl.
  rewrite !Nat.mul_1_r, app_nil_r, drop_0. intros Hwf p Hp.
  pose proof (lookup_gather (h * w) n i 1
    (take (h * (w * n)) (data layer_output)) p 0) as Hin.
  rewrite !Nat.mul_1_r, !Nat.add_0_r in Hin.
  rewrite Hin; [|lia| |done|lia].
  - apply lookup_take_lt. nia.
  - rewrite length_take. nia.
Qed.

Lemma index_sample_filter_empty layer_output h w n i :
  shape layer_output = [0; h; w; n] →
  index_sample_filter layer_output i
  = Err (IndexError "index is out of bounds for axis").
Proof.
  intros Hshape. unfold index_sample_filter, Nd.take_axis.
  rewrite Hshape. done.
Qed.

Lemma layer_panel_lt layer_output n i cs :
  i < n →
  layer_panel layer_output n i = Ok cs →
  ∃ img,
    index_sample_filter layer_output i = Ok img ∧
    cs = [Imshow img (ImshowKw (Some "binary") None (Some "nearest")
                        None None);
          SetXTicks [] None; SetYTicks [] None].
Proof.
  intros Hi. unfold layer_panel. rewrite decide_True by done.
  destruct (index_sample_filter layer_output i) as [img|]; simpl; [|done].
  destruct (Plt.image_shape_ok (shape img)); [|done].
  intros [= <-]. by exists img.
Qed.

Lemma layer_panel_ge layer_output n i :
  n ≤ i → layer_panel layer_output n i = Ok no_ticks.
Proof. intros Hi. unfold layer_panel. by rewrite decide_False by lia. Qed.

End layer_facts.

Lemma plot_conv_layer_empty_batch {val} (layer_output : ndarray val) h w n :
  shape layer_output = [0; h; w; n] → 2 ≤ n →
  Plt.run (plot_conv_layer layer_output)
  = Err (IndexError "index is out of bounds for axis").
Proof.
  intros Hshape Hn2.
  assert (shape layer_output !! 3 = Some n) as Hn by (by rewrite Hshape).
  rewrite (plot_conv_layer_run _ _ Hn (ceil_sqrt_ge_2 n Hn2)).
  rewrite (mapM_first_error _ _ 0 0
             (IndexError "index is out of bounds for axis"));
    [done|apply lookup_seq_lt; pose proof (ceil_sqrt_ge_2 n Hn2); nia| |].
  - unfold layer_panel. rewrite decide_True by lia.
    by rewrite (index_sample_filter_empty layer_output h w n).
  - intros j y Hj. lia.
Qed.

Lemma plot_conv_layer_ok_nonempty {val} (layer_output : ndarray val)
    b h w n fig :
  shape layer_output = [b; h; w; n] →
  Plt.run (plot_conv_layer layer_output) = Ok fig → 0 < b ∧ 2 ≤ n.
Proof.
  intros Hshape Hrun.
  pose proof Hrun as (n' & css & Hn' & Hn2 & _)%plot_conv_layer_ok_inv.
  rewrite Hshape in Hn'. injection Hn' as <-. split; [|done].
  destruct b as [|b]; [|lia].
  rewrite (plot_conv_layer_empty_batch layer_output h w n Hshape Hn2) in Hrun.
  done.
Qed.

(** X12.  For a batch of activations of shape b x h x w x n,
    [plot_conv_layer] returns exactly when the batch holds at least one
    sample and there are at least two filters.  A single filter fails on
    [axes.flat]; an empty batch fails with an index error when the first
    sample is read. *)
Theorem plot_conv_layer_returns_iff {val} (layer_output : ndarray val)
    b h w n :
  shape layer_output = [b; h; w; n] →
  (is_ok (Plt.run (plot_conv_layer layer_output)) = true ↔ 0 < b ∧ 2 ≤ n) ∧
  (n = 1 →
     Plt.run (plot_conv_layer layer_output)
     = Err (AttributeError "'Axes' object has no attribute 'flat'")) ∧
  (2 ≤ n → b = 0 →
     Plt.run (plot_conv_layer layer_output)
     = Err (IndexError "index is out of bounds for axis")).
Proof.
  intros Hshape.
  assert (shape layer_output !! 3 = Some n) as Hn by (by rewrite Hshape).
  split_and!.
  - split.
    + destruct (Plt.run (plot_conv_layer layer_output)) as [fig|] eqn:Hrun;
        [intros _|done].
      by eapply plot_conv_layer_ok_nonempty.
    + intros [Hb Hn2].
      rewrite (plot_conv_layer_run _ _ Hn (ceil_sqrt_ge_2 n Hn2)).
      destruct (mapM_total (layer_panel layer_output n)
                  (seq 0 (ceil_sqrt n * ceil_sqrt n))) as [css ->]; [|done].
      intros i _. destruct (decide (i < n)) as [Hi|Hi].
      * unfold layer_panel. rewrite decide_True by done.
        destruct (index_sample_filter_ok layer_output b h w n i Hshape Hb Hi)
          as (img & -> & Himg & _).
        simpl. by rewrite Himg.
      * by rewrite layer_panel_ge by lia.
  - intros ->. unfold Plt.run, plot_conv_layer, Nd.shape_at.
    rewrite Hn. reflexivity.
  - intros Hn2 ->. by eapply plot_conv_layer_empty_batch.
Qed.

Lemma plot_conv_layer_returns_iff_witness :
  let layer_output : ndarray Z :=
    NdArray [0; 2; 2; 3] (Z.of_nat <$> seq 0 0) in
  shape layer_output = [0; 2; 2; 3] ∧
  (is_ok (Plt.run (plot_conv_layer layer_output)) = true ↔ 0 < 0 ∧ 2 ≤ 3) ∧
  (3 = 1 →
     Plt.run (plot_conv_layer layer_output)
     = Err (AttributeError "'Axes' object has no attribute 'flat'")) ∧
  (2 ≤ 3 → 0 = 0 →
     Plt.run (plot_conv_layer layer_output)
     = Err (IndexError "index is out of bounds for axis")).
Proof.
  intros layer_output. split; [reflexivity|].
  apply (plot_conv_layer_returns_iff layer_output 0 2 2 3). reflexivity.
Defined.

(** X13.  A figure [plot_conv_layer] returns has one axes per cell of a
    square grid of ceil(sqrt(n)) rows; cell i below the filter count shows
    filter i of the first sample of the batch, an h x w image whose pixel p
    is the activation at position p, filter i, and the cells from the filter
    count on get nothing but the removal of their ticks.  No other sample
    of the batch is drawn. *)
Theorem plot_conv_layer_shows_first_sample {val}
    (layer_output : ndarray val) b h w n fig :
  Nd.wf layer_output → shape layer_output = [b; h; w; n] →
  Plt.run (plot_conv_layer layer_output) = Ok fig →
  n ≤ ceil_sqrt n * ceil_sqrt n ∧
  length (fig_axes fig) = ceil_sqrt n * ceil_sqrt n ∧
  ∀ i a, fig_axes fig !! i = Some a →
    ax_spec a = SubplotSpec (Plt.default_grid (ceil_sqrt n) (ceil_sqrt n)) i ∧
    (i < n →
       ∃ X,
         ax_calls a
         = [Imshow X (ImshowKw (Some "binary") None (Some "nearest")
                        None None);
            SetXTicks [] None; SetYTicks [] None] ∧
         shape X = [h; w] ∧
         ∀ p, p < h * w → data X !! p = data layer_output !! (p * n + i)) ∧
    (n ≤ i → ax_calls a = [SetXTicks [] None; SetYTicks [] None]).
Proof.
  intros Hwf Hshape Hrun.
  destruct (plot_conv_layer_ok_nonempty layer_output b h w n fig Hshape Hrun)
    as [Hb Hn2].
  apply plot_conv_layer_ok_inv in Hrun as (n' & css & Hn & _ & Hcss & ->).
  rewrite Hshape in Hn. injection Hn as <-.
  pose proof (mapM_length _ _ _ Hcss) as Hlen. rewrite length_seq in Hlen.
  split_and!; [apply ceil_sqrt_covers| |].
  { cbn [fig_axes]. rewrite length_zip_with, length_cells, Hlen. simpl. lia. }
  intros i a Ha. cbn [fig_axes] in Ha.
  apply lookup_zip_with_Some in Ha as (s & cs & -> & Hs & Hcs).
  assert (i < ceil_sqrt n * ceil_sqrt n) as Hi
    by (rewrite <-Hlen; by eapply lookup_lt_Some).
  rewrite lookup_cells in Hs by done. injection Hs as <-.
  destruct (mapM_lookup _ _ _ i i Hcss) as (cs' & Hcs' & Hpanel);
    [by apply lookup_seq_lt|].
  rewrite Hcs in Hcs'. injection Hcs' as <-. simpl.
  split_and!; [done| |].
  - intros Hlt.
    destruct (layer_panel_lt _ _ _ _ Hlt Hpanel) as (img & Himg & ->).
    destruct (index_sample_filter_ok layer_output b h w n i Hshape Hb Hlt)
      as (img' & Himg' & Hsh & Hdata).
    rewrite Himg in Himg'. injection Himg' as <-.
    exists img. split_and!; [done..|]. by apply Hdata.
  - intros Hge. rewrite layer_panel_ge in Hpanel by done.
    injection Hpanel as <-. done.
Qed.

Lemma plot_conv_layer_shows_first_sample_witness :
  let layer_output : ndarray Z :=
    NdArray [2; 2; 2; 3] (Z.of_nat <$> seq 0 24) in
  Nd.wf layer_output ∧ shape layer_output = [2; 2; 2; 3] ∧
  ∃ fig,
    Plt.run (plot_conv_layer layer_output) = Ok fig ∧
    3 ≤ ceil_sqrt 3 * ceil_sqrt 3 ∧
    length (fig_axes fig) = ceil_sqrt 3 * ceil_sqrt 3 ∧
    ∀ i a, fig_axes fig !! i = Some a →
      ax_spec a
      = SubplotSpec (Plt.default_grid (ceil_sqrt 3) (ceil_sqrt 3)) i ∧
      (i < 3 →
         ∃ X,
           ax_calls a
           = [Imshow X (ImshowKw (Some "binary") None (Some "nearest")
                          None None);
              SetXTicks [] None; SetYTicks [] None] ∧
           shape X = [2; 2] ∧
           ∀ p, p < 2 * 2 → data X !! p = data layer_output !! (p * 3 + i)) ∧
      (3 ≤ i → ax_calls a = [SetXTicks [] None; SetYTicks [] None]).
Proof.
  intros layer_output. split; [reflexivity|]. split; [reflexivity|].
  eexists. split; [vm_compute; reflexivity|].
  apply (plot_conv_layer_shows_first_sample layer_output 2 2 2 3);
    [reflexivity|reflexivity|vm_compute; reflexivity].
Defined.

(** ** The image comparison plotter *)

(** X14.  [compare_images] looks at the sizes of its three arrays only, not
    at their shapes: when each holds 784 values it returns a 1x3 figure whose
    panels show them as 28x28 images under the titles "Real image",
    "Corrupted image" and "Reconstructed image", in that order; otherwise
    the first [reshape] that does not fit raises a value error. *)
Theorem compare_images_needs_784_values {val}
    (real_image corrupted_image reconstructed_image : ndarray val) :
  Plt.run (compare_images real_image corrupted_image reconstructed_image)
  = if decide (length (data real_image) = 784 ∧
               length (data corrupted_image) = 784 ∧
               length (data reconstructed_image) = 784)
    then
      Ok (Figure
            [Axes (SubplotSpec (Plt.default_grid 1 3) 0)
               [Imshow (NdArray [28; 28] (data real_image))
                  (ImshowKw (Some "binary") None None None None);
                SetTitle "Real image"];
             Axes (SubplotSpec (Plt.default_grid 1 3) 1)
               [Imshow (NdArray [28; 28] (data corrupted_image))
                  (ImshowKw (Some "binary") None None None None);
                SetTitle "Corrupted image"];
             Axes (SubplotSpec (Plt.default_grid 1 3) 2)
               [Imshow (NdArray [28; 28] (data reconstructed_image))
                  (ImshowKw (Some "binary") None None None None);
                SetTitle "Reconstructed image"]]
            [Show])
    else Err (ValueError "cannot reshape array into the requested shape").
Proof.
  unfold Plt.run, compare_images.
  assert (∀ a : ndarray val,
    Nd.reshape a [28; 28]
    = if decide (length (data a) = 784) then Ok (NdArray [28; 28] (data a))
      else Err (ValueError "cannot reshape array into the requested shape"))
    as Hreshape.
  { intros a. unfold Nd.reshape.
    change (Nd.numel [28; 28]) with 784.
    repeat case_decide; done || lia. }
  unfold mbind at 1; unfold plt_bind at 1. cbn [Plt.subplots decide].
  change (Plt.subplots 1 3 Plt.new_figure)
    with (Ok (Ax1D [0; 1; 2],
              @Figure val
                [Axes (SubplotSpec (Plt.default_grid 1 3) 0) [];
                 Axes (SubplotSpec (Plt.default_grid 1 3) 1) [];
                 Axes (SubplotSpec (Plt.default_grid 1 3) 2) []] [])).
  cbv beta iota.
  unfold mbind at 1; unfold plt_bind at 1. cbn [Plt.lift axes_item Np.getitem].
  cbv beta iota. change ([0; 1; 2] !! 0) with (Some 0). cbv beta iota.
  unfold mbind at 1; unfold plt_bind at 1. rewrite Hreshape.
  destruct (decide (length (data real_image) = 784)) as [H1|H1]; last first.
  { rewrite decide_False by tauto. done. }
  destruct (decide (length (data corrupted_image) = 784)) as [H2|H2];
    last first.
  { rewrite decide_False by tauto. simpl.
    unfold mbind, plt_bind. simpl. rewrite Hreshape.
    by rewrite decide_False by done. }
  destruct (decide (length (data reconstructed_image) = 784)) as [H3|H3];
    last first.
  { rewrite decide_False by tauto. simpl.
    unfold mbind, plt_bind. simpl. rewrite !Hreshape.
    rewrite decide_True by done. simpl.
    by rewrite decide_False by done. }
  rewrite decide_True by tauto. simpl.
  unfold mbind, plt_bind. simpl. rewrite !Hreshape.
  rewrite !decide_True by done. simpl. done.
Qed.

(** ** The image collection saver: grid shape, inputs it takes, contents *)

Lemma grid_nearly_square n cols :
  0 < n → ceil_div n (ceil_sqrt n) = Ok cols →
  cols ≤ ceil_sqrt n ∧ ceil_sqrt n ≤ cols + 1 ∧
  n ≤ ceil_sqrt n * cols ∧ ceil_sqrt n * cols < n + ceil_sqrt n.
Proof.
  intros Hn Hcols.
  pose proof (ceil_sqrt_pos n Hn) as Hpos.
  pose proof (ceil_sqrt_covers n) as Hcover.
  destruct (ceil_div_ok n (ceil_sqrt n) Hpos) as (c & Hc & Hle & Hleast).
  rewrite Hcols in Hc. injection Hc as <-.
  pose proof (Hleast (ceil_sqrt n) Hcover) as Hcr.
  assert (ceil_sqrt n ≤ cols + 1) as Hrc.
  { destruct (decide (ceil_sqrt n ≤ cols + 1)) as [|Hgt]; [done|].
    pose proof (ceil_sqrt_least n (ceil_sqrt n - 1)) as Hl.
    assert (n ≤ (ceil_sqrt n - 1) * (ceil_sqrt n - 1)) by nia. lia. }
  split_and!; [done|done|lia|].
  destruct (decide (cols = 0)) as [->|Hc0]; [lia|].
  destruct (decide (ceil_sqrt n * cols < n + ceil_sqrt n)) as [|Hge]; [done|].
  pose proof (Hleast (cols - 1)) as Hl.
  assert (n ≤ (cols - 1) * ceil_sqrt n) by nia. lia.
Qed.

Section collection_extras.
Context {val : Type}.
Implicit Types (images : ndarray val) (fig : figure val).

(** Row [i] of a batch, entry by entry. *)
Lemma index_row_ok images n sh i :
  Nd.wf images → shape images = n :: sh → sh ≠ [] → i < n →
  ∃ row,
    index_row images i = Ok row ∧ shape row = sh ∧
    length (data row) = Nd.numel sh ∧
    ∀ p, p < Nd.numel sh →
      data row !! p = data images !! (i * Nd.numel sh + p).
Proof.
  intros Hwf Hshape Hsh Hi. unfold index_row, Nd.take_axis.
  rewrite Hshape. destruct sh as [|k sh]; [done|].
  rewrite decide_False by (simpl; lia). simpl.
  rewrite decide_True by done. eexists. split_and!; [done..| |].
  - simpl. rewrite app_nil_r, length_take, length_drop.
    unfold Nd.wf in Hwf. rewrite Hshape in Hwf.
    change (Nd.numel (n :: k :: sh)) with (n * Nd.numel (k :: sh)) in Hwf.
    change (foldr Nat.mul 1 sh) with (Nd.numel sh).
    change (k * Nd.numel sh) with (Nd.numel (k :: sh)). nia.
  - intros p Hp. simpl. rewrite app_nil_r.
    change (foldr Nat.mul 1 sh) with (Nd.numel sh).
    change (k * Nd.numel sh) with (Nd.numel (k :: sh)) in *.
    rewrite lookup_take_lt by done. rewrite lookup_drop. done.
Qed.

Lemma index_row_rank_1 images n i :
  shape images = [n] →
  index_row images i = Err (IndexError "too many indices for array").
Proof. intros Hshape. unfold index_row. by rewrite Hshape. Qed.

Lemma collection_panel_general images cmap n sh i :
  Nd.wf images → shape images = n :: sh → sh ≠ [] → i < n →
  collection_panel images cmap i
  = if decide (Nd.numel sh = 784)
    then match index_row images i with
         | Ok row =>
             Ok [Imshow (NdArray [28; 28] (data row))
                   (ImshowKw cmap None None None None);
                 SetXTicks [] None; SetYTicks [] None]
         | Err e => Err e
         end
    else Err (ValueError "cannot reshape array into the requested shape").
Proof.
  intros Hwf Hshape Hsh Hi.
  destruct (index_row_ok images n sh i Hwf Hshape Hsh Hi)
    as (row & Hrow & _ & Hlen & _).
  unfold collection_panel. rewrite Hrow. simpl. unfold Nd.reshape.
  change (Nd.numel [28; 28]) with 784. rewrite Hlen.
  repeat case_decide; done || lia.
Qed.

End collection_extras.

(** X15.  The grid [save_image_collection] lays out for n images has
    ceil(sqrt(n)) rows, the least r with n <= r * r, and ceil(n / rows)
    columns, the least c with n <= c * rows.  So it is square or one column
    short of square, holds all n images, and leaves fewer than one row of
    cells empty. *)
Theorem save_image_collection_grid_nearly_square {val} open_file
    (images : ndarray val) filename fig :
  Plt.run (save_image_collection open_file images filename) = Ok fig →
  ∃ n cols,
    shape images !! 0 = Some n ∧
    length (fig_axes fig) = n ∧
    (∀ a, a ∈ fig_axes fig →
       gs_nrows (ss_grid (ax_spec a)) = ceil_sqrt n ∧
       gs_ncols (ss_grid (ax_spec a)) = cols) ∧
    n ≤ ceil_sqrt n * ceil_sqrt n ∧ (∀ r, n ≤ r * r → ceil_sqrt n ≤ r) ∧
    ceil_div n (ceil_sqrt n) = Ok cols ∧
    n ≤ cols * ceil_sqrt n ∧ (∀ c, n ≤ c * ceil_sqrt n → cols ≤ c) ∧
    cols ≤ ceil_sqrt n ∧ ceil_sqrt n ≤ cols + 1 ∧
    ceil_sqrt n * cols < n + ceil_sqrt n.
Proof.
  intros (n & cols & Hn & Hpos & Hcols & _ & Hlen & _ & Hax)
    %save_image_collection_panels.
  exists n, cols.
  destruct (grid_nearly_square n cols Hpos Hcols) as (? & ? & ? & ?).
  destruct (ceil_div_ok n (ceil_sqrt n) (ceil_sqrt_pos n Hpos))
    as (c & Hc & Hle & Hleast).
  rewrite Hcols in Hc. injection Hc as <-.
  split_and!; [done|done| |apply ceil_sqrt_covers|apply ceil_sqrt_least
               |done..].
  intros a (i & Ha)%list_elem_of_lookup_1.
  destruct (Hax i a Ha) as [-> _]. done.
Qed.

Lemma save_image_collection_grid_nearly_square_witness :
  ∃ fig,
    Plt.run (save_image_collection (λ _, Ok ())
               (NdArray [5; 784] (replicate (5 * 784) 0%Z)) "digits")
      = Ok fig ∧
    ∃ n cols,
      shape (NdArray [5; 784] (replicate (5 * 784) 0%Z)) !! 0 = Some n ∧
      length (fig_axes fig) = n ∧
      (∀ a, a ∈ fig_axes fig →
         gs_nrows (ss_grid (ax_spec a)) = ceil_sqrt n ∧
         gs_ncols (ss_grid (ax_spec a)) = cols) ∧
      n ≤ ceil_sqrt n * ceil_sqrt n ∧ (∀ r, n ≤ r * r → ceil_sqrt n ≤ r) ∧
      ceil_div n (ceil_sqrt n) = Ok cols ∧
      n ≤ cols * ceil_sqrt n ∧ (∀ c, n ≤ c * ceil_sqrt n → cols ≤ c) ∧
      cols ≤ ceil_sqrt n ∧ ceil_sqrt n ≤ cols + 1 ∧
      ceil_sqrt n * cols < n + ceil_sqrt n.
Proof.
  eexists. split; [vm_compute; reflexivity|].
  apply (save_image_collection_grid_nearly_square (λ _, Ok ())
           (NdArray [5; 784] (replicate (5 * 784) 0%Z)) "digits").
  vm_compute. reflexivity.
Defined.

Lemma save_image_collection_errors {val} open_file (images : ndarray val)
    filename n sh :
  Nd.wf images → shape images = n :: sh →
  (n = 0 →
     Plt.run (save_image_collection open_file images filename)
     = Err (ZeroDivisionError "float division by zero")) ∧
  (0 < n → sh = [] →
     Plt.run (save_image_collection open_file images filename)
     = Err (IndexError "too many indices for array")) ∧
  (0 < n → sh ≠ [] → Nd.numel sh ≠ 784 →
     Plt.run (save_image_collection open_file images filename)
     = Err (ValueError "cannot reshape array into the requested shape")).
Proof.
  intros Hwf Hshape.
  assert (shape images !! 0 = Some n) as Hn by (by rewrite Hshape).
  split_and!.
  - intros ->. unfold Plt.run, save_image_collection, Nd.shape_at.
    rewrite Hn. reflexivity.
  - intros Hpos ->.
    destruct (ceil_div_ok n (ceil_sqrt n)) as (cols & Hcols & _).
    { by apply ceil_sqrt_pos. }
    rewrite (save_image_collection_run open_file images filename n cols
               Hn Hcols).
    rewrite (mapM_first_error _ _ 0 0
               (IndexError "too many indices for array"));
      [done|by apply lookup_seq_lt| |intros; lia].
    unfold collection_panel. by rewrite (index_row_rank_1 images n).
  - intros Hpos Hsh Hnumel.
    destruct (ceil_div_ok n (ceil_sqrt n)) as (cols & Hcols & _).
    { by apply ceil_sqrt_pos. }
    rewrite (save_image_collection_run open_file images filename n cols
               Hn Hcols).
    rewrite (mapM_first_error _ _ 0 0
               (ValueError "cannot reshape array into the requested shape"));
      [done|by apply lookup_seq_lt| |intros; lia].
    rewrite (collection_panel_general images None n sh) by done.
    by rewrite decide_False by done.
Qed.

(** X16.  Which calls [save_image_collection] takes.  For a well-formed
    array whose first extent is n: an empty batch divides by zero; a
    one-dimensional array has no second axis to slice; a batch whose images
    do not hold 784 values each cannot be reshaped.  Every other batch,
    flattened or not, is drawn image by image, and then the path decides:
    when it opens for writing the figure is saved there and the call
    returns, and when it does not the call raises the error of the file
    system. *)
Theorem save_image_collection_inputs {val} open_file (images : ndarray val)
    filename n sh :
  Nd.wf images → shape images = n :: sh →
  (n = 0 →
     Plt.run (save_image_collection open_file images filename)
     = Err (ZeroDivisionError "float division by zero")) ∧
  (0 < n → sh = [] →
     Plt.run (save_image_collection open_file images filename)
     = Err (IndexError "too many indices for array")) ∧
  (0 < n → sh ≠ [] → Nd.numel sh ≠ 784 →
     Plt.run (save_image_collection open_file images filename)
     = Err (ValueError "cannot reshape array into the requested shape")) ∧
  (0 < n → sh ≠ [] → Nd.numel sh = 784 →
     open_file (filename +:+ "_vis.png") = Ok () →
     ∃ fig,
       Plt.run (save_image_collection open_file images filename) = Ok fig ∧
       length (fig_axes fig) = n ∧
       files_written fig = [filename +:+ "_vis.png"]) ∧
  (0 < n → sh ≠ [] → Nd.numel sh = 784 →
     ∀ e, open_file (filename +:+ "_vis.png") = Err e →
          Plt.run (save_image_collection open_file images filename) = Err e).
Proof.
  intros Hwf Hshape.
  assert (shape images !! 0 = Some n) as Hn by (by rewrite Hshape).
  destruct (save_image_collection_errors open_file images filename n sh
              Hwf Hshape) as (Hzero & Hrank & Hsize).
  assert (0 < n → sh ≠ [] → Nd.numel sh = 784 →
    ∃ cols css,
      ceil_div n (ceil_sqrt n) = Ok cols ∧
      mapM (collection_panel images None) (seq 0 n) = Ok css) as Hdrawn.
  { intros Hpos Hsh Hnumel.
    destruct (ceil_div_ok n (ceil_sqrt n)) as (cols & Hcols & _).
    { by apply ceil_sqrt_pos. }
    destruct (mapM_total (collection_panel images None) (seq 0 n))
      as [css Hcss]; [|by eauto].
    intros i Hi%elem_of_seq.
    rewrite (collection_panel_general images None n sh) by (done || lia).
    rewrite decide_True by done.
    by destruct (index_row_ok images n sh i Hwf Hshape Hsh ltac:(lia))
      as (row & -> & _). }
  split_and!; [done..| |].
  - intros Hpos Hsh Hnumel Hopen.
    destruct (Hdrawn Hpos Hsh Hnumel) as (cols & css & Hcols & Hcss).
    pose proof (save_image_collection_run open_file images filename n cols
                  Hn Hcols) as Hrun.
    rewrite Hcss, Hopen in Hrun.
    eexists. split; [exact Hrun|].
    destruct (save_image_collection_panels _ _ _ _ Hrun)
      as (n' & cols' & Hn' & _ & _ & _ & Hlen & Hcalls & _).
    rewrite Hn in Hn'. injection Hn' as <-.
    split; [done|]. unfold files_written. by rewrite Hcalls.
  - intros Hpos Hsh Hnumel e Hopen.
    destruct (Hdrawn Hpos Hsh Hnumel) as (cols & css & Hcols & Hcss).
    rewrite (save_image_collection_run open_file images filename n cols
               Hn Hcols).
    by rewrite Hcss, Hopen.
Qed.

Lemma save_image_collection_inputs_witness :
  let images : ndarray Z := NdArray [3; 28; 28] (replicate (3 * 784) 0%Z) in
  let open_file : string → res unit :=
    λ path, if String.eqb path "a/b_vis.png"
            then Err (FileNotFoundError "No such file or directory")
            else Ok () in
  Nd.wf images ∧ shape images = [3; 28; 28] ∧
  (∃ fig,
     Plt.run (save_image_collection open_file images "digits") = Ok fig ∧
     length (fig_axes fig) = 3 ∧
     files_written fig = ["digits_vis.png"]) ∧
  Plt.run (save_image_collection open_file images "a/b")
  = Err (FileNotFoundError "No such file or directory").
Proof.
  intros images open_file.
  assert (Nd.wf images) as Hwf by (vm_compute; reflexivity).
  split; [exact Hwf|]. split; [reflexivity|]. split.
  - apply (proj1 (proj2 (proj2 (proj2
             (save_image_collection_inputs open_file images "digits"
                3 [28; 28] Hwf eq_refl)))));
      [lia|done|reflexivity|reflexivity].
  - apply (proj2 (proj2 (proj2 (proj2
             (save_image_collection_inputs open_file images "a/b"
                3 [28; 28] Hwf eq_refl)))));
      [lia|done|reflexivity|reflexivity].
Defined.

(** X17.  Panel i of the saved grid shows image i of the batch: a 28x28
    image whose p-th pixel is the p-th value of the i-th image. *)
Theorem save_image_collection_shows_images {val} open_file
    (images : ndarray val) filename n sh fig :
  Nd.wf images → shape images = n :: sh →
  Plt.run (save_image_collection open_file images filename) = Ok fig →
  Nd.numel sh = 784 ∧
  ∀ i, i < n →
    ∃ a X,
      fig_axes fig !! i = Some a ∧
      ax_calls a = [Imshow X (ImshowKw None None None None None);
                    SetXTicks [] None; SetYTicks [] None] ∧
      shape X = [28; 28] ∧
      ∀ p, p < 784 → data X !! p = data images !! (i * 784 + p).
Proof.
  intros Hwf Hshape Hrun.
  assert (0 < n ∧ sh ≠ [] ∧ Nd.numel sh = 784) as (Hpos & Hsh & Hnumel).
  { destruct (save_image_collection_errors open_file images filename n sh
                Hwf Hshape) as (Hzero & Hrank & Hsize).
    destruct (decide (n = 0)) as [Hz|Hnz]; [rewrite (Hzero Hz) in Hrun; done|].
    destruct (decide (sh = [])) as [He|Hne].
    { rewrite (Hrank ltac:(lia) He) in Hrun. done. }
    destruct (decide (Nd.numel sh = 784)) as [|Hs]; [split_and!; done || lia|].
    rewrite (Hsize ltac:(lia) Hne Hs) in Hrun. done. }
  split; [done|]. intros i Hi.
  destruct (save_image_collection_panels _ _ _ _ Hrun)
    as (n' & cols & Hn & _ & _ & _ & Hlen & _ & Hax).
  rewrite Hshape in Hn. injection Hn as <-.
  destruct (lookup_lt_is_Some_2 (fig_axes fig) i ltac:(lia)) as [a Ha].
  destruct (Hax i a Ha) as (_ & row & Hrow & _ & Hcalls).
  destruct (index_row_ok images n sh i Hwf Hshape Hsh Hi)
    as (row' & Hrow' & _ & _ & Hpix).
  rewrite Hrow in Hrow'. injection Hrow' as <-.
  exists a, (NdArray [28; 28] (data row)). split_and!; [done..|].
  intros p Hp. simpl. rewrite Hpix by lia. by rewrite Hnumel.
Qed.

Lemma save_image_collection_shows_images_witness :
  let images : ndarray Z := NdArray [2; 784] (Z.of_nat <$> seq 0 (2 * 784)) in
  let open_file : string → res unit := λ _, Ok () in
  Nd.wf images ∧ shape images = [2; 784] ∧
  ∃ fig,
    Plt.run (save_image_collection open_file images "digits") = Ok fig ∧
    Nd.numel [784] = 784 ∧
    ∀ i, i < 2 →
      ∃ a X,
        fig_axes fig !! i = Some a ∧
        ax_calls a = [Imshow X (ImshowKw None None None None None);
                      SetXTicks [] None; SetYTicks [] None] ∧
        shape X = [28; 28] ∧
        ∀ p, p < 784 → data X !! p = data images !! (i * 784 + p).
Proof.
  intros images open_file.
  assert (Nd.wf images) as Hwf by (vm_compute; reflexivity).
  split; [exact Hwf|]. split; [reflexivity|].
  eexists. split; [vm_compute; reflexivity|].
  apply (save_image_collection_shows_images open_file images "digits"
           2 [784]);
    [exact Hwf|reflexivity|vm_compute; reflexivity].
Defined.

(** ** The autoencoder-weight visualizer: which unit a panel shows *)

Section transpose_lookup.
Context {val : Type}.
Implicit Types (l : list val) (rows : list (list val)).

Lemma lookup_chunks n block l p :
  n * block ≤ length l → p < n →
  Nd.chunks n block l !! p = Some (take block (drop (p * block) l)).
Proof.
  revert l p. induction n as [|n IH]; intros l p Hl Hp; [lia|].
  simpl. destruct p as [|p]; simpl.
  - by rewrite drop_0.
  - rewrite IH by (rewrite ?length_drop; simpl in Hl; lia).
    by rewrite drop_drop.
Qed.

Lemma lookup_ltranspose m rows k :
  Forall (λ row, length row = m) rows → k < m →
  ∃ col,
    Nd.ltranspose m rows !! k = Some col ∧ length col = length rows ∧
    ∀ p row, rows !! p = Some row → col !! p = row !! k.
Proof.
  intros Hrows Hk. unfold Nd.ltranspose.
  induction Hrows as [|row rows Hrow _ (col & Hcol & Hlen & Hpix)]; simpl.
  - exists []. rewrite lookup_replicate_2 by done. by split_and!.
  - destruct (lookup_lt_is_Some_2 row k ltac:(lia)) as [x Hx].
    exists (x :: col). rewrite lookup_zip_with, Hx, Hcol. simpl.
    split_and!; [done|by rewrite Hlen|].
    intros [|p] row' Hrow'; simplify_eq/=; [done|]. by apply Hpix.
Qed.

Lemma lookup_concat_uniform d (ls : list (list val)) k col p :
  Forall (λ c, length c = d) ls → ls !! k = Some col → p < d →
  concat ls !! (k * d + p) = col !! p.
Proof.
  intros Hls. revert k. induction Hls as [|c ls Hc _ IH]; intros k Hk Hp;
    [done|].
  simpl. destruct k as [|k]; simplify_eq/=.
  - by rewrite lookup_app_l by lia.
  - rewrite lookup_app_r by lia.
    replace (length c + k * length c + p - length c) with (k * length c + p)
      by lia.
    by apply IH.
Qed.

Lemma chunks_singletons l :
  Nd.chunks (length l) 1 l = (λ x, [x]) <$> l.
Proof. induction l as [|x l IH]; simpl; [done|]. by rewrite drop_0, IH. Qed.

Lemma ltranspose_singletons l :
  Nd.ltranspose 1 ((λ x, [x]) <$> l) = [l].
Proof.
  unfold Nd.ltranspose. induction l as [|x l IH]; [done|].
  rewrite fmap_cons. cbn [foldr]. by rewrite IH.
Qed.

Lemma transpose_data_cons d (sh : list nat) l :
  Nd.transpose_data (d :: sh) l
  = concat (Nd.ltranspose (Nd.numel sh)
              (Nd.transpose_data sh <$> Nd.chunks d (Nd.numel sh) l)).
Proof. done. Qed.

(** Transposing a one-dimensional array changes nothing. *)
Lemma transpose_data_1d u l :
  length l = u → Nd.transpose_data [u] l = l.
Proof.
  intros <-. simpl. change (Nd.numel []) with 1.
  rewrite chunks_singletons, <-list_fmap_compose.
  rewrite (list_fmap_ext _ (λ x, [x]) l) by done.
  rewrite ltranspose_singletons. simpl. apply app_nil_r.
Qed.

(** Entry (k, p) of the transpose of an r x u matrix is entry (p, k) of the
    matrix. *)
Lemma transpose_matrix_lookup (a : ndarray val) r u k p :
  Nd.wf a → shape a = [r; u] → k < u → p < r →
  data (Nd.transpose a) !! (k * r + p) = data a !! (p * u + k).
Proof.
  intros Hwf Hshape Hk Hp. unfold Nd.wf, Nd.transpose in *.
  rewrite Hshape in *. unfold Nd.numel in Hwf. simpl in Hwf.
  rewrite Nat.mul_1_r in Hwf.
  cbn [data]. rewrite transpose_data_cons.
  change (Nd.numel [u]) with (u * 1). rewrite Nat.mul_1_r.
  destruct (chunks_lengths r u (data a)) as [Hn Hall]; [lia|].
  assert (Nd.transpose_data [u] <$> Nd.chunks r u (data a)
          = Nd.chunks r u (data a)) as ->.
  { rewrite <-(list_fmap_id (Nd.chunks r u (data a))) at 2.
    apply list_fmap_ext. intros j c Hc. simpl.
    apply transpose_data_1d.
    by eapply (proj1 (list.Forall_lookup _ _) Hall). }
  destruct (lookup_ltranspose u (Nd.chunks r u (data a)) k Hall Hk)
    as (col & Hcol & Hlen & Hpix).
  destruct (ltranspose_lengths u (Nd.chunks r u (data a)) Hall)
    as [_ Hcols].
  rewrite Hn in Hcols, Hlen.
  rewrite (lookup_concat_uniform r _ k col p Hcols Hcol Hp).
  rewrite (Hpix p _ (lookup_chunks r u (data a) p ltac:(lia) Hp)).
  rewrite lookup_take_lt by done. by rewrite lookup_drop.
Qed.

End transpose_lookup.

(** X18.  For a well-formed 784 x u weight matrix with at least a hundred
    units [plot_autoencoder_weights] returns a figure of one hundred panels
    in which panel k shows unit k: a 28x28 image whose p-th pixel is the
    weight in row p, column k of the matrix, drawn with the "binary" colour
    map. *)
Theorem plot_autoencoder_weights_shows_units {val} (weights : ndarray val) u :
  Nd.wf weights → shape weights = [784; u] → 100 ≤ u →
  ∃ fig,
    Plt.run (plot_autoencoder_weights weights) = Ok fig ∧
    length (fig_axes fig) = 100 ∧
    ∀ k, k < 100 →
      ∃ a X,
        fig_axes fig !! k = Some a ∧
        ax_calls a = [Imshow X (ImshowKw (Some "binary") None None None None);
                      SetXTicks [] None; SetYTicks [] None] ∧
        shape X = [28; 28] ∧
        ∀ p, p < 784 → data X !! p = data weights !! (p * u + k).
Proof.
  intros Hwf Hshape Hu.
  destruct (plot_autoencoder_weights_cases weights 784 u Hwf Hshape)
    as (Hret & Hsome & _).
  destruct (Hsome eq_refl Hu) as [fig Hrun]. exists fig.
  destruct (Hret fig Hrun) as (_ & _ & Hlen). split_and!; [done..|].
  intros k Hk.
  pose proof (transpose_wf weights Hwf) as Hwft.
  assert (shape (Nd.transpose weights) = [u; 784]) as Hsht.
  { unfold Nd.transpose. simpl. by rewrite Hshape. }
  assert (shape (Nd.transpose weights) !! 1 = Some 784) as Hdims
    by (by rewrite Hsht).
  destruct (ceil_div_ok 784 (ceil_sqrt 784)) as (cols & Hcols & _).
  { apply ceil_sqrt_pos. lia. }
  rewrite (plot_autoencoder_weights_run weights 784 cols Hdims Hcols) in Hrun.
  change (784 `min` 100) with 100 in Hrun.
  destruct (mapM _ _) as [css|] eqn:Hcss; [|done].
  assert (fig_axes fig
          = zip_with Axes
              (Plt.cells (GridSpec 10 10 (Some 1%Q) (Some 0%Q) (Some 1%Q)
                            (Some 0%Q) (Some 0%Q) (Some 0%Q))) css) as Hax.
  { by injection Hrun as <-. }
  destruct (mapM_lookup _ _ _ k k Hcss) as (cs & Hcs & Hpanel).
  { apply lookup_seq_lt. lia. }
  rewrite (collection_panel_general (Nd.transpose weights) (Some "binary")
             u [784]) in Hpanel by (done || lia).
  rewrite decide_True in Hpanel by done.
  destruct (index_row_ok (Nd.transpose weights) u [784] k Hwft Hsht
              ltac:(done) ltac:(lia)) as (row & Hrow & _ & _ & Hpix).
  rewrite Hrow in Hpanel. injection Hpanel as <-.
  eexists _, (NdArray [28; 28] (data row)). split.
  { rewrite Hax, lookup_zip_with, lookup_cells by (simpl; lia).
    simpl. by rewrite Hcs. }
  split_and!; [done..|]. intros p Hp. simpl.
  change (Nd.numel [784]) with 784 in Hpix. rewrite Hpix by done.
  by apply transpose_matrix_lookup; [..|lia|].
Qed.

Lemma plot_autoencoder_weights_shows_units_witness :
  let weights : ndarray Z := NdArray [784; 100] (replicate (784 * 100) 0%Z) in
  Nd.wf weights ∧ shape weights = [784; 100] ∧ 100 ≤ 100 ∧
  ∃ fig,
    Plt.run (plot_autoencoder_weights weights) = Ok fig ∧
    length (fig_axes fig) = 100 ∧
    ∀ k, k < 100 →
      ∃ a X,
        fig_axes fig !! k = Some a ∧
        ax_calls a = [Imshow X (ImshowKw (Some "binary") None None None None);
                      SetXTicks [] None; SetYTicks [] None] ∧
        shape X = [28; 28] ∧
        ∀ p, p < 784 → data X !! p = data weights !! (p * 100 + k).
Proof.
  intros weights.
  assert (Nd.wf weights) as Hwf.
  { unfold Nd.wf, weights, Nd.numel. cbn [data shape foldr].
    rewrite length_replicate. lia. }
  split; [exact Hwf|]. split; [reflexivity|]. split; [lia|].
  apply (plot_autoencoder_weights_shows_units weights 100);
    [exact Hwf|reflexivity|lia].
Defined.

(** ** The sample plotter: the inputs it takes *)

Section plot_images_inputs.
Context {val : Type}.
Implicit Types (images : ndarray val).


Lemma image_panel_flat_unreshaped images cls_true cls_pred img_shape n k i :
  shape images = [n; k] → i < n →
  image_panel images cls_true cls_pred img_shape (Some false) i
  = Err (TypeError "Invalid shape for image data").
Proof.
  intros Hshape Hi. unfold image_panel, Nd.take_axis. rewrite Hshape. simpl.
  by rewrite decide_True by done.
Qed.

End plot_images_inputs.

(** X19.  With [reshape=False] the images are shown as they are stored, so
    a batch of flattened images, each a one-dimensional row, is rejected by
    [imshow] with a type error at the first sample. *)
Theorem plot_images_unreshaped_flat_batch {val} (images : ndarray val)
    y_pred logits cls_true cls_pred img_shape n k :
  shape images = [n; k] → 2 ≤ n →
  ∃ msg,
    Plt.run (plot_images images y_pred logits cls_true cls_pred img_shape
               (Some false)) = Err (TypeError msg).
Proof.
  intros Hshape Hn. eexists.
  rewrite (plot_images_run _ _ _ _ _ _ _ n) by (by rewrite ?Hshape).
  rewrite (mapM_first_error _ _ 0 0
             (TypeError "Invalid shape for image data"));
    [done|apply lookup_seq_lt; lia| |intros; lia].
  eapply image_panel_flat_unreshaped; [exact Hshape|lia].
Qed.

Lemma plot_images_unreshaped_flat_batch_witness :
  shape (NdArray [2; 4] [0; 1; 1; 0; 1; 0; 0; 1]%Z) = [2; 4] ∧ 2 ≤ 2 ∧
  ∃ msg,
    Plt.run (plot_images (NdArray [2; 4] [0; 1; 1; 0; 1; 0; 0; 1]%Z)
               [[5]; [7]]%Z [[1]; [2]]%Z [1; 3]%Z [1; 8]%Z [2; 2]
               (Some false)) = Err (TypeError msg).
Proof.
  split; [reflexivity|]. split; [lia|].
  apply (plot_images_unreshaped_flat_batch
           (NdArray [2; 4] [0; 1; 1; 0; 1; 0; 0; 1]%Z) _ _ _ _ _ 2 4);
    [reflexivity|lia].
Defined.


